(** * RGP-BACKEND-ENQUIRY: authentication, authorization and enquiry listing

    A shallow embedding of the Go sources of the enquiry backend
    (models, services, middleware and controllers) together with the
    properties its specification states about them.

    Conventions of the embedding:
    - a Go [string] is a byte sequence: Rocq's [string] (a list of 8-bit
      [ascii]); [len] is [String.length];
    - [int64] values are integers in [Z]; every arithmetic operation of
      the source is followed by [wrap64], the two's complement
      wrap-around of Go;
    - a function returning [(T, error)] returns [result T];
    - third-party packages (the JWT library, bcrypt, the MongoDB driver,
      encoding/json) are interfaces: type classes whose operations the
      embedded code calls exactly where the source does. *)

From Stdlib Require Import ZArith Lia Bool List Ascii String DecimalString.
From stdpp Require Import base option gmap strings list.
Import ListNotations.

Local Open Scope string_scope.
Local Open Scope Z_scope.

Set Default Proof Using "Type".

(* ===================================================================== *)
(** ** Go base layer: errors, int64, strings *)
(* ===================================================================== *)

(** The dynamic types behind Go's [error] interface in this program:
    [errors.New] strings (also the errors of the libraries), and
    [*models.AuthError], which [SignIn] recognises by a type assertion. *)
Record AuthError := mkAuthError {
  Type_ : string;
  Message : string;
  Details : string
}.

Inductive error : Type :=
| errorString (text : string)
| authError (e : AuthError).

(** [err.Error()]. *)
Definition Error (e : error) : string :=
  match e with
  | errorString text => text
  | authError a => Message a
  end.

(** [(T, error)] results: a value, or a non-nil error. *)
Inductive result (T : Type) : Type :=
| Ok (v : T)
| Err (e : error).
Arguments Ok {T} v.
Arguments Err {T} e.

(** How a call ends: it returns, or the run-time panics. *)
Inductive outcome (T : Type) : Type :=
| Returned (v : T)
| Panicked (msg : string).
Arguments Returned {T} v.
Arguments Panicked {T} msg.

Module errors.
Definition New {T} (text : string) : result T := Err (errorString text).
End errors.

Module int64.
Definition min_int : Z := - 2 ^ 63.
Definition max_int : Z := 2 ^ 63 - 1.

Definition in_range (z : Z) : Prop := min_int <= z <= max_int.

(** Two's complement wrap-around of a mathematical integer. *)
Definition wrap64 (z : Z) : Z := (z + 2 ^ 63) mod 2 ^ 64 - 2 ^ 63.

Definition add (a b : Z) : Z := wrap64 (a + b).
Definition sub (a b : Z) : Z := wrap64 (a - b).
Definition mul (a b : Z) : Z := wrap64 (a * b).
(** Go's [/] truncates toward zero and panics on a zero divisor. *)
Definition div (a b : Z) : outcome Z :=
  if b =? 0 then Panicked "runtime error: integer divide by zero"
  else Returned (wrap64 (Z.quot a b)).
End int64.

Module strings.
Definition len (s : string) : Z := Z.of_nat (String.length s).

(** [strings.HasPrefix]. *)
Definition HasPrefix (s pre : string) : bool := String.prefix pre s.

(** [strings.TrimPrefix]. *)
Definition TrimPrefix (s pre : string) : string :=
  if HasPrefix s pre
  then String.substring (String.length pre) (String.length s - String.length pre) s
  else s.

(** [strings.Contains] for a one-byte needle. *)
Fixpoint ContainsByte (s : string) (c : ascii) : bool :=
  match s with
  | EmptyString => false
  | String d s' => if Ascii.eqb d c then true else ContainsByte s' c
  end.

(** [strings.Split(s, sep)] for a one-byte separator: the pieces of
    [s] between the occurrences of [sep]; never the empty slice. *)
Fixpoint Split (s : string) (sep : ascii) : list string :=
  match s with
  | EmptyString => [EmptyString]
  | String c s' =>
      if Ascii.eqb c sep then EmptyString :: Split s' sep
      else match Split s' sep with
           | [] => [String c EmptyString]
           | p :: ps => String c p :: ps
           end
  end.

Definition is_upper (c : ascii) : bool :=
  (65 <=? Z.of_N (N_of_ascii c)) && (Z.of_N (N_of_ascii c) <=? 90).

Definition lower_byte (c : ascii) : ascii :=
  if is_upper c then ascii_of_N (N_of_ascii c + 32) else c.

(** [strings.ToLower] on a string of ASCII bytes (the only strings it
    is applied to here): upper-case letters are shifted, every other
    byte is kept. *)
Fixpoint ToLower (s : string) : string :=
  match s with
  | EmptyString => EmptyString
  | String c s' => String (lower_byte c) (ToLower s')
  end.
End strings.

(* ===================================================================== *)
(** ** Go's time package, as far as the sources use it *)
(* ===================================================================== *)

Module time.

(** [time.Duration]: a count of nanoseconds. *)
Definition Duration := Z.
Definition Nanosecond : Duration := 1.
Definition Millisecond : Duration := 1000000.
Definition Second : Duration := 1000000000.
Definition Minute : Duration := 60 * Second.
Definition Hour : Duration := 60 * Minute.

(** [time.Time]: an instant, as nanoseconds since the Unix epoch. *)
Definition Time := Z.

Definition Add (t : Time) (d : Duration) : Time := t + d.

(** [t.Truncate(d)] for [d > 0]: round down to a multiple of [d]. *)
Definition Truncate (t : Time) (d : Duration) : Time := t - t mod d.

(** [t.Unix()] and [t.Nanosecond()]. *)
Definition Unix (t : Time) : Z := t / Second.
Definition Nanosecond_of (t : Time) : Z := t mod Second.

(** Days between 1970-01-01 and the civil date [y]-[m]-[d] of the
    proleptic Gregorian calendar, years counted from March. *)
Definition days_from_civil (y m d : Z) : Z :=
  let y' := if m <=? 2 then y - 1 else y in
  let era := y' / 400 in
  let yoe := y' mod 400 in
  let mp := (m + 9) mod 12 in
  let doy := (153 * mp + 2) / 5 + d - 1 in
  let doe := yoe * 365 + yoe / 4 - yoe / 100 + doy in
  era * 146097 + doe - 719468.

(** The civil date of a day number: the inverse of [days_from_civil]. *)
Definition civil_from_days (n : Z) : Z * Z * Z :=
  let z := n + 719468 in
  let era := z / 146097 in
  let doe := z mod 146097 in
  let yoe := (doe - doe / 1460 + doe / 36524 - doe / 146096) / 365 in
  let doy := doe - (365 * yoe + yoe / 4 - yoe / 100) in
  let mp := (5 * doy + 2) / 153 in
  let d := doy - (153 * mp + 2) / 5 + 1 in
  let m := if mp <? 10 then mp + 3 else mp - 9 in
  let y := yoe + era * 400 in
  (if m <=? 2 then y + 1 else y, m, d).

Definition nsec_per_day : Z := 86400 * Second.

(** [time.Date(year, month, day, hour, min, sec, nsec, time.UTC)]. *)
Definition Date (year month day hour min sec nsec : Z) : Time :=
  (days_from_civil year month day * 86400 + hour * 3600 + min * 60 + sec) * Second
  + nsec.

(** [t.Year()], [t.Month()], [t.Day()] of a time in UTC. *)
Definition Year (t : Time) : Z := fst (fst (civil_from_days (t / nsec_per_day))).
Definition Month (t : Time) : Z := snd (fst (civil_from_days (t / nsec_per_day))).
Definition Day (t : Time) : Z := snd (civil_from_days (t / nsec_per_day)).

Definition isLeap (year : Z) : bool :=
  (year mod 4 =? 0) && (negb (year mod 100 =? 0) || (year mod 400 =? 0)).

Definition daysIn (month year : Z) : Z :=
  if month =? 2 then (if isLeap year then 29 else 28)
  else if (month =? 4) || (month =? 6) || (month =? 9) || (month =? 11) then 30
  else 31.

Definition isDigit (c : ascii) : bool :=
  (48 <=? Z.of_N (N_of_ascii c)) && (Z.of_N (N_of_ascii c) <=? 57).

Definition digit (c : ascii) : Z := Z.of_N (N_of_ascii c) - 48.

(** [getnum(s, true)]: exactly two digits. *)
Definition getnum (s : string) : option (Z * string) :=
  match s with
  | String a (String b rest) =>
      if isDigit a && isDigit b then Some (digit a * 10 + digit b, rest) else None
  | _ => None
  end.

(** The four digit year of the layout element [2006]. *)
Definition getyear (s : string) : option (Z * string) :=
  match s with
  | String a (String b (String c (String d rest))) =>
      if isDigit a && isDigit b && isDigit c && isDigit d
      then Some (digit a * 1000 + digit b * 100 + digit c * 10 + digit d, rest)
      else None
  | _ => None
  end.

(** The literal [-] of the layout. *)
Definition skip_dash (s : string) : option string :=
  match s with
  | String c rest => if Ascii.eqb c "-"%char then Some rest else None
  | EmptyString => None
  end.

(** The fields [time.Parse] reads under the layout [2006-01-02]:
    year, dash, two digit month in 1..12, dash, two digit day, no
    text left over, and a day that exists in that month. *)
Definition parse_ymd (value : string) : option (Z * Z * Z) :=
  match getyear value with
  | None => None
  | Some (year, value) =>
    match skip_dash value with
    | None => None
    | Some value =>
      match getnum value with
      | None => None
      | Some (month, value) =>
        if (month <=? 0) || (12 <? month) then None else
        match skip_dash value with
        | None => None
        | Some value =>
          match getnum value with
          | None => None
          | Some (day, value) =>
            if negb (String.eqb value "") then None
            else if (day <? 1) || (daysIn month year <? day) then None
            else Some (year, month, day)
          end
        end
      end
    end
  end.

(** [time.Parse("2006-01-02", value)]: midnight UTC of the date read. *)
Definition Parse (value : string) : result Time :=
  match parse_ymd value with
  | Some (year, month, day) => Ok (Date year month day 0 0 0 0)
  | None => errors.New ("parsing time: cannot parse " ++ value)%string
  end.

End time.

(* ===================================================================== *)
(** ** The process environment: clock, time zone, database *)
(* ===================================================================== *)

(** What a handler reads and changes besides its request: the wall
    clock (the successive readings of [time.Now()], [ticks] of them
    consumed so far), the RFC 3339 rendering of a time in the process's
    local zone, and the state of the MongoDB database. *)
Record World (DB : Type) := mkWorld {
  clock : nat -> time.Time;
  ticks : nat;
  zone_format : time.Time -> string;
  db : DB
}.
Arguments mkWorld {DB}.
Arguments clock {DB}.
Arguments ticks {DB}.
Arguments zone_format {DB}.
Arguments db {DB}.

(** Effectful code is a state transformer over the world. *)
Definition M (DB A : Type) : Type := World DB -> A * World DB.

Definition ret {DB A} (a : A) : M DB A := fun w => (a, w).

Definition bindM {DB A B} (m : M DB A) (k : A -> M DB B) : M DB B :=
  fun w => let (a, w') := m w in k a w'.

Notation "'do' x <- m ; k" := (bindM m (fun x => k))
  (at level 10, x name, m at level 100, k at level 200).

(** [time.Now()]: the next reading of the clock. *)
Definition time_Now {DB} : M DB time.Time :=
  fun w => (clock w (ticks w),
            {| clock := clock w; ticks := S (ticks w);
               zone_format := zone_format w; db := db w |}).

(** [t.Format(time.RFC3339)]. *)
Definition Format_RFC3339 {DB} (t : time.Time) : M DB string :=
  fun w => (zone_format w t, w).

(** A read of the database, and an operation that may change it. *)
Definition db_read {DB A} (f : DB -> A) : M DB A := fun w => (f (db w), w).

Definition db_update {DB A} (f : DB -> A * DB) : M DB A :=
  fun w => let (a, d) := f (db w) in
           (a, {| clock := clock w; ticks := ticks w;
                  zone_format := zone_format w; db := d |}).

(* ===================================================================== *)
(** ** golang.org/x/crypto/bcrypt *)
(* ===================================================================== *)

Module bcrypt.

Definition DefaultCost : Z := 10.

(** The two entry points the program calls. [GenerateFromPassword]
    also takes the bytes it draws from [crypto/rand] for the salt. *)
Class Package := {
  GenerateFromPassword : string -> Z -> string -> result string;
  CompareHashAndPassword : string -> string -> option error
}.

End bcrypt.

(* ===================================================================== *)
(** ** models: users *)
(* ===================================================================== *)

Module models.

(** [type UserRole string]. *)
Definition UserRole := string.
Definition RoleAdmin : UserRole := "admin".
Definition RoleSuperAdmin : UserRole := "super-admin".

(** [primitive.ObjectID]: twelve bytes; [Hex] prints them. *)
Definition ObjectID := list ascii.

Definition hex_digit (n : N) : ascii :=
  if (n <? 10)%N then ascii_of_N (48 + n) else ascii_of_N (87 + n).

Fixpoint Hex (id : ObjectID) : string :=
  match id with
  | [] => EmptyString
  | b :: id' =>
      String (hex_digit (N_of_ascii b / 16))
        (String (hex_digit (N_of_ascii b mod 16)) (Hex id'))
  end.

Record User := mkUser {
  ID : ObjectID;
  Username : string;
  FirstName : string;
  LastName : string;
  Email : string;
  Password : string;
  ProfilePic : option string;
  Role : UserRole;
  CompanyName : option string;
  IsActive : bool;
  LastLogin : option time.Time;
  CreatedAt : time.Time;
  UpdatedAt : time.Time
}.

(** The test of the cleaning loop of [GenerateUsernameFromEmail]:
    [a-z], [A-Z], [0-9] or underscore. The loop ranges over runes; a
    rune below 0x80 is exactly a byte below 0x80 of the string, and
    every other rune (a multi-byte sequence or an invalid byte) fails
    the test, so the loop is this filter over the bytes. *)
Definition keep_char (c : ascii) : bool :=
  let n := Z.of_N (N_of_ascii c) in
  ((97 <=? n) && (n <=? 122)) || ((65 <=? n) && (n <=? 90)) ||
  ((48 <=? n) && (n <=? 57)) || (n =? 95).

(** The [strings.Builder] loop: [WriteRune] for every kept character. *)
Fixpoint clean_loop (username : string) (cleanUsername : string) : string :=
  match username with
  | EmptyString => cleanUsername
  | String char rest =>
      if keep_char char
      then clean_loop rest (cleanUsername ++ String char EmptyString)
      else clean_loop rest cleanUsername
  end.

Definition GenerateUsernameFromEmail (u : User) : string :=
  if String.eqb (Email u) "" then ""
  else
    let parts := strings.Split (Email u) "@"%char in
    match parts with
    | username :: _ =>
        let cleanUsername := clean_loop username "" in
        let result := strings.ToLower cleanUsername in
        let result :=
          if strings.len result <? 3 then result ++ "user" else result in
        let result :=
          if strings.len result >? 30 then String.substring 0 30 result else result in
        result
    | [] => "user"
    end.

Definition set_Password (u : User) (p : string) : User :=
  {| ID := ID u; Username := Username u; FirstName := FirstName u;
     LastName := LastName u; Email := Email u; Password := p;
     ProfilePic := ProfilePic u; Role := Role u; CompanyName := CompanyName u;
     IsActive := IsActive u; LastLogin := LastLogin u; CreatedAt := CreatedAt u;
     UpdatedAt := UpdatedAt u |}.

Section Passwords.
Context `{bcrypt.Package}.

(** [HashPassword]: the receiver after the call, and the error
    returned. [rnd] are the random bytes bcrypt consumes. *)
Definition HashPassword (u : User) (rnd : string) : User * option error :=
  match bcrypt.GenerateFromPassword (Password u) bcrypt.DefaultCost rnd with
  | Err err => (u, Some err)
  | Ok hashedPassword => (set_Password u hashedPassword, None)
  end.

Definition CheckPassword (u : User) (password : string) : bool :=
  match bcrypt.CompareHashAndPassword (Password u) password with
  | None => true
  | Some _ => false
  end.

End Passwords.

(** [ToResponse]: the user without the password. *)
Record UserResponse := mkUserResponse {
  UR_ID : ObjectID;
  UR_Username : string;
  UR_FirstName : string;
  UR_LastName : string;
  UR_Email : string;
  UR_ProfilePic : option string;
  UR_Role : UserRole;
  UR_CompanyName : option string;
  UR_IsActive : bool;
  UR_LastLogin : option time.Time;
  UR_CreatedAt : time.Time;
  UR_UpdatedAt : time.Time
}.

Definition ToResponse (u : User) : UserResponse :=
  {| UR_ID := ID u; UR_Username := Username u; UR_FirstName := FirstName u;
     UR_LastName := LastName u; UR_Email := Email u; UR_ProfilePic := ProfilePic u;
     UR_Role := Role u; UR_CompanyName := CompanyName u; UR_IsActive := IsActive u;
     UR_LastLogin := LastLogin u; UR_CreatedAt := CreatedAt u;
     UR_UpdatedAt := UpdatedAt u |}.

Record SignInRequest := mkSignInRequest {
  SI_Email : string;
  SI_Password : string
}.

Record SignInResponse := mkSignInResponse {
  SR_User : UserResponse;
  SR_Message : string;
  SR_LoginTime : time.Time;
  SR_Token : string;
  SR_ExpiresAt : time.Time;
  SR_Role : UserRole
}.

(** The predefined authentication errors. *)
Definition ErrUserNotFound : AuthError :=
  {| Type_ := "user_not_found"; Message := "User not found";
     Details := "No user exists with this email address" |}.
Definition ErrInvalidPassword : AuthError :=
  {| Type_ := "invalid_password"; Message := "Invalid password";
     Details := "The password you entered is incorrect" |}.
Definition ErrAccountDeactivated : AuthError :=
  {| Type_ := "account_deactivated"; Message := "Account deactivated";
     Details := "Your account has been deactivated. Please contact support" |}.
Definition ErrInvalidCredentials : AuthError :=
  {| Type_ := "invalid_credentials"; Message := "Invalid credentials";
     Details := "Email or password is incorrect" |}.

(** *** Enquiries *)

(** [primitive.DateTime]: milliseconds since the Unix epoch, an int64. *)
Definition DateTime := Z.

(** [primitive.NewDateTimeFromTime]. *)
Definition NewDateTimeFromTime (t : time.Time) : DateTime :=
  int64.add (int64.mul (time.Unix t) 1000)
            (int64.wrap64 (Z.quot (time.Nanosecond_of t) 1000000)).

Record Query := mkQuery {
  QueryID : ObjectID;
  Q_FirstName : string;
  Q_LastName : string;
  Q_Email : string;
  PhoneNumber : string;
  Q_CompanyName : string;
  EnquiryType : string;
  Q_Message : string;
  Q_CreatedAt : DateTime;
  Q_UpdatedAt : DateTime
}.

Record PaginationInfo := mkPaginationInfo {
  CurrentPage : Z;
  TotalPages : Z;
  TotalCount : Z;
  Limit : Z;
  HasNext : bool;
  HasPrevious : bool;
  NextPage : Z;
  PreviousPage : Z
}.

Record EnquiryFilters := mkEnquiryFilters {
  F_EnquiryType : string;
  F_Date : string
}.

Record EnquiryListResponse := mkEnquiryListResponse {
  Enquiries : list Query;
  Pagination : PaginationInfo;
  Filters : EnquiryFilters
}.

(** *** The response envelope *)

(** The values the handlers put in [Response.Data]. *)
Inductive Data : Type :=
| DataEnquiryList (l : EnquiryListResponse)
| DataSignIn (r : SignInResponse).

Record Response := mkResponse {
  R_StatusCode : Z;
  R_Status : string;
  R_Message : string;
  R_Data : Data;
  R_Timestamp : string
}.

Record ErrorResponse := mkErrorResponse {
  E_StatusCode : Z;
  E_Status : string;
  E_Message : string;
  E_Error : string;
  E_Timestamp : string
}.

(** What a handler leaves on its [http.ResponseWriter]. *)
Inductive Payload : Type :=
| JSONSuccess (r : Response)
| JSONError (e : ErrorResponse).

Record Reply := mkReply {
  ContentType : string;
  StatusCode : Z;
  Body : Payload
}.

Definition CreateSuccessResponse {DB} (statusCode : Z) (message : string) (data : Data)
  : M DB Response :=
  do now <- time_Now;
  do ts <- Format_RFC3339 now;
  ret {| R_StatusCode := statusCode; R_Status := "success"; R_Message := message;
         R_Data := data; R_Timestamp := ts |}.

Definition CreateErrorResponse {DB} (statusCode : Z) (message : string) (error : string)
  : M DB ErrorResponse :=
  do now <- time_Now;
  do ts <- Format_RFC3339 now;
  ret {| E_StatusCode := statusCode; E_Status := "error"; E_Message := message;
         E_Error := error; E_Timestamp := ts |}.

Definition SendJSONResponse (statusCode : Z) (data : Payload) : Reply :=
  {| ContentType := "application/json"; StatusCode := statusCode; Body := data |}.

End models.

(* ===================================================================== *)
(** ** net/http, context, strconv and encoding/json *)
(* ===================================================================== *)

Module http.

Definition StatusOK : Z := 200.
Definition StatusBadRequest : Z := 400.
Definition StatusUnauthorized : Z := 401.
Definition StatusForbidden : Z := 403.
Definition StatusMethodNotAllowed : Z := 405.
Definition StatusUnsupportedMediaType : Z := 415.
Definition StatusInternalServerError : Z := 500.

(** The values the program stores under a context key. *)
Inductive any : Type :=
| anyString (s : string)
| anyUserRole (r : models.UserRole).

(** A [context.Context]: the chain of [WithValue] frames, innermost
    first. *)
Definition Context := list (string * any).

Definition WithValue (ctx : Context) (key : string) (val : any) : Context :=
  (key, val) :: ctx.

(** [ctx.Value(key)]: the innermost frame with that key, or nil. *)
Fixpoint Value (ctx : Context) (key : string) : option any :=
  match ctx with
  | [] => None
  | (k, v) :: ctx' => if String.eqb k key then Some v else Value ctx' key
  end.

(** [http.Header] and [url.Values]: keys to their lists of values. *)
Abbreviation Values := (gmap string (list string)).

(** [h.Get(key)] for a key in canonical form: the first value, or the
    empty string when there is none. *)
Definition Get (h : Values) (key : string) : string :=
  match h !! key with
  | Some (v :: _) => v
  | _ => ""
  end.

Record Request := mkRequest {
  Method : string;
  Header : Values;
  URL_Query : Values;
  Body : string;
  Ctx : Context
}.

(** [r.WithContext(ctx)]. *)
Definition WithContext (r : Request) (ctx : Context) : Request :=
  {| Method := Method r; Header := Header r; URL_Query := URL_Query r;
     Body := Body r; Ctx := ctx |}.

(** An [http.Handler]: [ServeHTTP] run on a request leaves a reply on
    the response writer, unless it panics. *)
Definition Handler (DB : Type) : Type := Request -> M DB (outcome models.Reply).

End http.

Module strconv.

Fixpoint digits (s : string) (acc : Z) : option Z :=
  match s with
  | EmptyString => Some acc
  | String c s' =>
      if time.isDigit c then digits s' (acc * 10 + time.digit c) else None
  end.

(** The unsigned part: at least one character, decimal digits only. *)
Definition parse_digits (s : string) : option Z :=
  match s with
  | EmptyString => None
  | _ => digits s 0
  end.

(** [strconv.ParseInt(s, 10, 64)]: an optional sign and decimal digits;
    a syntax error otherwise, a range error outside int64. *)
Definition ParseInt (s : string) : result Z :=
  let signed :=
    match s with
    | EmptyString => None
    | String c rest =>
        if Ascii.eqb c "+"%char then parse_digits rest
        else if Ascii.eqb c "-"%char then option_map Z.opp (parse_digits rest)
        else parse_digits s
    end in
  match signed with
  | None => errors.New ("strconv.ParseInt: parsing: invalid syntax")
  | Some n =>
      if (n <? int64.min_int) || (int64.max_int <? n)
      then errors.New ("strconv.ParseInt: parsing: value out of range")
      else Ok n
  end.

End strconv.

Module json.

(** [json.NewDecoder(r.Body).Decode(&signInReq)]. *)
Class Package := {
  Decode_SignInRequest : string -> result models.SignInRequest
}.

End json.

(* ===================================================================== *)
(** ** The MongoDB driver *)
(* ===================================================================== *)

Module bson.

Inductive scalar : Type :=
| String_ (s : string)
| ObjectID_ (id : models.ObjectID)
| Time_ (t : time.Time)
| DateTime_ (ms : models.DateTime)
| Int_ (n : Z).

(** The values of the documents the program builds: a scalar, or one
    nested document of scalars ([$gte]/[$lte], [$set]). *)
Inductive value : Type :=
| Scalar (s : scalar)
| Doc (d : gmap string scalar).

(** [bson.M]. *)
Abbreviation M := (gmap string value).

End bson.

Module mongo.

Record FindOptions := mkFindOptions {
  Limit : option Z;
  Skip : option Z;
  Sort : option bson.M
}.

(** [options.Find()] and its setters. *)
Definition Find_ : FindOptions := {| Limit := None; Skip := None; Sort := None |}.
Definition SetLimit (o : FindOptions) (n : Z) : FindOptions :=
  {| Limit := Some n; Skip := Skip o; Sort := Sort o |}.
Definition SetSkip (o : FindOptions) (n : Z) : FindOptions :=
  {| Limit := Limit o; Skip := Some n; Sort := Sort o |}.
Definition SetSort (o : FindOptions) (m : bson.M) : FindOptions :=
  {| Limit := Limit o; Skip := Skip o; Sort := Some m |}.

(** The outcome of [FindOne(...).Decode(&v)]: a document,
    [mongo.ErrNoDocuments], or another error. *)
Inductive FindOneResult (T : Type) : Type :=
| Decoded (v : T)
| ErrNoDocuments
| FindOneError (e : error).
Arguments Decoded {T} v.
Arguments ErrNoDocuments {T}.
Arguments FindOneError {T} e.

(** The collections of [config.Database] and the operations run on
    them. Every call is made under a ten second timeout context; its
    expiry is one of the errors of the operation. *)
Class Driver (DB : Type) := {
  Cursor : Type;
  UsersCollection_FindOne : bson.M -> DB -> FindOneResult models.User;
  UsersCollection_UpdateOne : bson.M -> bson.M -> DB -> option error * DB;
  Collection_Find : bson.M -> FindOptions -> DB -> result Cursor;
  Cursor_All : Cursor -> result (list models.Query);
  Collection_CountDocuments : bson.M -> DB -> result Z
}.

End mongo.

(* ===================================================================== *)
(** ** github.com/golang-jwt/jwt/v5 *)
(* ===================================================================== *)

Module jwt.

(** [jwt.NumericDate]: a time at the precision of the library,
    [jwt.TimePrecision = time.Second]. *)
Definition NumericDate := time.Time.

Definition NewNumericDate (t : time.Time) : NumericDate :=
  time.Truncate t time.Second.

Record RegisteredClaims := mkRegisteredClaims {
  Issuer : string;
  Subject : string;
  ExpiresAt : option NumericDate;
  NotBefore : option NumericDate;
  IssuedAt : option NumericDate
}.

(** Signing methods by family: [*jwt.SigningMethodHMAC] and the rest. *)
Inductive SigningMethod : Type :=
| SigningMethodHMAC (alg : string)
| SigningMethodOther (alg : string).

Definition SigningMethodHS256 : SigningMethod := SigningMethodHMAC "HS256".

Record Token (C : Type) := mkToken {
  TMethod : SigningMethod;
  TClaims : C;
  Valid : bool
}.
Arguments mkToken {C}.
Arguments TMethod {C}.
Arguments TClaims {C}.
Arguments Valid {C}.

(** [jwt.NewWithClaims]. *)
Definition NewWithClaims {C} (method : SigningMethod) (claims : C) : Token C :=
  {| TMethod := method; TClaims := claims; Valid := false |}.

(** [token.SignedString(key)], and [jwt.ParseWithClaims(tokenString,
    &Claims{}, keyFunc)], which reads the clock to check the time
    claims. *)
Class Package (C : Type) := {
  SignedString : Token C -> string -> result string;
  ParseWithClaims :
    string -> (Token C -> result string) -> time.Time -> result (Token C)
}.

End jwt.

(* ===================================================================== *)
(** ** services *)
(* ===================================================================== *)

Module services.

(** [Claims]: the application's claims and the embedded registered ones. *)
Record Claims := mkClaims {
  UserID : string;
  Email : string;
  Username : string;
  Role : models.UserRole;
  Registered : jwt.RegisteredClaims
}.

Record JWTService := mkJWTService {
  secretKey : string
}.

Record UserService := mkUserService {
  jwtService : JWTService
}.

(** [GetTokenExpiration]. *)
Definition GetTokenExpiration (role : models.UserRole) : time.Duration :=
  if String.eqb role models.RoleAdmin then 48 * time.Hour
  else if String.eqb role models.RoleSuperAdmin then 30 * 24 * time.Hour
  else 24 * time.Hour.

Section Services.
Context {DB : Type}.
Context `{jwt.Package Claims}.
Context `{mongo.Driver DB}.
Context `{bcrypt.Package}.

(** The [switch] on the role that opens [GenerateToken] and
    [RefreshToken]: the expiry, read off the clock, or no expiry for a
    role that is neither admin nor super-admin. *)
Definition expiration_for (role : models.UserRole) : M DB (option time.Time) :=
  if String.eqb role models.RoleAdmin then
    do now <- time_Now; ret (Some (time.Add now (48 * time.Hour)))
  else if String.eqb role models.RoleSuperAdmin then
    do now <- time_Now; ret (Some (time.Add now (30 * 24 * time.Hour)))
  else ret None.

Definition GenerateToken (s : JWTService) (user : models.User) : M DB (result string) :=
  do expiration <- expiration_for (models.Role user);
  match expiration with
  | None => ret (errors.New "invalid user role")
  | Some expiration =>
      do issuedAt <- time_Now;
      do notBefore <- time_Now;
      let claims :=
        {| UserID := models.Hex (models.ID user);
           Email := models.Email user;
           Username := models.Username user;
           Role := models.Role user;
           Registered :=
             {| jwt.Issuer := "rgp-backend-enquiry";
                jwt.Subject := models.Hex (models.ID user);
                jwt.ExpiresAt := Some (jwt.NewNumericDate expiration);
                jwt.NotBefore := Some (jwt.NewNumericDate notBefore);
                jwt.IssuedAt := Some (jwt.NewNumericDate issuedAt) |} |} in
      let token := jwt.NewWithClaims jwt.SigningMethodHS256 claims in
      match jwt.SignedString token (secretKey s) with
      | Err err => ret (Err err)
      | Ok tokenString => ret (Ok tokenString)
      end
  end.

(** The key function handed to the parser: HMAC methods only. *)
Definition keyFunc (s : JWTService) (token : jwt.Token Claims) : result string :=
  match jwt.TMethod token with
  | jwt.SigningMethodHMAC _ => Ok (secretKey s)
  | jwt.SigningMethodOther _ => errors.New "unexpected signing method"
  end.

(** [ValidateToken]. The clock is read on behalf of the parser, which
    checks the time claims against the current time. The parser was
    given a [*Claims] to fill, so the final type assertion of the source
    cannot fail. *)
Definition ValidateToken (s : JWTService) (tokenString : string) : M DB (result Claims) :=
  do now <- time_Now;
  match jwt.ParseWithClaims tokenString (keyFunc s) now with
  | Err err => ret (Err err)
  | Ok token =>
      if negb (jwt.Valid token) then ret (errors.New "invalid token")
      else ret (Ok (jwt.TClaims token))
  end.

Definition RefreshToken (s : JWTService) (tokenString : string) : M DB (result string) :=
  do validated <- ValidateToken s tokenString;
  match validated with
  | Err err => ret (Err err)
  | Ok claims =>
      do expiration <- expiration_for (Role claims);
      match expiration with
      | None => ret (errors.New "invalid user role")
      | Some expiration =>
          do issuedAt <- time_Now;
          do notBefore <- time_Now;
          let claims :=
            {| UserID := UserID claims; Email := Email claims;
               Username := Username claims; Role := Role claims;
               Registered :=
                 {| jwt.Issuer := jwt.Issuer (Registered claims);
                    jwt.Subject := jwt.Subject (Registered claims);
                    jwt.ExpiresAt := Some (jwt.NewNumericDate expiration);
                    jwt.NotBefore := Some (jwt.NewNumericDate notBefore);
                    jwt.IssuedAt := Some (jwt.NewNumericDate issuedAt) |} |} in
          let token := jwt.NewWithClaims jwt.SigningMethodHS256 claims in
          match jwt.SignedString token (secretKey s) with
          | Err err => ret (Err err)
          | Ok newTokenString => ret (Ok newTokenString)
          end
      end
  end.

(** *** UserService *)

(** [FindOne(ctx, filter).Decode(&user)] as the getters use it: no
    document is a nil user and a nil error. *)
Definition find_user (filter : bson.M) : M DB (result (option models.User)) :=
  db_read (fun d =>
    match mongo.UsersCollection_FindOne filter d with
    | mongo.Decoded user => Ok (Some user)
    | mongo.ErrNoDocuments => Ok None
    | mongo.FindOneError err => Err err
    end).

Definition GetUserByID (id : models.ObjectID) : M DB (result (option models.User)) :=
  find_user {[ "_id" := bson.Scalar (bson.ObjectID_ id) ]}.

Definition GetUserByEmail (email : string) : M DB (result (option models.User)) :=
  find_user {[ "email" := bson.Scalar (bson.String_ email) ]}.

Definition UpdateUser (id : models.ObjectID) (updates : gmap string bson.scalar)
  : M DB (result (option models.User)) :=
  do now <- time_Now;
  let updates := <[ "updated_at" := bson.Time_ now ]> updates in
  do err <- db_update (mongo.UsersCollection_UpdateOne
                         {[ "_id" := bson.Scalar (bson.ObjectID_ id) ]}
                         {[ "$set" := bson.Doc updates ]});
  match err with
  | Some err => ret (Err err)
  | None => GetUserByID id
  end.

Definition AuthenticateUser (email password : string) : M DB (result models.User) :=
  do found <- GetUserByEmail email;
  match found with
  | Err err => ret (Err err)
  | Ok None => ret (Err (authError models.ErrUserNotFound))
  | Ok (Some user) =>
      if negb (models.IsActive user) then ret (Err (authError models.ErrAccountDeactivated))
      else if negb (models.CheckPassword user password)
      then ret (Err (authError models.ErrInvalidPassword))
      else
        do now <- time_Now;
        (* the error of the update is dropped *)
        do _updated <- UpdateUser (models.ID user) {[ "last_login" := bson.Time_ now ]};
        ret (Ok user)
  end.

Definition SignInUser (s : UserService) (email password : string)
  : M DB (result models.SignInResponse) :=
  do authenticated <- AuthenticateUser email password;
  match authenticated with
  | Err err => ret (Err err)
  | Ok user =>
      do generated <- GenerateToken (jwtService s) user;
      match generated with
      | Err err => ret (Err err)
      | Ok token =>
          let expiration := GetTokenExpiration (models.Role user) in
          do loginTime <- time_Now;
          do now <- time_Now;
          ret (Ok {| models.SR_User := models.ToResponse user;
                     models.SR_Message := "Sign-in successful";
                     models.SR_LoginTime := loginTime;
                     models.SR_Token := token;
                     models.SR_ExpiresAt := time.Add now expiration;
                     models.SR_Role := models.Role user |})
      end
  end.

(** *** EnquiryService *)

(** The filter of [GetAllEnquiries]: the type when it is given, and the
    day range when the date is given and parses. *)
Definition build_filter (enquiryType date : string) : bson.M :=
  let filter : bson.M := ∅ in
  let filter :=
    if negb (String.eqb enquiryType "")
    then <[ "enquiry_type" := bson.Scalar (bson.String_ enquiryType) ]> filter
    else filter in
  if negb (String.eqb date "") then
    match time.Parse date with
    | Err _ => filter
    | Ok parsedDate =>
        let startOfDay :=
          time.Date (time.Year parsedDate) (time.Month parsedDate) (time.Day parsedDate)
                    0 0 0 0 in
        let endOfDay :=
          time.Date (time.Year parsedDate) (time.Month parsedDate) (time.Day parsedDate)
                    23 59 59 999999999 in
        let startDateTime := models.NewDateTimeFromTime startOfDay in
        let endDateTime := models.NewDateTimeFromTime endOfDay in
        <[ "created_at" :=
             bson.Doc (<[ "$gte" := bson.DateTime_ startDateTime ]>
                      (<[ "$lte" := bson.DateTime_ endDateTime ]> ∅)) ]> filter
    end
  else filter.

Definition GetAllEnquiries (page limit : Z) (enquiryType date : string)
  : M DB (outcome (result models.EnquiryListResponse)) :=
  let filter := build_filter enquiryType date in
  let skip := int64.mul (int64.sub page 1) limit in
  let findOptions := mongo.Find_ in
  let findOptions := mongo.SetLimit findOptions limit in
  let findOptions := mongo.SetSkip findOptions skip in
  let findOptions :=
    mongo.SetSort findOptions {[ "created_at" := bson.Scalar (bson.Int_ (-1)) ]} in
  do found <- db_read (mongo.Collection_Find filter findOptions);
  match found with
  | Err err => ret (Returned (Err err))
  | Ok cursor =>
      match mongo.Cursor_All cursor with
      | Err err => ret (Returned (Err err))
      | Ok enquiries =>
          do counted <- db_read (mongo.Collection_CountDocuments filter);
          match counted with
          | Err err => ret (Returned (Err err))
          | Ok totalCount =>
              match int64.div (int64.sub (int64.add totalCount limit) 1) limit with
              | Panicked msg => ret (Panicked msg)
              | Returned totalPages =>
                  let hasNext := page <? totalPages in
                  let hasPrev := page >? 1 in
                  ret (Returned (Ok
                    {| models.Enquiries := enquiries;
                       models.Pagination :=
                         {| models.CurrentPage := page;
                            models.TotalPages := totalPages;
                            models.TotalCount := totalCount;
                            models.Limit := limit;
                            models.HasNext := hasNext;
                            models.HasPrevious := hasPrev;
                            models.NextPage := int64.add page 1;
                            models.PreviousPage := int64.sub page 1 |};
                       models.Filters :=
                         {| models.F_EnquiryType := enquiryType;
                            models.F_Date := date |} |}))
              end
          end
      end
  end.

End Services.

End services.

(* ===================================================================== *)
(** ** middleware *)
(* ===================================================================== *)

Module middleware.

Section Middleware.
Context {DB : Type}.
Context `{jwt.Package services.Claims}.

(** Send an error envelope and return: the shape of every rejection. *)
Definition reject (statusCode : Z) (message error : string)
  : M DB (outcome models.Reply) :=
  do errorResp <- models.CreateErrorResponse statusCode message error;
  ret (Returned (models.SendJSONResponse statusCode (models.JSONError errorResp))).

Definition AuthMiddleware (jwtService : services.JWTService) (next : http.Handler DB)
  : http.Handler DB :=
  fun r =>
    let authHeader := http.Get (http.Header r) "Authorization" in
    if String.eqb authHeader "" then
      reject http.StatusUnauthorized "Authorization header missing"
             "Bearer token is required"
    else if negb (strings.HasPrefix authHeader "Bearer ") then
      reject http.StatusUnauthorized "Invalid authorization format"
             "Authorization header must be 'Bearer <token>'"
    else
      let tokenString := strings.TrimPrefix authHeader "Bearer " in
      do validated <- services.ValidateToken jwtService tokenString;
      match validated with
      | Err _ =>
          reject http.StatusUnauthorized "Invalid token" "Token is expired or invalid"
      | Ok claims =>
          let ctx := http.Ctx r in
          let ctx := http.WithValue ctx "user_id" (http.anyString (services.UserID claims)) in
          let ctx := http.WithValue ctx "user_email" (http.anyString (services.Email claims)) in
          let ctx := http.WithValue ctx "user_role" (http.anyUserRole (services.Role claims)) in
          let ctx :=
            http.WithValue ctx "user_username" (http.anyString (services.Username claims)) in
          let r := http.WithContext r ctx in
          next r
      end.

(** [r.Context().Value("user_role").(models.UserRole)]. *)
Definition user_role_of (r : http.Request) : option models.UserRole :=
  match http.Value (http.Ctx r) "user_role" with
  | Some (http.anyUserRole role) => Some role
  | _ => None
  end.

Definition RoleMiddleware (requiredRole : models.UserRole) (next : http.Handler DB)
  : http.Handler DB :=
  fun r =>
    match user_role_of r with
    | None =>
        reject http.StatusInternalServerError "User role not found in context"
               "Authentication middleware must be applied before role middleware"
    | Some userRole =>
        if negb (String.eqb userRole requiredRole)
           && negb (String.eqb userRole models.RoleSuperAdmin)
        then reject http.StatusForbidden "Insufficient permissions"
                    "Access denied: insufficient role permissions"
        else next r
    end.

Definition AdminOrSuperAdminMiddleware (next : http.Handler DB) : http.Handler DB :=
  fun r =>
    match user_role_of r with
    | None =>
        reject http.StatusInternalServerError "User role not found in context"
               "Authentication middleware must be applied before role middleware"
    | Some userRole =>
        if negb (String.eqb userRole models.RoleAdmin)
           && negb (String.eqb userRole models.RoleSuperAdmin)
        then reject http.StatusForbidden "Insufficient permissions"
                    "Access denied: admin or super-admin role required"
        else next r
    end.

End Middleware.

End middleware.

(* ===================================================================== *)
(** ** controllers *)
(* ===================================================================== *)

Module controllers.

Section Controllers.
Context {DB : Type}.
Context `{jwt.Package services.Claims}.
Context `{mongo.Driver DB}.
Context `{bcrypt.Package}.
Context `{json.Package}.

Definition reject (statusCode : Z) (message error : string)
  : M DB (outcome models.Reply) :=
  do errorResp <- models.CreateErrorResponse statusCode message error;
  ret (Returned (models.SendJSONResponse statusCode (models.JSONError errorResp))).

Definition succeed (statusCode : Z) (message : string) (data : models.Data)
  : M DB (outcome models.Reply) :=
  do response <- models.CreateSuccessResponse statusCode message data;
  ret (Returned (models.SendJSONResponse statusCode (models.JSONSuccess response))).

(** The page of [GetAllEnquiries]: 1 unless the parameter parses to a
    positive number. *)
Definition effective_page (pageStr : string) : Z :=
  let page := 1 in
  if negb (String.eqb pageStr "") then
    match strconv.ParseInt pageStr with
    | Ok parsedPage => if parsedPage >? 0 then parsedPage else page
    | Err _ => page
    end
  else page.

(** The limit of [GetAllEnquiries]: 10 unless the parameter parses to a
    positive number, which is cut at 100. *)
Definition effective_limit (limitStr : string) : Z :=
  let limit := 10 in
  if negb (String.eqb limitStr "") then
    match strconv.ParseInt limitStr with
    | Ok parsedLimit =>
        if parsedLimit >? 0 then
          let parsedLimit := if parsedLimit >? 100 then 100 else parsedLimit in
          parsedLimit
        else limit
    | Err _ => limit
    end
  else limit.

(** [EnquiryController.GetAllEnquiries]. *)
Definition GetAllEnquiries : http.Handler DB :=
  fun r =>
    if negb (String.eqb (http.Method r) "GET") then
      reject http.StatusMethodNotAllowed "Method not allowed"
             "Only GET method is allowed for this endpoint"
    else
      let pageStr := http.Get (http.URL_Query r) "page" in
      let limitStr := http.Get (http.URL_Query r) "limit" in
      let enquiryType := http.Get (http.URL_Query r) "enquiry_type" in
      let date := http.Get (http.URL_Query r) "date" in
      let page := effective_page pageStr in
      let limit := effective_limit limitStr in
      do listed <- services.GetAllEnquiries page limit enquiryType date;
      match listed with
      | Panicked msg => ret (Panicked msg)
      | Returned (Err err) =>
          reject http.StatusInternalServerError "Failed to retrieve enquiries" (Error err)
      | Returned (Ok enquiries) =>
          succeed http.StatusOK "Enquiries retrieved successfully"
                  (models.DataEnquiryList enquiries)
      end.

(** [UserController.SignIn]. *)
Definition SignIn (userService : services.UserService) : http.Handler DB :=
  fun r =>
    if negb (String.eqb (http.Method r) "POST") then
      reject http.StatusMethodNotAllowed "Method not allowed"
             "Only POST method is allowed for this endpoint"
    else
      let contentType := http.Get (http.Header r) "Content-Type" in
      if negb (strings.HasPrefix contentType "application/json") then
        reject http.StatusUnsupportedMediaType "Unsupported media type"
               "Content-Type must be application/json"
      else
        match json.Decode_SignInRequest (http.Body r) with
        | Err err => reject http.StatusBadRequest "Invalid JSON format" (Error err)
        | Ok signInReq =>
            if String.eqb (models.SI_Email signInReq) ""
               || String.eqb (models.SI_Password signInReq) ""
            then reject http.StatusBadRequest "Missing required fields"
                        "email and password are required"
            else if negb (strings.ContainsByte (models.SI_Email signInReq) "@"%char)
                    || negb (strings.ContainsByte (models.SI_Email signInReq) "."%char)
            then reject http.StatusBadRequest "Invalid email format"
                        "Email must contain @ and domain"
            else
              do signedIn <- services.SignInUser userService
                               (models.SI_Email signInReq) (models.SI_Password signInReq);
              match signedIn with
              | Err (authError authErr) =>
                  if String.eqb (Type_ authErr) "user_not_found" then
                    reject http.StatusUnauthorized "Email not found" (Details authErr)
                  else if String.eqb (Type_ authErr) "invalid_password" then
                    reject http.StatusUnauthorized "Wrong password" (Details authErr)
                  else if String.eqb (Type_ authErr) "account_deactivated" then
                    reject http.StatusForbidden "Account deactivated" (Details authErr)
                  else
                    reject http.StatusInternalServerError "Sign-in failed"
                           "An unexpected error occurred. Please try again later."
              | Err (errorString _) =>
                  reject http.StatusInternalServerError "Sign-in failed"
                         "An unexpected error occurred. Please try again later."
              | Ok signInResponse =>
                  succeed http.StatusOK "Sign-in successful"
                          (models.DataSignIn signInResponse)
              end
        end.

End Controllers.

End controllers.

(* ===================================================================== *)
(** ** Definitions used to state the properties *)
(* ===================================================================== *)

Module spec.

(** The world after one reading of the clock. *)
Definition tick {DB} (w : World DB) : World DB :=
  {| clock := clock w; ticks := S (ticks w); zone_format := zone_format w; db := db w |}.

(** The reply of a rejection made in world [w]: the JSON error envelope
    with the given status, message and detail, stamped with the time
    read from the clock. *)
Definition rejected {DB} (w : World DB) (statusCode : Z) (message detail : string)
  : outcome models.Reply * World DB :=
  (Returned
     {| models.ContentType := "application/json";
        models.StatusCode := statusCode;
        models.Body :=
          models.JSONError
            {| models.E_StatusCode := statusCode;
               models.E_Status := "error";
               models.E_Message := message;
               models.E_Error := detail;
               models.E_Timestamp := zone_format w (clock w (ticks w)) |} |},
   tick w).

(** The context of a request after authentication: the four values
    decoded from the token, on top of what was there. *)
Definition attached (claims : services.Claims) (ctx : http.Context) : http.Context :=
  ("user_username", http.anyString (services.Username claims))
  :: ("user_role", http.anyUserRole (services.Role claims))
  :: ("user_email", http.anyString (services.Email claims))
  :: ("user_id", http.anyString (services.UserID claims))
  :: ctx.

(** A sign-in attempt with an email and a password: a POST request
    with a JSON body that decodes to the two, both non-empty, the email
    with an [@] and a dot. *)
Definition sign_in_attempt `{json.Package} (r : http.Request) (email password : string)
  : Prop :=
  http.Method r = "POST"
  /\ strings.HasPrefix (http.Get (http.Header r) "Content-Type") "application/json" = true
  /\ json.Decode_SignInRequest (http.Body r)
     = Ok {| models.SI_Email := email; models.SI_Password := password |}
  /\ email <> "" /\ password <> ""
  /\ strings.ContainsByte email "@"%char = true
  /\ strings.ContainsByte email "."%char = true.

(** The query by which a user is looked up by email. *)
Definition by_email (email : string) : bson.M :=
  {[ "email" := bson.Scalar (bson.String_ email) ]}.

(** *** Username derivation, following the words of the specification *)

(** The substring before the first [@] (the whole string without one). *)
Fixpoint before_at (email : string) : string :=
  match email with
  | EmptyString => EmptyString
  | String c rest => if Ascii.eqb c "@"%char then EmptyString else String c (before_at rest)
  end.

Definition is_letter (c : ascii) : bool :=
  let n := Z.of_N (N_of_ascii c) in
  ((97 <=? n) && (n <=? 122)) || ((65 <=? n) && (n <=? 90)).

Definition is_digit (c : ascii) : bool :=
  let n := Z.of_N (N_of_ascii c) in (48 <=? n) && (n <=? 57).

Definition is_underscore (c : ascii) : bool := Ascii.eqb c "_"%char.

(** Strip every character that is not a letter, a digit or underscore. *)
Fixpoint strip (s : string) : string :=
  match s with
  | EmptyString => EmptyString
  | String c rest =>
      if is_letter c || is_digit c || is_underscore c
      then String c (strip rest) else strip rest
  end.

Definition cleaned (email : string) : string :=
  strings.ToLower (strip (before_at email)).

Definition derive (email : string) : string :=
  let c := cleaned email in
  let padded := if (String.length c <? 3)%nat then (c ++ "user")%string else c in
  if (30 <? String.length padded)%nat then String.substring 0 30 padded else padded.

(** A user known by the email alone. *)
Definition user_of_email (email : string) : models.User :=
  {| models.ID := []; models.Username := ""; models.FirstName := "";
     models.LastName := ""; models.Email := email; models.Password := "";
     models.ProfilePic := None; models.Role := ""; models.CompanyName := None;
     models.IsActive := false; models.LastLogin := None;
     models.CreatedAt := 0; models.UpdatedAt := 0 |}.

(** A character of a derived username: lower-case letter, digit or
    underscore. *)
Definition username_char (c : ascii) : bool :=
  let n := Z.of_N (N_of_ascii c) in
  ((97 <=? n) && (n <=? 122)) || ((48 <=? n) && (n <=? 57)) || (n =? 95).

Fixpoint all_chars (p : ascii -> bool) (s : string) : bool :=
  match s with
  | EmptyString => true
  | String c rest => p c && all_chars p rest
  end.

(** *** Pagination *)

(** The limit as the specification words it: the parsed value clamped
    to at most 100 and at least 1. *)
Definition clamped_limit (parsedLimit : Z) : Z := Z.max 1 (Z.min parsedLimit 100).

(** The ceiling of [a / b] for [b > 0]. *)
Definition ceil_div (a b : Z) : Z :=
  a / b + (if a mod b =? 0 then 0 else 1).

(** *** The date filter *)

Definition ms_per_day : Z := 86400000.

(** The condition on [created_at] that selects one day, by its number
    since the epoch. *)
Definition day_range (day : Z) : gmap string bson.scalar :=
  <[ "$gte" := bson.DateTime_ (day * ms_per_day) ]>
    (<[ "$lte" := bson.DateTime_ (day * ms_per_day + (ms_per_day - 1)) ]> ∅).

(** What the store does with a [created_at] condition: both bounds are
    inclusive. *)
Definition in_range (cond : gmap string bson.scalar) (createdAt : models.DateTime) : Prop :=
  (forall lo, cond !! "$gte" = Some (bson.DateTime_ lo) -> lo <= createdAt) /\
  (forall hi, cond !! "$lte" = Some (bson.DateTime_ hi) -> createdAt <= hi).

(** The response with another echoed date. *)
Definition with_date (date : string) (resp : models.EnquiryListResponse)
  : models.EnquiryListResponse :=
  {| models.Enquiries := models.Enquiries resp;
     models.Pagination := models.Pagination resp;
     models.Filters :=
       {| models.F_EnquiryType := models.F_EnquiryType (models.Filters resp);
          models.F_Date := date |} |}.

Definition map_listing (f : models.EnquiryListResponse -> models.EnquiryListResponse)
  (o : outcome (result models.EnquiryListResponse))
  : outcome (result models.EnquiryListResponse) :=
  match o with
  | Returned (Ok resp) => Returned (Ok (f resp))
  | other => other
  end.

End spec.

(* ===================================================================== *)
(** ** A concrete environment *)
(* ===================================================================== *)

(** Small implementations of the library interfaces, a database of two
    users and twenty-five enquiries, and a clock. The general theorems
    below hold for every implementation; this one is where they are
    exercised on concrete requests. *)
Module sample.

(** bcrypt: the checks [GenerateFromPassword] makes before hashing (the
    password is at most 72 bytes, the cost at most 31; an empty password
    is hashed like any other), with a transparent stand-in for the
    Eksblowfish digest. *)
#[export] Instance bcrypt_pkg : bcrypt.Package := {|
  bcrypt.GenerateFromPassword password cost rnd :=
    if 72 <? strings.len password
    then errors.New "bcrypt: password length exceeds 72 bytes"
    else if 31 <? cost
    then errors.New "crypto/bcrypt: cost outside allowed range"
    else Ok ("$2a$" ++ password)%string;
  bcrypt.CompareHashAndPassword hashedPassword password :=
    if String.eqb hashedPassword ("$2a$" ++ password)%string then None
    else Some (errorString
                 "crypto/bcrypt: hashedPassword is not the hash of the given password")
|}.

Definition claims_for (userID email username : string) (role : models.UserRole)
  (expiresAt : time.Time) : services.Claims :=
  {| services.UserID := userID; services.Email := email;
     services.Username := username; services.Role := role;
     services.Registered :=
       {| jwt.Issuer := "rgp-backend-enquiry"; jwt.Subject := userID;
          jwt.ExpiresAt := Some expiresAt; jwt.NotBefore := Some 0;
          jwt.IssuedAt := Some 0 |} |}.

Definition secret : string := "secret".

(** The token strings in circulation: their content and signing key. *)
Definition issued : list (string * (jwt.Token services.Claims * string)) :=
  [ ("tok-admin",
     (jwt.NewWithClaims jwt.SigningMethodHS256
        (claims_for "0a" "ann@rgp.io" "ann" "admin" (1800000000 * time.Second)), secret));
    ("tok-guest",
     (jwt.NewWithClaims jwt.SigningMethodHS256
        (claims_for "0c" "guy@rgp.io" "guy" "guest" (1800000000 * time.Second)), secret));
    ("tok-old",
     (jwt.NewWithClaims jwt.SigningMethodHS256
        (claims_for "0a" "ann@rgp.io" "ann" "admin" (1600000000 * time.Second)), secret));
    ("tok-forged",
     (jwt.NewWithClaims jwt.SigningMethodHS256
        (claims_for "0a" "ann@rgp.io" "ann" "super-admin" (1800000000 * time.Second)),
      "other")) ].

Fixpoint lookup_token (s : string)
  (l : list (string * (jwt.Token services.Claims * string)))
  : option (jwt.Token services.Claims * string) :=
  match l with
  | [] => None
  | (k, v) :: l' => if String.eqb k s then Some v else lookup_token s l'
  end.

(** The parser: decode, ask the key function, check the signature and
    the expiry. *)
#[export] Instance jwt_pkg : jwt.Package services.Claims := {|
  jwt.SignedString token key := Ok "tok-new";
  jwt.ParseWithClaims tokenString keyFunc now :=
    match lookup_token tokenString issued with
    | None => errors.New "token is malformed"
    | Some (token, signer) =>
        match keyFunc token with
        | Err err => Err err
        | Ok key =>
            if negb (String.eqb key signer) then errors.New "signature is invalid"
            else match jwt.ExpiresAt (services.Registered (jwt.TClaims token)) with
                 | Some exp =>
                     if exp <? now then errors.New "token is expired"
                     else Ok {| jwt.TMethod := jwt.TMethod token;
                                jwt.TClaims := jwt.TClaims token;
                                jwt.Valid := true |}
                 | None => Ok {| jwt.TMethod := jwt.TMethod token;
                                 jwt.TClaims := jwt.TClaims token;
                                 jwt.Valid := true |}
                 end
        end
    end
|}.

(** The request body format of this environment: email, a space, the
    password. *)
#[export] Instance json_pkg : json.Package := {|
  json.Decode_SignInRequest body :=
    match strings.Split body " "%char with
    | [email; password] =>
        Ok {| models.SI_Email := email; models.SI_Password := password |}
    | _ => errors.New "invalid character"
    end
|}.

Record Database := mkDatabase {
  users : list models.User;
  enquiries : list models.Query
}.

Definition user_matches (filter : bson.M) (u : models.User) : bool :=
  match filter !! "email", filter !! "_id" with
  | Some (bson.Scalar (bson.String_ email)), _ => String.eqb (models.Email u) email
  | None, Some (bson.Scalar (bson.ObjectID_ id)) =>
      String.eqb (models.Hex (models.ID u)) (models.Hex id)
  | _, _ => false
  end.

Definition type_matches (filter : bson.M) (q : models.Query) : bool :=
  match filter !! "enquiry_type" with
  | Some (bson.Scalar (bson.String_ t)) => String.eqb (models.EnquiryType q) t
  | _ => true
  end.

Definition date_matches (filter : bson.M) (q : models.Query) : bool :=
  match filter !! "created_at" with
  | Some (bson.Doc cond) =>
      match cond !! "$gte", cond !! "$lte" with
      | Some (bson.DateTime_ lo), Some (bson.DateTime_ hi) =>
          (lo <=? models.Q_CreatedAt q) && (models.Q_CreatedAt q <=? hi)
      | _, _ => true
      end
  | _ => true
  end.

Definition selected (filter : bson.M) (d : Database) : list models.Query :=
  List.filter (fun q => type_matches filter q && date_matches filter q) (enquiries d).

Definition page_of (o : mongo.FindOptions) (l : list models.Query) : list models.Query :=
  let l := match mongo.Skip o with
           | Some n => if Z.of_nat (List.length l) <=? n then []
                       else List.skipn (Z.to_nat n) l
           | None => l
           end in
  match mongo.Limit o with
  | Some n => if Z.of_nat (List.length l) <=? n then l else List.firstn (Z.to_nat n) l
  | None => l
  end.

(** The store: enquiries are kept newest first; a negative skip is an
    error of the server. *)
#[export] Instance driver : mongo.Driver Database := {|
  mongo.Cursor := list models.Query;
  mongo.UsersCollection_FindOne filter d :=
    match List.find (user_matches filter) (users d) with
    | Some u => mongo.Decoded u
    | None => mongo.ErrNoDocuments
    end;
  mongo.UsersCollection_UpdateOne filter update d := (None, d);
  mongo.Collection_Find filter o d :=
    match mongo.Skip o with
    | Some n =>
        if n <? 0 then errors.New "(BadValue) skip value must be non-negative"
        else Ok (page_of o (selected filter d))
    | None => Ok (page_of o (selected filter d))
    end;
  mongo.Cursor_All cursor := Ok cursor;
  mongo.Collection_CountDocuments filter d :=
    Ok (Z.of_nat (List.length (selected filter d)))
|}.

Definition user_with (id : models.ObjectID) (email password : string)
  (role : models.UserRole) (active : bool) : models.User :=
  {| models.ID := id; models.Username := ""; models.FirstName := "A";
     models.LastName := "B"; models.Email := email; models.Password := password;
     models.ProfilePic := None; models.Role := role; models.CompanyName := None;
     models.IsActive := active; models.LastLogin := None;
     models.CreatedAt := 0; models.UpdatedAt := 0 |}.

Definition ann : models.User :=
  user_with ["010"%char] "ann@rgp.io" "$2a$correct-horse" "admin" true.

Definition bob : models.User :=
  user_with ["011"%char] "bob@rgp.io" "$2a$battery-staple" "admin" false.

Definition guy : models.User :=
  user_with ["012"%char] "guy@rgp.io" "$2a$guest-pass" "guest" true.

(** The [i]-th enquiry, created [i] hours after 2024-01-15T00:00:00Z. *)
Definition enquiry (i : nat) : models.Query :=
  {| models.QueryID := [ascii_of_nat i]; models.Q_FirstName := "F";
     models.Q_LastName := "L"; models.Q_Email := "c@d.e"; models.PhoneNumber := "";
     models.Q_CompanyName := ""; models.EnquiryType := "sales";
     models.Q_Message := "hello";
     models.Q_CreatedAt := 1705276800000 + Z.of_nat i * 3600000;
     models.Q_UpdatedAt := 1705276800000 + Z.of_nat i * 3600000 |}.

Definition database : Database :=
  {| users := [ann; bob; guy];
     enquiries := List.rev (List.map enquiry (List.seq 0 25)) |}.

(** A clock whose first readings are a millisecond apart. *)
Definition readings : list time.Time :=
  [ 1700000000000000000; 1700000000001000000; 1700000000002000000;
    1700000000003000000; 1700000000004000000; 1700000000005000000;
    1700000000006000000; 1700000000007000000; 1700000000008000000 ].

Definition world : World Database :=
  {| clock := fun n => List.nth n readings 1700000000009000000;
     ticks := 0;
     zone_format := fun _ => "2023-11-14T22:13:20Z";
     db := database |}.

Definition userService : services.UserService :=
  {| services.jwtService := {| services.secretKey := secret |} |}.

Definition request (method : string) (header query : http.Values) (body : string)
  : http.Request :=
  {| http.Method := method; http.Header := header; http.URL_Query := query;
     http.Body := body; http.Ctx := [] |}.

(** A request that carries a bearer token, one whose Authorization
    header is there with an empty value, and one that already carries a
    role in its context. *)
Definition bearer (token : string) : http.Request :=
  request "GET" {[ "Authorization" := [("Bearer " ++ token)%string] ]} ∅ "".

Definition empty_authorization : http.Request :=
  request "GET" {[ "Authorization" := [""] ]} ∅ "".

Definition with_role (role : models.UserRole) : http.Request :=
  {| http.Method := "GET"; http.Header := ∅; http.URL_Query := ∅;
     http.Body := ""; http.Ctx := [("user_role", http.anyUserRole role)] |}.

Definition jwtService : services.JWTService := {| services.secretKey := secret |}.

(** A sign-in request with the given email and password. *)
Definition sign_in (email password : string) : http.Request :=
  request "POST" {[ "Content-Type" := ["application/json"] ]} ∅
          (email ++ " " ++ password)%string.

(** A user about to be created with an empty password. *)
Definition no_password : models.User := user_with [] "new@rgp.io" "" "admin" true.

(** A handler that answers 200 with an empty listing: the end of a
    middleware chain. *)
Definition final : http.Handler Database :=
  fun _ => controllers.succeed http.StatusOK "ok"
             (models.DataEnquiryList
                {| models.Enquiries := [];
                   models.Pagination :=
                     {| models.CurrentPage := 1; models.TotalPages := 0;
                        models.TotalCount := 0; models.Limit := 10;
                        models.HasNext := false; models.HasPrevious := false;
                        models.NextPage := 2; models.PreviousPage := 0 |};
                   models.Filters :=
                     {| models.F_EnquiryType := ""; models.F_Date := "" |} |}).

(** The status a handler answers with, 0 when it panics. *)
Definition status_of {DB} (r : outcome models.Reply * World DB) : Z :=
  match fst r with
  | Returned reply => models.StatusCode reply
  | Panicked _ => 0
  end.

Definition message_of {DB} (r : outcome models.Reply * World DB) : string :=
  match fst r with
  | Returned reply =>
      match models.Body reply with
      | models.JSONSuccess resp => models.R_Message resp
      | models.JSONError resp => models.E_Message resp
      end
  | Panicked msg => msg
  end.

End sample.

(* ===================================================================== *)
(** ** The rest of the models, services and routes *)
(* ===================================================================== *)

Module fmt.

(** [fmt.Sprintf("%s%d", s, d)]. *)
Definition Sprintf_sd (s : string) (d : Z) : string :=
  (s ++ NilZero.string_of_int (Z.to_int d))%string.

End fmt.

(** The other methods of [models.User] and [models.Query]. *)
Module user_model.

Definition Validate (u : models.User) : bool :=
  negb (String.eqb (models.FirstName u) "") && negb (String.eqb (models.LastName u) "")
  && negb (String.eqb (models.Email u) "") && negb (String.eqb (models.Password u) "")
  && negb (String.eqb (models.Role u) "").

Definition ValidateEmail (u : models.User) : bool :=
  (strings.len (models.Email u) >? 0) && (strings.len (models.Email u) <? 255).

Definition ValidateRole (u : models.User) : bool :=
  String.eqb (models.Role u) models.RoleAdmin
  || String.eqb (models.Role u) models.RoleSuperAdmin.

Definition IsSuperAdmin (u : models.User) : bool :=
  String.eqb (models.Role u) models.RoleSuperAdmin.

Definition IsAdmin (u : models.User) : bool :=
  String.eqb (models.Role u) models.RoleAdmin
  || String.eqb (models.Role u) models.RoleSuperAdmin.

Definition GetFullName (u : models.User) : string :=
  (models.FirstName u ++ " " ++ models.LastName u)%string.

Record UserListResponse := mkUserListResponse {
  L_ID : models.ObjectID;
  L_FirstName : string;
  L_LastName : string;
  L_Email : string;
  L_ProfilePic : option string;
  L_Username : string;
  L_Role : models.UserRole
}.

Definition ToListResponse (u : models.User) : UserListResponse :=
  {| L_ID := models.ID u; L_FirstName := models.FirstName u;
     L_LastName := models.LastName u; L_Email := models.Email u;
     L_ProfilePic := models.ProfilePic u; L_Username := models.Username u;
     L_Role := models.Role u |}.

Record CreateUserRequest := mkCreateUserRequest {
  C_FirstName : string;
  C_LastName : string;
  C_Email : string;
  C_Password : string;
  C_ProfilePic : option string;
  C_Role : models.UserRole;
  C_CompanyName : option string
}.

(** Assignments to the fields of a user. *)
Definition set_Username (u : models.User) (username : string) : models.User :=
  {| models.ID := models.ID u; models.Username := username;
     models.FirstName := models.FirstName u; models.LastName := models.LastName u;
     models.Email := models.Email u; models.Password := models.Password u;
     models.ProfilePic := models.ProfilePic u; models.Role := models.Role u;
     models.CompanyName := models.CompanyName u; models.IsActive := models.IsActive u;
     models.LastLogin := models.LastLogin u; models.CreatedAt := models.CreatedAt u;
     models.UpdatedAt := models.UpdatedAt u |}.

Definition set_ID (u : models.User) (id : models.ObjectID) : models.User :=
  {| models.ID := id; models.Username := models.Username u;
     models.FirstName := models.FirstName u; models.LastName := models.LastName u;
     models.Email := models.Email u; models.Password := models.Password u;
     models.ProfilePic := models.ProfilePic u; models.Role := models.Role u;
     models.CompanyName := models.CompanyName u; models.IsActive := models.IsActive u;
     models.LastLogin := models.LastLogin u; models.CreatedAt := models.CreatedAt u;
     models.UpdatedAt := models.UpdatedAt u |}.

(** [user.CreatedAt = now; user.UpdatedAt = now; user.IsActive = true]. *)
Definition activate (u : models.User) (now : time.Time) : models.User :=
  {| models.ID := models.ID u; models.Username := models.Username u;
     models.FirstName := models.FirstName u; models.LastName := models.LastName u;
     models.Email := models.Email u; models.Password := models.Password u;
     models.ProfilePic := models.ProfilePic u; models.Role := models.Role u;
     models.CompanyName := models.CompanyName u; models.IsActive := true;
     models.LastLogin := models.LastLogin u; models.CreatedAt := now;
     models.UpdatedAt := now |}.

End user_model.

Module query_model.

Definition Validate (q : models.Query) : bool :=
  negb (String.eqb (models.Q_FirstName q) "") && negb (String.eqb (models.Q_LastName q) "")
  && negb (String.eqb (models.Q_Email q) "") && negb (String.eqb (models.Q_Message q) "").

Definition ValidateEmail (q : models.Query) : bool :=
  (strings.len (models.Q_Email q) >? 0) && (strings.len (models.Q_Email q) <? 255).

(** [query.CreatedAt = now; query.UpdatedAt = now]. *)
Definition stamp (q : models.Query) (now : models.DateTime) : models.Query :=
  {| models.QueryID := models.QueryID q; models.Q_FirstName := models.Q_FirstName q;
     models.Q_LastName := models.Q_LastName q; models.Q_Email := models.Q_Email q;
     models.PhoneNumber := models.PhoneNumber q;
     models.Q_CompanyName := models.Q_CompanyName q;
     models.EnquiryType := models.EnquiryType q; models.Q_Message := models.Q_Message q;
     models.Q_CreatedAt := now; models.Q_UpdatedAt := now |}.

Definition set_QueryID (q : models.Query) (id : models.ObjectID) : models.Query :=
  {| models.QueryID := id; models.Q_FirstName := models.Q_FirstName q;
     models.Q_LastName := models.Q_LastName q; models.Q_Email := models.Q_Email q;
     models.PhoneNumber := models.PhoneNumber q;
     models.Q_CompanyName := models.Q_CompanyName q;
     models.EnquiryType := models.EnquiryType q; models.Q_Message := models.Q_Message q;
     models.Q_CreatedAt := models.Q_CreatedAt q;
     models.Q_UpdatedAt := models.Q_UpdatedAt q |}.

End query_model.

(** The write operations of the driver, and the reads that the listing
    of enquiries does not use. An insert yields the inserted id when it
    is an ObjectID, the case in which the services copy it. *)
Module store.

Class Writer (DB : Type) := {
  UsersCursor : Type;
  UsersCollection_InsertOne : models.User -> DB -> result (option models.ObjectID) * DB;
  UsersCollection_Find : bson.M -> mongo.FindOptions -> DB -> result UsersCursor;
  UsersCursor_All : UsersCursor -> result (list models.User);
  Collection_InsertOne : models.Query -> DB -> result (option models.ObjectID) * DB;
  Collection_FindOne : bson.M -> DB -> mongo.FindOneResult models.Query
}.

End store.

(** The rest of [UserService]. *)
Module user_service.

Section UserService.
Context {DB : Type}.
Context `{mongo.Driver DB}.
Context `{store.Writer DB}.
Context `{bcrypt.Package}.

Definition GetUserByUsername (username : string) : M DB (result (option models.User)) :=
  services.find_user {[ "username" := bson.Scalar (bson.String_ username) ]}.

(** The loop of [CreateUser] that resolves username conflicts, entered
    with the candidate [username] and the counter. The loop of the
    source has no bound of its own; [fuel] bounds the iterations of the
    model, and [None] is the model out of fuel. *)
Fixpoint username_loop (fuel : nat) (originalUsername username : string) (counter : Z)
  : M DB (option (result string)) :=
  match fuel with
  | O => ret None
  | S fuel' =>
      do existingUserByUsername <- GetUserByUsername username;
      match existingUserByUsername with
      | Err err => ret (Some (Err err))
      | Ok None => ret (Some (Ok username))
      | Ok (Some _) =>
          let username := fmt.Sprintf_sd originalUsername counter in
          let counter := int64.add counter 1 in
          if counter >? 999
          then ret (Some (errors.New
                 "unable to generate unique username after multiple attempts"))
          else username_loop fuel' originalUsername username counter
      end
  end.

(** [CreateUser]; [rnd] are the random bytes the hashing consumes. The
    errors of the lookups are never [mongo.ErrNoDocuments], which the
    getters turn into a nil user. *)
Definition CreateUser_fuel (fuel : nat) (user : models.User) (rnd : string)
  : M DB (option (result models.User)) :=
  do existingUser <- services.GetUserByEmail (models.Email user);
  match existingUser with
  | Err err => ret (Some (Err err))
  | Ok (Some _) => ret (Some (errors.New "user with this email already exists"))
  | Ok None =>
      let user := user_model.set_Username user (models.GenerateUsernameFromEmail user) in
      if String.eqb (models.Username user) ""
      then ret (Some (errors.New "failed to generate username from email"))
      else
        let originalUsername := models.Username user in
        do chosen <- username_loop fuel originalUsername (models.Username user) 1;
        match chosen with
        | None => ret None
        | Some (Err err) => ret (Some (Err err))
        | Some (Ok username) =>
            let user := user_model.set_Username user username in
            do now <- time_Now;
            let user := user_model.activate user now in
            match models.HashPassword user rnd with
            | (_, Some err) => ret (Some (Err err))
            | (user, None) =>
                do inserted <- db_update (store.UsersCollection_InsertOne user);
                match inserted with
                | Err err => ret (Some (Err err))
                | Ok insertedID =>
                    let user := match insertedID with
                                | Some oid => user_model.set_ID user oid
                                | None => user
                                end in
                    ret (Some (Ok user))
                end
            end
        end
  end.

(** A thousand iterations are more than the loop can make. *)
Definition CreateUser (user : models.User) (rnd : string)
  : M DB (option (result models.User)) :=
  CreateUser_fuel 1000 user rnd.

(** [GetAllUsers]: a positive limit is set, any other means no limit. *)
Definition GetAllUsers (limit : Z) : M DB (result (list models.User)) :=
  let findOptions := mongo.Find_ in
  let findOptions := if limit >? 0 then mongo.SetLimit findOptions limit else findOptions in
  let findOptions :=
    mongo.SetSort findOptions {[ "created_at" := bson.Scalar (bson.Int_ (-1)) ]} in
  do found <- db_read (store.UsersCollection_Find ∅ findOptions);
  match found with
  | Err err => ret (Err err)
  | Ok cursor =>
      match store.UsersCursor_All cursor with
      | Err err => ret (Err err)
      | Ok users => ret (Ok users)
      end
  end.

(** The [append] loop of [GetAllUsersList]. *)
Fixpoint list_loop (users : list models.User)
  (userList : list user_model.UserListResponse) : list user_model.UserListResponse :=
  match users with
  | [] => userList
  | user :: rest => list_loop rest (userList ++ [user_model.ToListResponse user])
  end.

Definition GetAllUsersList (limit : Z) : M DB (result (list user_model.UserListResponse)) :=
  do listed <- GetAllUsers limit;
  match listed with
  | Err err => ret (Err err)
  | Ok users => ret (Ok (list_loop users []))
  end.

End UserService.

End user_service.

(** The rest of [EnquiryService]. *)
Module enquiry_service.

Section EnquiryService.
Context {DB : Type}.
Context `{store.Writer DB}.

Definition CreateEnquiry (query : models.Query) : M DB (result models.Query) :=
  do t <- time_Now;
  let now := models.NewDateTimeFromTime t in
  let query := query_model.stamp query now in
  do inserted <- db_update (store.Collection_InsertOne query);
  match inserted with
  | Err err => ret (Err err)
  | Ok insertedID =>
      let query := match insertedID with
                   | Some oid => query_model.set_QueryID query oid
                   | None => query
                   end in
      ret (Ok query)
  end.

(** [GetEnquiryByID]: no document is a nil enquiry and a nil error. *)
Definition GetEnquiryByID (id : models.ObjectID) : M DB (result (option models.Query)) :=
  db_read (fun d =>
    match store.Collection_FindOne {[ "_id" := bson.Scalar (bson.ObjectID_ id) ]} d with
    | mongo.Decoded query => Ok (Some query)
    | mongo.ErrNoDocuments => Ok None
    | mongo.FindOneError err => Err err
    end).

End EnquiryService.

End enquiry_service.

(** The middleware that [SetupRoutes] installs on the router. The path
    is [r.URL.Path]; it is passed beside the request, whose record holds
    what the handlers read. *)
Module routes.

Section Routes.
Context {DB : Type}.
Context `{jwt.Package services.Claims}.

(** The paths that skip authentication. *)
Definition public_path (path : string) : bool :=
  String.eqb path "/" || String.eqb path "/enquiry" || String.eqb path "/create-user"
  || String.eqb path "/auth/signin" || String.eqb path "/auth/login"
  || String.eqb path "/health".

Definition authenticate (jwtService : services.JWTService) (path : string)
  (next : http.Handler DB) : http.Handler DB :=
  fun r =>
    if String.eqb (http.Method r) "OPTIONS" then next r
    else if public_path path then next r
    else
      let roleHandler := middleware.AdminOrSuperAdminMiddleware next in
      let authHandler := middleware.AuthMiddleware jwtService roleHandler in
      authHandler r.

End Routes.

End routes.

(* ===================================================================== *)
(** ** The rest of the controllers *)
(* ===================================================================== *)

(** [strings.Contains(s, substr)]. *)
Fixpoint strings_Contains (s substr : string) : bool :=
  String.prefix substr s
  || match s with
     | EmptyString => false
     | String _ rest => strings_Contains rest substr
     end.

Module primitive.

(** The value of a hexadecimal digit, either case. *)
Definition hex_value (c : ascii) : option N :=
  let n := N_of_ascii c in
  if ((48 <=? n) && (n <=? 57))%N then Some (n - 48)%N
  else if ((97 <=? n) && (n <=? 102))%N then Some (n - 87)%N
  else if ((65 <=? n) && (n <=? 70))%N then Some (n - 55)%N
  else None.

(** [hex.Decode]: two digits to the byte. *)
Fixpoint hex_decode (s : string) : option (list ascii) :=
  match s with
  | EmptyString => Some []
  | String hi (String lo rest) =>
      match hex_value hi, hex_value lo, hex_decode rest with
      | Some h, Some l, Some bytes => Some (ascii_of_N (h * 16 + l) :: bytes)
      | _, _, _ => None
      end
  | String _ EmptyString => None
  end.

(** [primitive.ObjectIDFromHex]: twenty-four hexadecimal digits. *)
Definition ObjectIDFromHex (s : string) : result models.ObjectID :=
  if negb (strings.len s =? 24)
  then errors.New "the provided hex string is not a valid ObjectID"
  else match hex_decode s with
       | Some bytes => Ok bytes
       | None => errors.New "encoding/hex: invalid byte"
       end.

End primitive.

(** The envelope of [models.Response] around the data of the handlers
    below, and the decoding of their request bodies. *)
Module response.

Inductive Data : Type :=
| EnquiryCreated (enquiry_id : models.ObjectID) (submitted_at : models.DateTime)
| Enquiry (query : models.Query)
| CreatedUser (user : models.UserResponse)
| Users (users : list user_model.UserListResponse).

Record Response := mkResponse {
  StatusCode : Z;
  Status : string;
  Message : string;
  Data_ : Data;
  Timestamp : string
}.

Inductive Payload : Type :=
| JSONSuccess (r : Response)
| JSONError (e : models.ErrorResponse).

Record Reply := mkReply {
  ContentType : string;
  Code : Z;
  Body : Payload
}.

Definition CreateSuccessResponse {DB} (statusCode : Z) (message : string) (data : Data)
  : M DB Response :=
  do now <- time_Now;
  do ts <- Format_RFC3339 now;
  ret {| StatusCode := statusCode; Status := "success"; Message := message;
         Data_ := data; Timestamp := ts |}.

Definition SendJSONResponse (statusCode : Z) (data : Payload) : Reply :=
  {| ContentType := "application/json"; Code := statusCode; Body := data |}.

Definition Handler (DB : Type) : Type := http.Request -> M DB (outcome Reply).

Definition reject {DB} (statusCode : Z) (message error : string) : M DB (outcome Reply) :=
  do errorResp <- models.CreateErrorResponse statusCode message error;
  ret (Returned (SendJSONResponse statusCode (JSONError errorResp))).

Definition succeed {DB} (statusCode : Z) (message : string) (data : Data)
  : M DB (outcome Reply) :=
  do resp <- CreateSuccessResponse statusCode message data;
  ret (Returned (SendJSONResponse statusCode (JSONSuccess resp))).

(** [json.NewDecoder(r.Body).Decode] into the two request types. *)
Class Decoders := {
  Decode_Query : string -> result models.Query;
  Decode_CreateUserRequest : string -> result user_model.CreateUserRequest
}.

End response.

Module enquiry_controller.

Section EnquiryController.
Context {DB : Type}.
Context `{store.Writer DB}.
Context `{response.Decoders}.

Definition CreateEnquiry : response.Handler DB :=
  fun r =>
    if negb (String.eqb (http.Method r) "POST") then
      response.reject http.StatusMethodNotAllowed "Method not allowed"
        "Only POST method is allowed for this endpoint"
    else
      let contentType := http.Get (http.Header r) "Content-Type" in
      if negb (strings.HasPrefix contentType "application/json") then
        response.reject http.StatusUnsupportedMediaType "Unsupported media type"
          "Content-Type must be application/json"
      else
        match response.Decode_Query (http.Body r) with
        | Err err => response.reject http.StatusBadRequest "Invalid JSON format" (Error err)
        | Ok query =>
            if negb (query_model.Validate query) then
              response.reject http.StatusBadRequest "Missing required fields"
                "first_name, last_name, email, and message are required"
            else if negb (query_model.ValidateEmail query) then
              response.reject http.StatusBadRequest "Invalid email format"
                "Please provide a valid email address"
            else if negb (strings.ContainsByte (models.Q_Email query) "@"%char)
                    || negb (strings.ContainsByte (models.Q_Email query) "."%char) then
              response.reject http.StatusBadRequest "Invalid email format"
                "Email must contain @ and domain"
            else
              do created <- enquiry_service.CreateEnquiry query;
              match created with
              | Err err =>
                  response.reject http.StatusInternalServerError
                    "Failed to create enquiry" (Error err)
              | Ok createdQuery =>
                  response.succeed 201
                    "Enquiry submitted successfully. We will get back to you soon."
                    (response.EnquiryCreated (models.QueryID createdQuery)
                       (models.Q_CreatedAt createdQuery))
              end
        end.

(** [GetEnquiryByID]; [idStr] is [mux.Vars(r)["id"]]. *)
Definition GetEnquiryByID (idStr : string) : response.Handler DB :=
  fun r =>
    if negb (String.eqb (http.Method r) "GET") then
      response.reject http.StatusMethodNotAllowed "Method not allowed"
        "Only GET method is allowed for this endpoint"
    else
      match primitive.ObjectIDFromHex idStr with
      | Err _ =>
          response.reject http.StatusBadRequest "Invalid enquiry ID"
            "Please provide a valid enquiry ID"
      | Ok objectID =>
          do found <- enquiry_service.GetEnquiryByID objectID;
          match found with
          | Err err =>
              response.reject http.StatusInternalServerError
                "Failed to retrieve enquiry" (Error err)
          | Ok None =>
              response.reject 404 "Enquiry not found"
                "No enquiry found with the provided ID"
          | Ok (Some enquiry) =>
              response.succeed http.StatusOK "Enquiry retrieved successfully"
                (response.Enquiry enquiry)
          end
      end.

End EnquiryController.

End enquiry_controller.

Module user_controller.

Section UserController.
Context {DB : Type}.
Context `{mongo.Driver DB}.
Context `{store.Writer DB}.
Context `{bcrypt.Package}.
Context `{response.Decoders}.

(** The user built from a request that passed the checks; a missing
    profile picture or company name becomes the empty string. *)
Definition user_of_request (createReq : user_model.CreateUserRequest) : models.User :=
  {| models.ID := []; models.Username := "";
     models.FirstName := user_model.C_FirstName createReq;
     models.LastName := user_model.C_LastName createReq;
     models.Email := user_model.C_Email createReq;
     models.Password := user_model.C_Password createReq;
     models.ProfilePic :=
       match user_model.C_ProfilePic createReq with Some p => Some p | None => Some "" end;
     models.Role := user_model.C_Role createReq;
     models.CompanyName :=
       match user_model.C_CompanyName createReq with Some c => Some c | None => Some "" end;
     models.IsActive := false; models.LastLogin := None;
     models.CreatedAt := 0; models.UpdatedAt := 0 |}.

(** [CreateUser]; [rnd] are the random bytes the hashing consumes. *)
Definition CreateUser (rnd : string) : http.Request -> M DB (option (outcome response.Reply)) :=
  fun r =>
    let answer (m : M DB (outcome response.Reply)) : M DB (option (outcome response.Reply)) :=
      do reply <- m; ret (Some reply) in
    if negb (String.eqb (http.Method r) "POST") then
      answer (response.reject http.StatusMethodNotAllowed "Method not allowed"
                "Only POST method is allowed for this endpoint")
    else
      let contentType := http.Get (http.Header r) "Content-Type" in
      if negb (strings.HasPrefix contentType "application/json") then
        answer (response.reject http.StatusUnsupportedMediaType "Unsupported media type"
                  "Content-Type must be application/json")
      else
        match response.Decode_CreateUserRequest (http.Body r) with
        | Err err =>
            answer (response.reject http.StatusBadRequest "Invalid JSON format" (Error err))
        | Ok createReq =>
            if String.eqb (user_model.C_FirstName createReq) ""
               || String.eqb (user_model.C_LastName createReq) ""
               || String.eqb (user_model.C_Email createReq) ""
               || String.eqb (user_model.C_Password createReq) ""
            then answer (response.reject http.StatusBadRequest "Missing required fields"
                           "first_name, last_name, email, and password are required")
            else if negb (strings.ContainsByte (user_model.C_Email createReq) "@"%char)
                    || negb (strings.ContainsByte (user_model.C_Email createReq) "."%char)
            then answer (response.reject http.StatusBadRequest "Invalid email format"
                           "Email must contain @ and domain")
            else if strings.len (user_model.C_Password createReq) <? 8
            then answer (response.reject http.StatusBadRequest "Password too short"
                           "Password must be at least 8 characters long")
            else if negb (String.eqb (user_model.C_Role createReq) models.RoleAdmin)
                    && negb (String.eqb (user_model.C_Role createReq) models.RoleSuperAdmin)
            then answer (response.reject http.StatusBadRequest "Invalid role"
                           "Role must be either 'admin' or 'super-admin'")
            else
              let user := user_of_request createReq in
              do created <- user_service.CreateUser user rnd;
              match created with
              | None => ret None
              | Some (Err err) =>
                  if strings_Contains (Error err) "email already exists"
                  then answer (response.reject 409 "User already exists"
                                 "Email address is already registered")
                  else answer (response.reject http.StatusInternalServerError
                                 "Failed to create user" (Error err))
              | Some (Ok createdUser) =>
                  answer (response.succeed 201 "User created successfully"
                            (response.CreatedUser (models.ToResponse createdUser)))
              end
        end.

(** [GetAllUsers]: the envelope is built in place. *)
Definition GetAllUsers : response.Handler DB :=
  fun r =>
    do listed <- user_service.GetAllUsersList 0;
    match listed with
    | Err _ =>
        response.reject http.StatusInternalServerError "Failed to fetch users"
          "An error occurred while retrieving users from the database"
    | Ok users =>
        do now <- time_Now;
        do ts <- Format_RFC3339 now;
        let resp :=
          {| response.StatusCode := http.StatusOK; response.Status := "success";
             response.Message := "Users retrieved successfully";
             response.Data_ := response.Users users; response.Timestamp := ts |} in
        ret (Returned (response.SendJSONResponse http.StatusOK (response.JSONSuccess resp)))
    end.

End UserController.

End user_controller.

(* ===================================================================== *)
(** ** Definitions used to state further properties, and their environment *)
(* ===================================================================== *)

Module facts.

(** The [i]-th reading of the clock from world [w] on. *)
Definition reading {DB} (w : World DB) (i : nat) : time.Time := clock w (i + ticks w)%nat.

(** The world after [n] readings of the clock and with database [d]. *)
Definition advanced {DB} (w : World DB) (n : nat) (d : DB) : World DB :=
  {| clock := clock w; ticks := (n + ticks w)%nat; zone_format := zone_format w; db := d |}.

(** The claims that token issuance signs for a user. *)
Definition issued_claims (user : models.User) (expiration issuedAt notBefore : time.Time)
  : services.Claims :=
  {| services.UserID := models.Hex (models.ID user);
     services.Email := models.Email user;
     services.Username := models.Username user;
     services.Role := models.Role user;
     services.Registered :=
       {| jwt.Issuer := "rgp-backend-enquiry";
          jwt.Subject := models.Hex (models.ID user);
          jwt.ExpiresAt := Some (jwt.NewNumericDate expiration);
          jwt.NotBefore := Some (jwt.NewNumericDate notBefore);
          jwt.IssuedAt := Some (jwt.NewNumericDate issuedAt) |} |}.

(** The queries and the update of the user service. *)
Definition by_username (username : string) : bson.M :=
  {[ "username" := bson.Scalar (bson.String_ username) ]}.

Definition by_id (id : models.ObjectID) : bson.M :=
  {[ "_id" := bson.Scalar (bson.ObjectID_ id) ]}.

Definition last_login_update (lastLogin updatedAt : time.Time) : bson.M :=
  {[ "$set" := bson.Doc (<[ "updated_at" := bson.Time_ updatedAt ]>
                          {[ "last_login" := bson.Time_ lastLogin ]}) ]}.

(** The database as the authentication of [user] leaves it. *)
Definition after_login {DB} `{mongo.Driver DB} (user : models.User) (w : World DB) : DB :=
  snd (mongo.UsersCollection_UpdateOne (by_id (models.ID user))
         (last_login_update (reading w 0) (reading w 1)) (db w)).

(** The [k]-th username tried for a new user: the derived one, then
    the derived one followed by 1, 2, ... *)
Definition candidate (originalUsername : string) (k : Z) : string :=
  if k =? 0 then originalUsername else fmt.Sprintf_sd originalUsername k.

(** The reply of a rejection by the handlers of the wider envelope. *)
Definition rejected {DB} (w : World DB) (statusCode : Z) (message detail : string)
  : outcome response.Reply * World DB :=
  (Returned
     {| response.ContentType := "application/json";
        response.Code := statusCode;
        response.Body :=
          response.JSONError
            {| models.E_StatusCode := statusCode;
               models.E_Status := "error";
               models.E_Message := message;
               models.E_Error := detail;
               models.E_Timestamp := zone_format w (clock w (ticks w)) |} |},
   spec.tick w).

(** The reply of a success by the handlers of the wider envelope. *)
Definition succeeded {DB} (w : World DB) (statusCode : Z) (message : string)
  (data : response.Data) : outcome response.Reply * World DB :=
  (Returned
     {| response.ContentType := "application/json";
        response.Code := statusCode;
        response.Body :=
          response.JSONSuccess
            {| response.StatusCode := statusCode;
               response.Status := "success";
               response.Message := message;
               response.Data_ := data;
               response.Timestamp := zone_format w (clock w (ticks w)) |} |},
   spec.tick w).

(** What the enquiry endpoint requires of an enquiry. *)
Definition acceptable (query : models.Query) : Prop :=
  models.Q_FirstName query <> "" /\ models.Q_LastName query <> ""
  /\ models.Q_Email query <> "" /\ models.Q_Message query <> ""
  /\ strings.len (models.Q_Email query) < 255
  /\ strings.ContainsByte (models.Q_Email query) "@"%char = true
  /\ strings.ContainsByte (models.Q_Email query) "."%char = true.

(** What the create-user endpoint requires of a request. *)
Definition well_formed (createReq : user_model.CreateUserRequest) : Prop :=
  user_model.C_FirstName createReq <> "" /\ user_model.C_LastName createReq <> ""
  /\ user_model.C_Email createReq <> "" /\ user_model.C_Password createReq <> ""
  /\ strings.ContainsByte (user_model.C_Email createReq) "@"%char = true
  /\ strings.ContainsByte (user_model.C_Email createReq) "."%char = true
  /\ 8 <= strings.len (user_model.C_Password createReq)
  /\ (user_model.C_Role createReq = models.RoleAdmin
      \/ user_model.C_Role createReq = models.RoleSuperAdmin).

(** A hexadecimal digit, either case, and a well-formed id string:
    twenty-four of them. *)
Definition is_hex_digit (c : ascii) : bool :=
  strings.ContainsByte "0123456789abcdefABCDEF" c.

Definition hex_id (s : string) : bool :=
  (String.length s =? 24)%nat && spec.all_chars is_hex_digit s.

(** A handler that may not end, ending with the given reply. *)
Definition answered {DB} (p : outcome response.Reply * World DB)
  : option (outcome response.Reply) * World DB :=
  (Some (fst p), snd p).

End facts.

(** A second environment: a store that looks users up by email, by
    username and by id, applies the updates and the inserts, and the
    decoders of a line-oriented body format. *)
Module fixture.

Definition account_matches (filter : bson.M) (u : models.User) : bool :=
  match filter !! "email", filter !! "username", filter !! "_id" with
  | Some (bson.Scalar (bson.String_ email)), _, _ => String.eqb (models.Email u) email
  | None, Some (bson.Scalar (bson.String_ username)), _ =>
      String.eqb (models.Username u) username
  | None, None, Some (bson.Scalar (bson.ObjectID_ id)) =>
      String.eqb (models.Hex (models.ID u)) (models.Hex id)
  | _, _, _ => false
  end.

Definition set_LastLogin (u : models.User) (t : time.Time) : models.User :=
  {| models.ID := models.ID u; models.Username := models.Username u;
     models.FirstName := models.FirstName u; models.LastName := models.LastName u;
     models.Email := models.Email u; models.Password := models.Password u;
     models.ProfilePic := models.ProfilePic u; models.Role := models.Role u;
     models.CompanyName := models.CompanyName u; models.IsActive := models.IsActive u;
     models.LastLogin := Some t; models.CreatedAt := models.CreatedAt u;
     models.UpdatedAt := models.UpdatedAt u |}.

(** The [$set] of a last login, applied to the users that match. *)
Definition apply_update (filter update : bson.M) (u : models.User) : models.User :=
  if account_matches filter u then
    match update !! "$set" with
    | Some (bson.Doc fields) =>
        match fields !! "last_login" with
        | Some (bson.Time_ t) => set_LastLogin u t
        | _ => u
        end
    | _ => u
    end
  else u.

#[export] Instance driver : mongo.Driver sample.Database := {|
  mongo.Cursor := list models.Query;
  mongo.UsersCollection_FindOne filter d :=
    match List.find (account_matches filter) (sample.users d) with
    | Some u => mongo.Decoded u
    | None => mongo.ErrNoDocuments
    end;
  mongo.UsersCollection_UpdateOne filter update d :=
    (None, {| sample.users := List.map (apply_update filter update) (sample.users d);
              sample.enquiries := sample.enquiries d |});
  mongo.Collection_Find filter o d :=
    match mongo.Skip o with
    | Some n =>
        if n <? 0 then errors.New "(BadValue) skip value must be non-negative"
        else Ok (sample.page_of o (sample.selected filter d))
    | None => Ok (sample.page_of o (sample.selected filter d))
    end;
  mongo.Cursor_All cursor := Ok cursor;
  mongo.Collection_CountDocuments filter d :=
    Ok (Z.of_nat (List.length (sample.selected filter d)))
|}.

(** The id given to the next document of a collection. *)
Definition fresh_id (n : nat) : models.ObjectID :=
  List.app (List.repeat "000"%char 11) [ascii_of_nat n].

Definition enquiry_matches (filter : bson.M) (q : models.Query) : bool :=
  match filter !! "_id" with
  | Some (bson.Scalar (bson.ObjectID_ id)) =>
      String.eqb (models.Hex (models.QueryID q)) (models.Hex id)
  | _ => false
  end.

#[export] Instance writer : store.Writer sample.Database := {|
  store.UsersCursor := list models.User;
  store.UsersCollection_InsertOne user d :=
    if List.existsb (fun u => String.eqb (models.Email u) (models.Email user))
         (sample.users d)
    then (errors.New "E11000 duplicate key error", d)
    else
      let id := fresh_id (List.length (sample.users d)) in
      (Ok (Some id),
       {| sample.users := sample.users d ++ [user_model.set_ID user id];
          sample.enquiries := sample.enquiries d |});
  store.UsersCollection_Find filter o d :=
    Ok (match mongo.Limit o with
        | Some n => List.firstn (Z.to_nat n) (sample.users d)
        | None => sample.users d
        end);
  store.UsersCursor_All cursor := Ok cursor;
  store.Collection_InsertOne query d :=
    let id := fresh_id (List.length (sample.enquiries d)) in
    (Ok (Some id),
     {| sample.users := sample.users d;
        sample.enquiries := query_model.set_QueryID query id :: sample.enquiries d |});
  store.Collection_FindOne filter d :=
    match List.find (enquiry_matches filter) (sample.enquiries d) with
    | Some q => mongo.Decoded q
    | None => mongo.ErrNoDocuments
    end
|}.

(** Bodies are fields separated by vertical bars. *)
#[export] Instance decoders : response.Decoders := {|
  response.Decode_Query body :=
    match strings.Split body "|"%char with
    | [first; last; email; phone; company; type; message] =>
        Ok {| models.QueryID := []; models.Q_FirstName := first;
              models.Q_LastName := last; models.Q_Email := email;
              models.PhoneNumber := phone; models.Q_CompanyName := company;
              models.EnquiryType := type; models.Q_Message := message;
              models.Q_CreatedAt := 0; models.Q_UpdatedAt := 0 |}
    | _ => errors.New "unexpected end of JSON input"
    end;
  response.Decode_CreateUserRequest body :=
    match strings.Split body "|"%char with
    | [first; last; email; password; role] =>
        Ok {| user_model.C_FirstName := first; user_model.C_LastName := last;
              user_model.C_Email := email; user_model.C_Password := password;
              user_model.C_ProfilePic := None; user_model.C_Role := role;
              user_model.C_CompanyName := None |}
    | _ => errors.New "unexpected end of JSON input"
    end
|}.

Definition account (id : nat) (username email password : string)
  (role : models.UserRole) (active : bool) : models.User :=
  {| models.ID := fresh_id id; models.Username := username; models.FirstName := "A";
     models.LastName := "B"; models.Email := email; models.Password := password;
     models.ProfilePic := Some ""; models.Role := role; models.CompanyName := Some "";
     models.IsActive := active; models.LastLogin := None;
     models.CreatedAt := 0; models.UpdatedAt := 0 |}.

Definition john : models.User :=
  account 0 "johndoe" "john.doe@rgp.io" "$2a$correct-horse" "admin" true.

Definition johnny : models.User :=
  account 1 "johndoe1" "johndoe@corp.io" "$2a$battery-staple" "super-admin" true.

Definition visitor : models.User :=
  account 2 "visitor" "visitor@rgp.io" "$2a$guest-pass" "guest" true.

Definition database : sample.Database :=
  {| sample.users := [john; johnny; visitor];
     sample.enquiries := List.rev (List.map sample.enquiry (List.seq 0 3)) |}.

Definition world : World sample.Database :=
  {| clock := fun n => List.nth n sample.readings 1700000000009000000;
     ticks := 0;
     zone_format := fun _ => "2023-11-14T22:13:20Z";
     db := database |}.

(** A create-user request and an enquiry submission in the body format
    of this environment. *)
Definition create_user (body : string) : http.Request :=
  sample.request "POST" {[ "Content-Type" := ["application/json"] ]} ∅ body.

Definition submit (body : string) : http.Request :=
  sample.request "POST" {[ "Content-Type" := ["application/json"] ]} ∅ body.

Definition get : http.Request := sample.request "GET" ∅ ∅ "".

(** A user about to be created, whose derived username and its first
    successor are taken. *)
Definition newcomer : models.User :=
  {| models.ID := []; models.Username := ""; models.FirstName := "John";
     models.LastName := "Doe"; models.Email := "JohnDoe@new.io";
     models.Password := "password1"; models.ProfilePic := Some "";
     models.Role := "admin"; models.CompanyName := Some "";
     models.IsActive := false; models.LastLogin := None;
     models.CreatedAt := 0; models.UpdatedAt := 0 |}.

(** A store in which every username is taken and no email is. *)
Definition crowded : mongo.Driver sample.Database := {|
  mongo.Cursor := list models.Query;
  mongo.UsersCollection_FindOne filter d :=
    match filter !! "username" with
    | Some _ => mongo.Decoded john
    | None => mongo.ErrNoDocuments
    end;
  mongo.UsersCollection_UpdateOne filter update d := (None, d);
  mongo.Collection_Find filter o d := Ok (sample.enquiries d);
  mongo.Cursor_All cursor := Ok cursor;
  mongo.Collection_CountDocuments filter d :=
    Ok (Z.of_nat (List.length (sample.enquiries d)))
|}.

(** An enquiry as submitted, and its body. *)
Definition ada : models.Query :=
  {| models.QueryID := []; models.Q_FirstName := "Ada";
     models.Q_LastName := "Lovelace"; models.Q_Email := "ada@maths.org";
     models.PhoneNumber := "555"; models.Q_CompanyName := "Analytical";
     models.EnquiryType := "sales"; models.Q_Message := "hello";
     models.Q_CreatedAt := 0; models.Q_UpdatedAt := 0 |}.

Definition enquiry_body : string := "Ada|Lovelace|ada@maths.org|555|Analytical|sales|hello".

(** Two create-user requests: a new email, and the email of [john]. *)
Definition request_for (first last email password : string) (role : models.UserRole)
  : user_model.CreateUserRequest :=
  {| user_model.C_FirstName := first; user_model.C_LastName := last;
     user_model.C_Email := email; user_model.C_Password := password;
     user_model.C_ProfilePic := None; user_model.C_Role := role;
     user_model.C_CompanyName := None |}.

Definition grace : user_model.CreateUserRequest :=
  request_for "Grace" "Hopper" "grace@navy.mil" "password1" "admin".

Definition grace_body : string := "Grace|Hopper|grace@navy.mil|password1|admin".

Definition duplicate : user_model.CreateUserRequest :=
  request_for "John" "Doe" "john.doe@rgp.io" "password1" "admin".

Definition duplicate_body : string := "John|Doe|john.doe@rgp.io|password1|admin".

End fixture.

(* ===================================================================== *)
(** * Properties *)
(* ===================================================================== *)

(** ** Strings *)

Lemma append_nil (t : string) : ("" ++ t)%string = t.
Proof. reflexivity. Qed.

Lemma append_cons (c : ascii) (s t : string) :
  (String c s ++ t)%string = String c (s ++ t)%string.
Proof. reflexivity. Qed.

Lemma length_append (s t : string) :
  String.length (s ++ t)%string = (String.length s + String.length t)%nat.
Proof.
  induction s as [|c s IH]; [reflexivity |].
  rewrite append_cons. simpl. now rewrite IH.
Qed.

Lemma append_empty_r (s : string) : (s ++ "")%string = s.
Proof.
  induction s as [|c s IH]; [reflexivity |].
  rewrite append_cons. now rewrite IH.
Qed.

Lemma append_assoc (s t u : string) : ((s ++ t) ++ u)%string = (s ++ (t ++ u))%string.
Proof.
  induction s as [|c s IH]; [reflexivity |].
  rewrite !append_cons. now rewrite IH.
Qed.

Lemma length_substring_0 (n : nat) (s : string) :
  String.length (String.substring 0 n s) = Nat.min n (String.length s).
Proof.
  revert s; induction n as [|n IH]; intros [|c s]; simpl; try reflexivity.
  now rewrite IH.
Qed.

Lemma length_ToLower (s : string) : String.length (strings.ToLower s) = String.length s.
Proof. induction s as [|c s IH]; simpl; [reflexivity | now rewrite IH]. Qed.

Lemma all_chars_append p (s t : string) :
  spec.all_chars p (s ++ t)%string = spec.all_chars p s && spec.all_chars p t.
Proof.
  induction s as [|c s IH]; [reflexivity |].
  rewrite append_cons. simpl. now rewrite IH, andb_assoc.
Qed.

Lemma all_chars_substring_0 p (n : nat) (s : string) :
  spec.all_chars p s = true -> spec.all_chars p (String.substring 0 n s) = true.
Proof.
  revert s; induction n as [|n IH]; intros [|c s]; simpl; try reflexivity.
  intros [Hc Hs]%andb_true_iff. rewrite Hc. now apply IH.
Qed.

(** The case analysis over the 256 bytes. *)
Ltac by_bytes c :=
  destruct c as [[] [] [] [] [] [] [] []]; vm_compute; try reflexivity; try discriminate.

Lemma keep_char_spec (c : ascii) :
  models.keep_char c = spec.is_letter c || spec.is_digit c || spec.is_underscore c.
Proof. by_bytes c. Qed.

Lemma lower_kept_char (c : ascii) :
  models.keep_char c = true -> spec.username_char (strings.lower_byte c) = true.
Proof. by_bytes c. Qed.

(** ** Username derivation *)

Lemma Split_head (s : string) :
  exists ps, strings.Split s "@"%char = spec.before_at s :: ps.
Proof.
  induction s as [|c s [ps IH]]; simpl.
  - now exists [].
  - destruct (Ascii.eqb c "@"%char).
    + now eexists.
    + rewrite IH. now eexists.
Qed.

Lemma clean_loop_strip (username acc : string) :
  models.clean_loop username acc = (acc ++ spec.strip username)%string.
Proof.
  revert acc; induction username as [|c s IH]; intros acc; simpl.
  - now rewrite append_empty_r.
  - rewrite <- keep_char_spec. destruct (models.keep_char c).
    + rewrite IH, append_assoc, append_cons, append_nil. reflexivity.
    + apply IH.
Qed.

Lemma strip_lower_chars (s : string) :
  spec.all_chars spec.username_char (strings.ToLower (spec.strip s)) = true.
Proof.
  induction s as [|c s IH]; simpl; [reflexivity |].
  rewrite <- keep_char_spec. destruct (models.keep_char c) eqn:Hc; [|exact IH].
  simpl. now rewrite (lower_kept_char c Hc), IH.
Qed.

Lemma GenerateUsernameFromEmail_nonempty (u : models.User) :
  models.Email u <> "" ->
  models.GenerateUsernameFromEmail u = spec.derive (models.Email u).
Proof.
  intros Hne. unfold models.GenerateUsernameFromEmail.
  destruct (String.eqb_spec (models.Email u) "") as [E|_]; [contradiction|].
  destruct (Split_head (models.Email u)) as [ps ->].
  rewrite clean_loop_strip, append_nil.
  unfold spec.derive, spec.cleaned, strings.len.
  set (c := strings.ToLower (spec.strip (spec.before_at (models.Email u)))).
  assert (Hpad : (if Z.of_nat (String.length c) <? 3 then (c ++ "user")%string else c)
                 = (if (String.length c <? 3)%nat then (c ++ "user")%string else c)).
  { destruct (Nat.ltb_spec (String.length c) 3);
      [rewrite (proj2 (Z.ltb_lt _ _)) | rewrite (proj2 (Z.ltb_ge _ _))]; (reflexivity || lia). }
  rewrite Hpad.
  set (r := if (String.length c <? 3)%nat then (c ++ "user")%string else c).
  destruct (Nat.ltb_spec 30 (String.length r)).
  - rewrite (proj2 (Z.gtb_gt _ _)); [reflexivity | lia].
  - destruct (Z.of_nat (String.length r) >? 30) eqn:E; [|reflexivity].
    apply Z.gtb_gt in E. lia.
Qed.

(** Claim C4, where the code departs from it: the empty email derives
    the empty string, not ["user"]. *)
Lemma GenerateUsernameFromEmail_empty_email :
  models.GenerateUsernameFromEmail (spec.user_of_email "") = ""
  /\ models.GenerateUsernameFromEmail (spec.user_of_email "") <> "user".
Proof. split; [reflexivity | discriminate]. Qed.

(** Claim C4, amended: for every user with a non-empty email the derived
    username is the part of the email before the first [@], stripped of
    every character that is not an ASCII letter, digit or underscore,
    lower-cased, followed by ["user"] when fewer than 3 characters
    remain, and cut to 30 characters when longer; it is ["user"] when no
    usable character remains; ["ab@x.com"] derives ["abuser"] and
    ["John.Doe123@x.com"] derives ["johndoe123"]. For the empty email
    the result is the empty string. *)
Theorem GenerateUsernameFromEmail_derivation (u : models.User) :
  (models.Email u <> "" ->
     models.GenerateUsernameFromEmail u = spec.derive (models.Email u)
     /\ (spec.cleaned (models.Email u) = "" ->
         models.GenerateUsernameFromEmail u = "user"))
  /\ (models.Email u = "" -> models.GenerateUsernameFromEmail u = "")
  /\ models.GenerateUsernameFromEmail (spec.user_of_email "ab@x.com") = "abuser"
  /\ models.GenerateUsernameFromEmail (spec.user_of_email "John.Doe123@x.com") = "johndoe123".
Proof.
  split; [|split; [|split; reflexivity]].
  - intros Hne. rewrite (GenerateUsernameFromEmail_nonempty u Hne).
    split; [reflexivity |].
    intros Hc. unfold spec.derive. now rewrite Hc.
  - intros E. unfold models.GenerateUsernameFromEmail. now rewrite E.
Qed.

Lemma GenerateUsernameFromEmail_derivation_witness :
  models.GenerateUsernameFromEmail (spec.user_of_email "...@x.com") = spec.derive "...@x.com"
  /\ models.GenerateUsernameFromEmail (spec.user_of_email "...@x.com") = "user".
Proof.
  destruct (GenerateUsernameFromEmail_derivation (spec.user_of_email "...@x.com"))
    as [H _].
  destruct H as [H1 H2]; [discriminate |].
  split; [exact H1 | apply H2; reflexivity].
Defined.

(** Claim C10: for every user with a non-empty email the derived
    username has between 3 and 30 characters, hence is not empty, and
    consists of lower-case ASCII letters, digits and underscores only. *)
Theorem GenerateUsernameFromEmail_shape (u : models.User) :
  models.Email u <> "" ->
  models.GenerateUsernameFromEmail u <> ""
  /\ (3 <= String.length (models.GenerateUsernameFromEmail u) <= 30)%nat
  /\ spec.all_chars spec.username_char (models.GenerateUsernameFromEmail u) = true.
Proof.
  intros Hne. rewrite (GenerateUsernameFromEmail_nonempty u Hne).
  unfold spec.derive, spec.cleaned.
  set (c := strings.ToLower (spec.strip (spec.before_at (models.Email u)))).
  assert (Hc : spec.all_chars spec.username_char c = true) by apply strip_lower_chars.
  set (r := if (String.length c <? 3)%nat then (c ++ "user")%string else c).
  assert (Hlen : (3 <= String.length r)%nat).
  { subst r. destruct (Nat.ltb_spec (String.length c) 3); [|assumption].
    rewrite length_append. simpl. lia. }
  assert (Hr : spec.all_chars spec.username_char r = true).
  { subst r. destruct (String.length c <? 3)%nat; [|assumption].
    rewrite all_chars_append, Hc. reflexivity. }
  assert (Hfinal :
    (3 <= String.length (if (30 <? String.length r)%nat
                         then String.substring 0 30 r else r) <= 30)%nat).
  { destruct (Nat.ltb_spec 30 (String.length r)).
    - rewrite length_substring_0. lia.
    - lia. }
  split; [|split].
  - intros E. rewrite E in Hfinal. simpl in Hfinal. lia.
  - exact Hfinal.
  - destruct (30 <? String.length r)%nat; [now apply all_chars_substring_0 | assumption].
Qed.

Lemma GenerateUsernameFromEmail_shape_witness :
  models.GenerateUsernameFromEmail (spec.user_of_email "a-very.long.name_2024+enquiries.backend@x.com") <> ""
  /\ (3 <= String.length (models.GenerateUsernameFromEmail
                            (spec.user_of_email "a-very.long.name_2024+enquiries.backend@x.com")) <= 30)%nat
  /\ spec.all_chars spec.username_char
       (models.GenerateUsernameFromEmail
          (spec.user_of_email "a-very.long.name_2024+enquiries.backend@x.com")) = true.
Proof.
  apply (GenerateUsernameFromEmail_shape
           (spec.user_of_email "a-very.long.name_2024+enquiries.backend@x.com")).
  discriminate.
Defined.

(** ** Token issuance *)

Lemma NewNumericDate_whole_seconds (t : time.Time) (n : Z) :
  jwt.NewNumericDate (time.Add t (n * time.Hour)) = jwt.NewNumericDate t + n * time.Hour.
Proof.
  unfold jwt.NewNumericDate, time.Truncate, time.Add, time.Hour, time.Minute.
  replace (t + n * (60 * (60 * time.Second))) with (t + (n * 3600) * time.Second) by ring.
  rewrite Z.mod_add by (unfold time.Second; lia). unfold time.Second. lia.
Qed.

Section TokenIssuance.
Context {DB : Type}.
Context `{jwt.Package services.Claims}.

Lemma signed_eta (token : jwt.Token services.Claims) (key : string) (w : World DB) :
  match jwt.SignedString token key with
  | Err err => ret (Err err)
  | Ok tokenString => ret (Ok tokenString)
  end w = (jwt.SignedString token key, w).
Proof. destruct (jwt.SignedString token key); reflexivity. Qed.

(** Claim C1: token issuance reads the clock and, for the role admin,
    signs claims whose expires-at is that reading plus 48 hours; for the
    role super-admin, that reading plus 720 hours; the expires-at claim
    is kept at the precision of the token, whole seconds. For any other
    role it fails with the error "invalid user role": nothing is signed
    and no token is returned. *)
Theorem GenerateToken_expiry_by_role
  (s : services.JWTService) (user : models.User) (w : World DB) :
  let now := clock w (ticks w) in
  (models.Role user = models.RoleAdmin ->
     exists claims,
       services.GenerateToken s user w
       = (jwt.SignedString (jwt.NewWithClaims jwt.SigningMethodHS256 claims)
                           (services.secretKey s),
          spec.tick (spec.tick (spec.tick w)))
       /\ services.Role claims = models.RoleAdmin
       /\ jwt.ExpiresAt (services.Registered claims)
          = Some (jwt.NewNumericDate (time.Add now (48 * time.Hour)))
       /\ jwt.NewNumericDate (time.Add now (48 * time.Hour))
          = jwt.NewNumericDate now + 48 * time.Hour)
  /\ (models.Role user = models.RoleSuperAdmin ->
     exists claims,
       services.GenerateToken s user w
       = (jwt.SignedString (jwt.NewWithClaims jwt.SigningMethodHS256 claims)
                           (services.secretKey s),
          spec.tick (spec.tick (spec.tick w)))
       /\ services.Role claims = models.RoleSuperAdmin
       /\ jwt.ExpiresAt (services.Registered claims)
          = Some (jwt.NewNumericDate (time.Add now (720 * time.Hour)))
       /\ jwt.NewNumericDate (time.Add now (720 * time.Hour))
          = jwt.NewNumericDate now + 720 * time.Hour)
  /\ (models.Role user <> models.RoleAdmin ->
      models.Role user <> models.RoleSuperAdmin ->
      services.GenerateToken s user w = (Err (errorString "invalid user role"), w)).
Proof.
  intros now. split; [|split].
  - intros Hrole. eexists.
    unfold services.GenerateToken, services.expiration_for.
    rewrite Hrole. cbn [String.eqb]. unfold bindM, time_Now, ret. cbn -[Z.mul jwt.NewNumericDate].
    rewrite signed_eta. split; [reflexivity |].
    split; [reflexivity |]. split; [reflexivity |].
    apply NewNumericDate_whole_seconds.
  - intros Hrole. eexists.
    unfold services.GenerateToken, services.expiration_for.
    rewrite Hrole. unfold bindM, time_Now, ret. cbn -[Z.mul jwt.NewNumericDate].
    rewrite signed_eta. split; [reflexivity |].
    split; [reflexivity |]. split; [reflexivity |].
    apply NewNumericDate_whole_seconds.
  - intros Ha Hs. unfold services.GenerateToken, services.expiration_for.
    destruct (String.eqb_spec (models.Role user) models.RoleAdmin); [contradiction |].
    destruct (String.eqb_spec (models.Role user) models.RoleSuperAdmin); [contradiction |].
    reflexivity.
Qed.

End TokenIssuance.

Lemma GenerateToken_expiry_by_role_witness :
  models.Role sample.ann = models.RoleAdmin
  /\ exists claims,
       @services.GenerateToken _ sample.jwt_pkg
         (services.mkJWTService sample.secret) sample.ann sample.world
       = (@jwt.SignedString _ sample.jwt_pkg
            (jwt.NewWithClaims jwt.SigningMethodHS256 claims) sample.secret,
          spec.tick (spec.tick (spec.tick sample.world)))
       /\ jwt.ExpiresAt (services.Registered claims)
          = Some (1700172800 * time.Second).
Proof.
  split; [reflexivity |].
  destruct (@GenerateToken_expiry_by_role _ sample.jwt_pkg
              (services.mkJWTService sample.secret) sample.ann sample.world)
    as [Hadmin _].
  destruct (Hadmin eq_refl) as (claims & Hgen & _ & Hexp & _).
  exists claims. split; [exact Hgen |].
  rewrite Hexp. vm_compute. reflexivity.
Defined.

(** ** The authorization gate *)

Lemma substring_0_length (s : string) : String.substring 0 (String.length s) s = s.
Proof. induction s as [|c s IH]; simpl; [reflexivity | now rewrite IH]. Qed.

Lemma HasPrefix_Bearer (token : string) :
  strings.HasPrefix ("Bearer " ++ token) "Bearer " = true.
Proof. rewrite !append_cons, append_nil. simpl. now destruct token. Qed.

Lemma TrimPrefix_Bearer (token : string) :
  strings.TrimPrefix ("Bearer " ++ token) "Bearer " = token.
Proof.
  unfold strings.TrimPrefix. rewrite HasPrefix_Bearer.
  rewrite !append_cons, append_nil. simpl.
  rewrite Nat.sub_0_r. apply substring_0_length.
Qed.

Section Gate.
Context {DB : Type}.
Context `{jwt.Package services.Claims}.

Lemma reject_rejected (statusCode : Z) (message detail : string) (w : World DB) :
  middleware.reject statusCode message detail w = spec.rejected w statusCode message detail.
Proof. reflexivity. Qed.

Lemma ValidateToken_ticks (s : services.JWTService) (token : string) (w : World DB) :
  snd (services.ValidateToken s token w) = spec.tick w.
Proof.
  unfold services.ValidateToken, bindM, time_Now.
  destruct (jwt.ParseWithClaims _ _ _) as [t|e]; [|reflexivity].
  destruct (jwt.Valid t); reflexivity.
Qed.

(** Claim C2: for every request that carries a role in its context, the
    general role check forwards the request when the role is the
    required one or super-admin and otherwise answers 403 Forbidden
    without calling the next handler; the admin-or-super-admin check
    forwards when the role is admin or super-admin and otherwise
    answers 403, so every other role string is rejected. *)
Theorem role_checks_decide
  (requiredRole userRole : models.UserRole) (next : http.Handler DB)
  (r : http.Request) (w : World DB) :
  http.Value (http.Ctx r) "user_role" = Some (http.anyUserRole userRole) ->
  ((userRole = requiredRole \/ userRole = models.RoleSuperAdmin ->
      middleware.RoleMiddleware requiredRole next r w = next r w)
   /\ (~ (userRole = requiredRole \/ userRole = models.RoleSuperAdmin) ->
      middleware.RoleMiddleware requiredRole next r w
      = spec.rejected w http.StatusForbidden "Insufficient permissions"
          "Access denied: insufficient role permissions"))
  /\ ((userRole = models.RoleAdmin \/ userRole = models.RoleSuperAdmin ->
      middleware.AdminOrSuperAdminMiddleware next r w = next r w)
   /\ (~ (userRole = models.RoleAdmin \/ userRole = models.RoleSuperAdmin) ->
      middleware.AdminOrSuperAdminMiddleware next r w
      = spec.rejected w http.StatusForbidden "Insufficient permissions"
          "Access denied: admin or super-admin role required")).
Proof.
  intros Hctx.
  unfold middleware.RoleMiddleware, middleware.AdminOrSuperAdminMiddleware,
    middleware.user_role_of.
  rewrite Hctx.
  repeat split.
  - intros [-> | ->].
    + now rewrite String.eqb_refl.
    + rewrite String.eqb_refl, andb_false_r. reflexivity.
  - intros Hno.
    destruct (String.eqb_spec userRole requiredRole) as [E|_]; [tauto |].
    destruct (String.eqb_spec userRole models.RoleSuperAdmin) as [E|_]; [tauto |].
    reflexivity.
  - intros [-> | ->]; reflexivity.
  - intros Hno.
    destruct (String.eqb_spec userRole models.RoleAdmin) as [E|_]; [tauto |].
    destruct (String.eqb_spec userRole models.RoleSuperAdmin) as [E|_]; [tauto |].
    reflexivity.
Qed.

(** Claim C3, amended: a request whose Authorization header is absent,
    or present with an empty value, is answered 401 "Authorization
    header missing"; one whose value is not empty and does not start
    with "Bearer " is answered 401 "Invalid authorization format"; one
    whose value is "Bearer " followed by a token that the token service
    does not validate is answered 401 "Invalid token"; otherwise the
    user id, email, role and username decoded from the token are
    attached to the context of the request, which is forwarded. *)
Theorem AuthMiddleware_stages
  (jwtService : services.JWTService) (next : http.Handler DB)
  (r : http.Request) (w : World DB) :
  let authHeader := http.Get (http.Header r) "Authorization" in
  (http.Header r !! "Authorization" = None -> authHeader = "")
  /\ (authHeader = "" ->
      middleware.AuthMiddleware jwtService next r w
      = spec.rejected w http.StatusUnauthorized "Authorization header missing"
          "Bearer token is required")
  /\ (authHeader <> "" -> strings.HasPrefix authHeader "Bearer " = false ->
      middleware.AuthMiddleware jwtService next r w
      = spec.rejected w http.StatusUnauthorized "Invalid authorization format"
          "Authorization header must be 'Bearer <token>'")
  /\ (forall token, authHeader = ("Bearer " ++ token)%string ->
      (forall err, fst (services.ValidateToken jwtService token w) = Err err ->
         middleware.AuthMiddleware jwtService next r w
         = spec.rejected (spec.tick w) http.StatusUnauthorized "Invalid token"
             "Token is expired or invalid")
      /\ (forall claims, fst (services.ValidateToken jwtService token w) = Ok claims ->
         let ctx := spec.attached claims (http.Ctx r) in
         middleware.AuthMiddleware jwtService next r w
         = next (http.WithContext r ctx) (spec.tick w)
         /\ http.Value ctx "user_id" = Some (http.anyString (services.UserID claims))
         /\ http.Value ctx "user_email" = Some (http.anyString (services.Email claims))
         /\ http.Value ctx "user_username"
            = Some (http.anyString (services.Username claims))
         /\ http.Value ctx "user_role" = Some (http.anyUserRole (services.Role claims)))).
Proof.
  intros authHeader.
  split; [|split; [|split]].
  - intros Hnone. subst authHeader. unfold http.Get. now rewrite Hnone.
  - intros E. unfold middleware.AuthMiddleware. fold authHeader. now rewrite E.
  - intros Hne Hpre. unfold middleware.AuthMiddleware. fold authHeader.
    destruct (String.eqb_spec authHeader "") as [E|_]; [contradiction |].
    now rewrite Hpre.
  - intros token Hbearer.
    assert (Hrun :
      middleware.AuthMiddleware jwtService next r w
      = bindM (services.ValidateToken jwtService token)
          (fun validated =>
             match validated with
             | Err _ =>
                 middleware.reject http.StatusUnauthorized "Invalid token"
                   "Token is expired or invalid"
             | Ok claims =>
                 next (http.WithContext r (spec.attached claims (http.Ctx r)))
             end) w).
    { unfold middleware.AuthMiddleware. fold authHeader.
      rewrite Hbearer, TrimPrefix_Bearer, HasPrefix_Bearer.
      rewrite !append_cons. reflexivity. }
    pose proof (ValidateToken_ticks jwtService token w) as Hticks.
    rewrite Hrun. unfold bindM.
    destruct (services.ValidateToken jwtService token w) as [validated w'].
    cbn [fst snd] in *. subst w'.
    split.
    + intros err ->. reflexivity.
    + intros claims ->. repeat split.
Qed.

(** A valid token whose role is neither admin nor super-admin passes
    authentication and is then refused by the admin-or-super-admin
    check. *)
Lemma unrecognized_role_forbidden
  (jwtService : services.JWTService) (next : http.Handler DB)
  (r : http.Request) (w : World DB) (token : string) (claims : services.Claims) :
  http.Get (http.Header r) "Authorization" = ("Bearer " ++ token)%string ->
  fst (services.ValidateToken jwtService token w) = Ok claims ->
  services.Role claims <> models.RoleAdmin ->
  services.Role claims <> models.RoleSuperAdmin ->
  middleware.AuthMiddleware jwtService (middleware.AdminOrSuperAdminMiddleware next) r w
  = spec.rejected (spec.tick w) http.StatusForbidden "Insufficient permissions"
      "Access denied: admin or super-admin role required".
Proof.
  intros Hh Hv Ha Hs.
  unfold middleware.AuthMiddleware.
  rewrite Hh, TrimPrefix_Bearer, HasPrefix_Bearer.
  rewrite !append_cons. cbn [String.eqb Ascii.eqb Bool.eqb negb].
  unfold bindM.
  pose proof (ValidateToken_ticks jwtService token w) as Ht.
  destruct (services.ValidateToken jwtService token w) as [v w'].
  simpl in Hv, Ht. subst v w'.
  unfold middleware.AdminOrSuperAdminMiddleware, middleware.user_role_of.
  cbn [http.Ctx http.WithContext http.WithValue http.Value String.eqb Ascii.eqb Bool.eqb].
  destruct (String.eqb_spec (services.Role claims) models.RoleAdmin); [contradiction |].
  destruct (String.eqb_spec (services.Role claims) models.RoleSuperAdmin); [contradiction |].
  reflexivity.
Qed.

End Gate.

Lemma role_checks_decide_witness :
  http.Value (http.Ctx (sample.with_role "guest")) "user_role"
  = Some (http.anyUserRole "guest")
  /\ middleware.RoleMiddleware "guest" sample.final (sample.with_role "guest") sample.world
     = sample.final (sample.with_role "guest") sample.world
  /\ middleware.AdminOrSuperAdminMiddleware sample.final (sample.with_role "guest")
       sample.world
     = spec.rejected sample.world http.StatusForbidden "Insufficient permissions"
         "Access denied: admin or super-admin role required".
Proof.
  assert (Hctx : http.Value (http.Ctx (sample.with_role "guest")) "user_role"
                 = Some (http.anyUserRole "guest")) by reflexivity.
  destruct (role_checks_decide "guest" "guest" sample.final (sample.with_role "guest")
              sample.world Hctx) as [[Hfwd _] [_ Hrej]].
  split; [exact Hctx |]. split.
  - apply Hfwd. left. reflexivity.
  - apply Hrej. intros [E | E]; discriminate E.
Defined.

(** Claim C3, where the code departs from it: an Authorization header
    that is present with an empty value does not have the form
    "Bearer <token>", yet the answer is the one for a missing header,
    not the one for a bad format. *)
Lemma AuthMiddleware_empty_header :
  http.Header sample.empty_authorization !! "Authorization" = Some [""]
  /\ strings.HasPrefix (http.Get (http.Header sample.empty_authorization) "Authorization")
       "Bearer " = false
  /\ @middleware.AuthMiddleware _ sample.jwt_pkg sample.jwtService sample.final
       sample.empty_authorization sample.world
     = spec.rejected sample.world http.StatusUnauthorized "Authorization header missing"
         "Bearer token is required"
  /\ @middleware.AuthMiddleware _ sample.jwt_pkg sample.jwtService sample.final
       sample.empty_authorization sample.world
     <> spec.rejected sample.world http.StatusUnauthorized "Invalid authorization format"
          "Authorization header must be 'Bearer <token>'".
Proof.
  split; [vm_compute; reflexivity |].
  split; [vm_compute; reflexivity |].
  split; [vm_compute; reflexivity |].
  vm_compute. intros E. discriminate E.
Qed.

Lemma AuthMiddleware_stages_witness :
  http.Get (http.Header (sample.bearer "tok-admin")) "Authorization" = "Bearer tok-admin"
  /\ (exists claims,
        fst (@services.ValidateToken _ sample.jwt_pkg sample.jwtService "tok-admin"
               sample.world) = Ok claims
        /\ @middleware.AuthMiddleware _ sample.jwt_pkg sample.jwtService sample.final
             (sample.bearer "tok-admin") sample.world
           = sample.final
               (http.WithContext (sample.bearer "tok-admin")
                  (spec.attached claims (http.Ctx (sample.bearer "tok-admin"))))
               (spec.tick sample.world))
  /\ @middleware.AuthMiddleware _ sample.jwt_pkg sample.jwtService sample.final
       (sample.bearer "tok-old") sample.world
     = spec.rejected (spec.tick sample.world) http.StatusUnauthorized "Invalid token"
         "Token is expired or invalid".
Proof.
  assert (Hh : forall token,
             http.Get (http.Header (sample.bearer token)) "Authorization"
             = ("Bearer " ++ token)%string).
  { intros token. unfold sample.bearer, sample.request, http.Get. cbn [http.Header].
    now rewrite lookup_singleton_eq. }
  split; [apply Hh |]. split.
  - destruct (@AuthMiddleware_stages _ sample.jwt_pkg sample.jwtService sample.final
                (sample.bearer "tok-admin") sample.world) as (_ & _ & _ & Hbearer).
    destruct (Hbearer "tok-admin" (Hh _)) as [_ Hok].
    eexists. split; [vm_compute; reflexivity |].
    apply Hok. vm_compute. reflexivity.
  - destruct (@AuthMiddleware_stages _ sample.jwt_pkg sample.jwtService sample.final
                (sample.bearer "tok-old") sample.world) as (_ & _ & _ & Hbearer).
    destruct (Hbearer "tok-old" (Hh _)) as [Hbad _].
    eapply Hbad. vm_compute. reflexivity.
Defined.

(** ** int64 and calendar arithmetic *)

Lemma wrap64_small (z : Z) : int64.in_range z -> int64.wrap64 z = z.
Proof.
  unfold int64.in_range, int64.min_int, int64.max_int, int64.wrap64. intros Hz.
  rewrite Z.mod_small; lia.
Qed.

Lemma ceil_div_quot (a b : Z) :
  0 <= a -> 1 <= b -> Z.quot (a + b - 1) b = spec.ceil_div a b.
Proof.
  intros Ha Hb. rewrite Z.quot_div_nonneg by lia. unfold spec.ceil_div.
  pose proof (Z.div_mod a b ltac:(lia)) as Hdm.
  pose proof (Z.mod_pos_bound a b ltac:(lia)) as Hr.
  destruct (Z.eqb_spec (a mod b) 0) as [E|E].
  - symmetry. rewrite Z.add_0_r. apply (Z.div_unique _ _ _ (b - 1)); lia.
  - symmetry. apply (Z.div_unique _ _ _ (a mod b - 1)); lia.
Qed.

(** The ceiling, characterised: the least number of pages that hold
    [a] items. *)
Lemma ceil_div_least (a b : Z) :
  0 <= a -> 1 <= b ->
  (spec.ceil_div a b - 1) * b < a <= spec.ceil_div a b * b \/ (a = 0 /\ spec.ceil_div a b = 0).
Proof.
  intros Ha Hb. unfold spec.ceil_div.
  pose proof (Z.div_mod a b ltac:(lia)) as Hdm.
  pose proof (Z.mod_pos_bound a b ltac:(lia)) as Hr.
  destruct (Z.eqb_spec (a mod b) 0) as [E|E].
  - destruct (Z.eq_dec a 0) as [->|Hne].
    + right. split; [reflexivity |]. rewrite Z.div_0_l by lia. reflexivity.
    + left. nia.
  - left. nia.
Qed.

Lemma civil_roundtrip (n : Z) :
  let '(y, m, d) := time.civil_from_days n in time.days_from_civil y m d = n.
Proof.
  unfold time.civil_from_days, time.days_from_civil. cbv zeta.
  set (z := n + 719468).
  set (era := z / 146097). set (doe := z mod 146097).
  assert (Hdoe : 0 <= doe < 146097) by (apply Z.mod_pos_bound; lia).
  assert (Hz : z = 146097 * era + doe) by (apply Z.div_mod; lia).
  clearbody era doe.
  set (yoe := (doe - doe / 1460 + doe / 36524 - doe / 146096) / 365).
  set (doy := doe - (365 * yoe + yoe / 4 - yoe / 100)).
  set (mp := (5 * doy + 2) / 153).
  assert (Hb : 0 <= yoe <= 399 /\ 0 <= doy <= 365 /\ 0 <= mp <= 11).
  { subst mp doy yoe. Z.div_mod_to_equations. lia. }
  destruct Hb as (Hyoe & Hdoy & Hmp).
  destruct (mp <? 10) eqn:E10.
  - apply Z.ltb_lt in E10.
    replace (mp + 3 <=? 2) with false by (symmetry; apply Z.leb_gt; lia).
    replace ((yoe + era * 400) / 400) with era by (Z.div_mod_to_equations; lia).
    replace ((yoe + era * 400) mod 400) with yoe by (Z.div_mod_to_equations; lia).
    replace ((mp + 3 + 9) mod 12) with mp by (Z.div_mod_to_equations; lia).
    subst doy z. lia.
  - apply Z.ltb_ge in E10.
    replace (mp - 9 <=? 2) with true by (symmetry; apply Z.leb_le; lia).
    replace (yoe + era * 400 + 1 - 1) with (yoe + era * 400) by lia.
    replace ((yoe + era * 400) / 400) with era by (Z.div_mod_to_equations; lia).
    replace ((yoe + era * 400) mod 400) with yoe by (Z.div_mod_to_equations; lia).
    replace ((mp - 9 + 9) mod 12) with mp by (Z.div_mod_to_equations; lia).
    subst doy z. lia.
Qed.

(** Midnight of a day, read back through [Year], [Month] and [Day],
    is the same midnight; so is any time of that day. *)
Lemma Date_of_fields (n h mi sec ns : Z) :
  let t := n * time.nsec_per_day in
  time.Date (time.Year t) (time.Month t) (time.Day t) h mi sec ns
  = (n * 86400 + h * 3600 + mi * 60 + sec) * time.Second + ns.
Proof.
  cbv zeta. unfold time.Date, time.Year, time.Month, time.Day.
  rewrite Z.div_mul by (unfold time.nsec_per_day, time.Second; lia).
  pose proof (civil_roundtrip n) as Hrt.
  destruct (time.civil_from_days n) as [[y m] d]. simpl. now rewrite Hrt.
Qed.

Lemma days_from_civil_bounds (y m d : Z) :
  0 <= y <= 9999 -> 1 <= m <= 12 -> 1 <= d <= 31 ->
  -800000 <= time.days_from_civil y m d <= 3000000.
Proof.
  intros Hy Hm Hd. unfold time.days_from_civil. cbv zeta.
  destruct (m <=? 2); Z.div_mod_to_equations; lia.
Qed.

Lemma NewDateTimeFromTime_of (n secs ns : Z) :
  -800000 <= n <= 3000000 -> 0 <= secs < 86400 -> 0 <= ns < 1000000000 ->
  models.NewDateTimeFromTime ((n * 86400 + secs) * time.Second + ns)
  = (n * 86400 + secs) * 1000 + ns / 1000000.
Proof.
  intros Hn Hs Hns.
  unfold models.NewDateTimeFromTime, time.Unix, time.Nanosecond_of, time.Second,
    int64.add, int64.mul.
  set (t := (n * 86400 + secs) * 1000000000 + ns).
  assert (Hq : t / 1000000000 = n * 86400 + secs)
    by (symmetry; apply (Z.div_unique _ _ _ ns); subst t; lia).
  assert (Hr : t mod 1000000000 = ns)
    by (symmetry; apply (Z.mod_unique _ _ (n * 86400 + secs)); subst t; lia).
  rewrite Hq, Hr. rewrite Z.quot_div_nonneg by lia.
  assert (0 <= ns / 1000000 < 1000) by (Z.div_mod_to_equations; lia).
  assert (Hw : forall z, - 2 ^ 62 <= z <= 2 ^ 62 -> int64.wrap64 z = z).
  { intros z Hz. apply wrap64_small.
    unfold int64.in_range, int64.min_int, int64.max_int. lia. }
  rewrite (Hw ((n * 86400 + secs) * 1000)) by lia.
  rewrite (Hw (ns / 1000000)) by lia.
  apply Hw. lia.
Qed.

Lemma digit_bounds (c : ascii) : time.isDigit c = true -> 0 <= time.digit c <= 9.
Proof.
  unfold time.isDigit, time.digit. intros [H1 H2]%andb_true_iff.
  apply Z.leb_le in H1, H2. lia.
Qed.

Lemma getyear_bounds (s rest : string) (year : Z) :
  time.getyear s = Some (year, rest) -> 0 <= year <= 9999.
Proof.
  unfold time.getyear.
  destruct s as [|a [|b [|c [|d s]]]]; try discriminate.
  destruct (time.isDigit a) eqn:Ha; [|discriminate].
  destruct (time.isDigit b) eqn:Hb; [|discriminate].
  destruct (time.isDigit c) eqn:Hc; [|discriminate].
  destruct (time.isDigit d) eqn:Hd; [|discriminate].
  simpl. intros [= <- _].
  apply digit_bounds in Ha, Hb, Hc, Hd. lia.
Qed.

Lemma daysIn_le (month year : Z) : time.daysIn month year <= 31.
Proof.
  unfold time.daysIn.
  destruct (month =? 2); [destruct (time.isLeap year); lia |].
  destruct ((month =? 4) || (month =? 6) || (month =? 9) || (month =? 11)); lia.
Qed.

Lemma parse_ymd_bounds (value : string) (y m d : Z) :
  time.parse_ymd value = Some (y, m, d) ->
  0 <= y <= 9999 /\ 1 <= m <= 12 /\ 1 <= d <= 31.
Proof.
  unfold time.parse_ymd.
  destruct (time.getyear value) as [[year v1]|] eqn:Hyear; [|discriminate].
  destruct (time.skip_dash v1) as [v2|]; [|discriminate].
  destruct (time.getnum v2) as [[month v3]|]; [|discriminate].
  destruct ((month <=? 0) || (12 <? month)) eqn:Hm; [discriminate |].
  destruct (time.skip_dash v3) as [v4|]; [|discriminate].
  destruct (time.getnum v4) as [[day v5]|]; [|discriminate].
  destruct (negb (String.eqb v5 "")); [discriminate |].
  destruct ((day <? 1) || (time.daysIn month year <? day)) eqn:Hd; [discriminate |].
  intros [= <- <- <-].
  apply orb_false_iff in Hm as [Hm1 Hm2]. apply orb_false_iff in Hd as [Hd1 Hd2].
  apply Z.leb_gt in Hm1. apply Z.ltb_ge in Hm2, Hd1, Hd2.
  pose proof (daysIn_le month year). pose proof (getyear_bounds _ _ _ Hyear). lia.
Qed.

Lemma Parse_empty : time.Parse "" = errors.New "parsing time: cannot parse ".
Proof. reflexivity. Qed.

(** The time claims of the two ends of a parsed day, in milliseconds. *)
Lemma day_bounds_of_parsed (y m d : Z) :
  0 <= y <= 9999 -> 1 <= m <= 12 -> 1 <= d <= 31 ->
  let parsedDate := time.Date y m d 0 0 0 0 in
  let day := time.days_from_civil y m d in
  models.NewDateTimeFromTime
    (time.Date (time.Year parsedDate) (time.Month parsedDate) (time.Day parsedDate) 0 0 0 0)
  = day * spec.ms_per_day
  /\ models.NewDateTimeFromTime
       (time.Date (time.Year parsedDate) (time.Month parsedDate) (time.Day parsedDate)
          23 59 59 999999999)
     = day * spec.ms_per_day + (spec.ms_per_day - 1).
Proof.
  intros Hy Hm Hd parsedDate day.
  pose proof (days_from_civil_bounds y m d Hy Hm Hd) as Hday. fold day in Hday.
  assert (Hp : parsedDate = day * time.nsec_per_day).
  { subst parsedDate day. unfold time.Date, time.nsec_per_day. lia. }
  rewrite Hp, !Date_of_fields.
  replace (day * 86400 + 0 * 3600 + 0 * 60 + 0) with (day * 86400 + 0) by lia.
  replace (day * 86400 + 23 * 3600 + 59 * 60 + 59) with (day * 86400 + 86399) by lia.
  rewrite !NewDateTimeFromTime_of by lia.
  unfold spec.ms_per_day.
  change (0 / 1000000) with 0. change (999999999 / 1000000) with 999. lia.
Qed.

(** ** The enquiry list *)

Lemma wrap64_sub_1 (x : Z) : int64.wrap64 (int64.wrap64 x - 1) = int64.wrap64 (x - 1).
Proof.
  unfold int64.wrap64.
  replace ((x + 2 ^ 63) mod 2 ^ 64 - 2 ^ 63 - 1 + 2 ^ 63)
    with ((x + 2 ^ 63) mod 2 ^ 64 - 1) by lia.
  rewrite Zminus_mod_idemp_l. f_equal. f_equal. lia.
Qed.

Lemma ceil_div_bounds (a b : Z) : 0 <= a -> 1 <= b -> 0 <= spec.ceil_div a b <= a.
Proof.
  intros Ha Hb. unfold spec.ceil_div.
  pose proof (Z.div_mod a b ltac:(lia)) as Hdm.
  pose proof (Z.mod_pos_bound a b ltac:(lia)) as Hr.
  assert (0 <= a / b) by (apply Z.div_pos; lia).
  destruct (Z.eqb_spec (a mod b) 0); nia.
Qed.

Section Listing.
Context {DB : Type}.
Context `{mongo.Driver DB}.

(** Claim C5, amended: for int64 values page >= 1, limit >= 1 and total
    count >= 0 such that page + 1, (page - 1) * limit and
    totalCount + limit - 1 do not exceed the largest int64, the store is
    queried with skip = (page - 1) * limit and the limit, and when it
    answers, the pagination descriptor has totalPages = ceil(totalCount /
    limit), hasNext = (page < totalPages), hasPrevious = (page > 1),
    nextPage = page + 1 and previousPage = page - 1, the last two
    computed unconditionally. *)
Theorem GetAllEnquiries_pagination
  (page limit totalCount : Z) (enquiryType date : string) (w : World DB)
  (cursor : mongo.Cursor) (items : list models.Query) :
  1 <= page -> 1 <= limit <= int64.max_int -> 0 <= totalCount ->
  page + 1 <= int64.max_int ->
  (page - 1) * limit <= int64.max_int ->
  totalCount + limit - 1 <= int64.max_int ->
  let filter := services.build_filter enquiryType date in
  mongo.Collection_Find filter
    {| mongo.Limit := Some limit;
       mongo.Skip := Some ((page - 1) * limit);
       mongo.Sort := Some {[ "created_at" := bson.Scalar (bson.Int_ (-1)) ]} |}
    (db w) = Ok cursor ->
  mongo.Cursor_All cursor = Ok items ->
  mongo.Collection_CountDocuments filter (db w) = Ok totalCount ->
  services.GetAllEnquiries page limit enquiryType date w
  = (Returned (Ok
       {| models.Enquiries := items;
          models.Pagination :=
            {| models.CurrentPage := page;
               models.TotalPages := spec.ceil_div totalCount limit;
               models.TotalCount := totalCount;
               models.Limit := limit;
               models.HasNext := page <? spec.ceil_div totalCount limit;
               models.HasPrevious := page >? 1;
               models.NextPage := page + 1;
               models.PreviousPage := page - 1 |};
          models.Filters :=
            {| models.F_EnquiryType := enquiryType; models.F_Date := date |} |}),
     w).
Proof.
  intros Hpage Hlimit Htotal Hnext Hskip Hsum filter Hfind Hall Hcount.
  assert (Hmax : int64.max_int = 2 ^ 63 - 1) by reflexivity.
  assert (Hw : forall z, 0 <= z <= int64.max_int -> int64.wrap64 z = z).
  { intros z Hz. apply wrap64_small. unfold int64.in_range, int64.min_int. lia. }
  unfold services.GetAllEnquiries. fold filter.
  unfold mongo.Find_, mongo.SetLimit, mongo.SetSkip, mongo.SetSort.
  cbn [mongo.Limit mongo.Skip mongo.Sort].
  assert (Esub : int64.sub page 1 = page - 1) by (unfold int64.sub; apply Hw; lia).
  assert (Emul : int64.mul (int64.sub page 1) limit = (page - 1) * limit).
  { rewrite Esub. unfold int64.mul. apply Hw. nia. }
  assert (Eadd : int64.add page 1 = page + 1) by (unfold int64.add; apply Hw; lia).
  assert (Ediv : int64.div (int64.sub (int64.add totalCount limit) 1) limit
                 = Returned (spec.ceil_div totalCount limit)).
  { unfold int64.div, int64.sub, int64.add.
    rewrite wrap64_sub_1. replace (totalCount + limit - 1) with (totalCount + limit - 1) by lia.
    rewrite (Hw (totalCount + limit - 1)) by lia.
    destruct (Z.eqb_spec limit 0); [lia |].
    rewrite ceil_div_quot by lia.
    pose proof (ceil_div_bounds totalCount limit Htotal ltac:(lia)).
    rewrite Hw by lia. reflexivity. }
  rewrite Emul, Eadd, Esub.
  unfold bindM, db_read. rewrite Hfind, Hall, Hcount, Ediv. reflexivity.
Qed.

(** Claim C7: a date that parses as YYYY-MM-DD puts on [created_at] the
    inclusive range from 00:00:00 to 23:59:59.999999999 UTC of that
    calendar day, which at the store's millisecond precision holds
    exactly the timestamps of that day; a date that does not parse adds
    no condition and raises no error: the listing is the one of the
    request without a date, with the date echoed. *)
Theorem date_filter (enquiryType date : string) :
  (forall parsedDate, time.Parse date = Ok parsedDate ->
     exists y m d,
       time.parse_ymd date = Some (y, m, d)
       /\ parsedDate = time.Date y m d 0 0 0 0
       /\ let day := time.days_from_civil y m d in
          services.build_filter enquiryType date !! "created_at"
          = Some (bson.Doc (spec.day_range day))
          /\ models.NewDateTimeFromTime (time.Date y m d 0 0 0 0)
             = day * spec.ms_per_day
          /\ models.NewDateTimeFromTime (time.Date y m d 23 59 59 999999999)
             = day * spec.ms_per_day + (spec.ms_per_day - 1)
          /\ (forall createdAt,
                spec.in_range (spec.day_range day) createdAt
                <-> createdAt / spec.ms_per_day = day))
  /\ (forall err, time.Parse date = Err err ->
      services.build_filter enquiryType date !! "created_at" = None
      /\ services.build_filter enquiryType date = services.build_filter enquiryType ""
      /\ forall page limit (w : World DB),
           services.GetAllEnquiries page limit enquiryType date w
           = (spec.map_listing (spec.with_date date)
                (fst (services.GetAllEnquiries page limit enquiryType "" w)),
              w))
  /\ time.Parse "2024-13-40" = errors.New "parsing time: cannot parse 2024-13-40".
Proof.
  split; [|split; [|reflexivity]].
  - intros parsedDate Hparse. unfold time.Parse in Hparse.
    destruct (time.parse_ymd date) as [[[y m] d]|] eqn:Hymd; [|discriminate].
    injection Hparse as <-.
    exists y, m, d. split; [reflexivity |]. split; [reflexivity |].
    destruct (parse_ymd_bounds date y m d Hymd) as (Hy & Hm & Hd).
    destruct (day_bounds_of_parsed y m d Hy Hm Hd) as [Hstart Hend].
    pose proof (days_from_civil_bounds y m d Hy Hm Hd) as Hday.
    cbv zeta. split; [|split; [|split]].
    + unfold services.build_filter.
      destruct (String.eqb_spec date "") as [->|_]; [discriminate Hymd |].
      cbn [negb]. unfold time.Parse. rewrite Hymd.
      rewrite Hstart, Hend. rewrite lookup_insert_eq. reflexivity.
    + replace (time.Date y m d 0 0 0 0)
        with ((time.days_from_civil y m d * 86400 + 0) * time.Second + 0)
        by (unfold time.Date; lia).
      rewrite NewDateTimeFromTime_of by lia.
      unfold spec.ms_per_day. change (0 / 1000000) with 0. lia.
    + replace (time.Date y m d 23 59 59 999999999)
        with ((time.days_from_civil y m d * 86400 + 86399) * time.Second + 999999999)
        by (unfold time.Date; lia).
      rewrite NewDateTimeFromTime_of by lia.
      unfold spec.ms_per_day. change (999999999 / 1000000) with 999. lia.
    + intros createdAt. unfold spec.in_range, spec.day_range.
      set (day := time.days_from_civil y m d).
      split.
      * intros [Hlo Hhi].
        specialize (Hlo _ (lookup_insert_eq _ _ _)).
        rewrite lookup_insert_ne in Hhi by discriminate.
        specialize (Hhi _ (lookup_insert_eq _ _ _)).
        unfold spec.ms_per_day in *. Z.div_mod_to_equations. lia.
      * intros Hd'. split.
        -- intros lo. rewrite lookup_insert_eq. intros [= <-].
           unfold spec.ms_per_day in *. Z.div_mod_to_equations. lia.
        -- intros hi. rewrite lookup_insert_ne by discriminate.
           rewrite lookup_insert_eq. intros [= <-].
           unfold spec.ms_per_day in *. Z.div_mod_to_equations. lia.
  - intros err Hparse.
    assert (Hf : services.build_filter enquiryType date
                 = services.build_filter enquiryType "").
    { unfold services.build_filter. rewrite Hparse.
      destruct (negb (String.eqb date "")); reflexivity. }
    split; [|split; [exact Hf |]].
    + rewrite Hf. unfold services.build_filter. cbn [String.eqb negb].
      destruct (negb (String.eqb enquiryType "")).
      * rewrite lookup_insert_ne by discriminate. apply lookup_empty.
      * apply lookup_empty.
    + intros page limit w. unfold services.GetAllEnquiries. rewrite Hf.
      unfold bindM, db_read, ret.
      destruct (mongo.Collection_Find _ _ _) as [cursor|e]; [|reflexivity].
      destruct (mongo.Cursor_All cursor) as [items|e]; [|reflexivity].
      destruct (mongo.Collection_CountDocuments _ _) as [totalCount|e]; [|reflexivity].
      destruct (int64.div _ _) as [totalPages|msg]; reflexivity.
Qed.

End Listing.

Lemma Get_absent (values : http.Values) (key : string) :
  values !! key = None -> http.Get values key = "".
Proof. intros Hnone. unfold http.Get. now rewrite Hnone. Qed.

Lemma ParseInt_empty : strconv.ParseInt "" = errors.New "strconv.ParseInt: parsing: invalid syntax".
Proof. reflexivity. Qed.

(** Claim C6, amended: the effective page is 1 when the page parameter
    is absent, does not parse or is not positive, and the parsed value
    otherwise; the effective limit is 10 when the limit parameter is
    absent, does not parse or is not positive, and otherwise the parsed
    value cut at 100: there is no clamp from below, a limit that is not
    positive gives the default. The effective limit always lies between
    1 and 100, and the effective page is at least 1. *)
Theorem list_parameters (query : http.Values) :
  let pageStr := http.Get query "page" in
  let limitStr := http.Get query "limit" in
  let page := controllers.effective_page pageStr in
  let limit := controllers.effective_limit limitStr in
  (query !! "page" = None -> page = 1)
  /\ (forall err, strconv.ParseInt pageStr = Err err -> page = 1)
  /\ (forall n, strconv.ParseInt pageStr = Ok n -> n <= 0 -> page = 1)
  /\ (forall n, strconv.ParseInt pageStr = Ok n -> 0 < n -> page = n)
  /\ (query !! "limit" = None -> limit = 10)
  /\ (forall err, strconv.ParseInt limitStr = Err err -> limit = 10)
  /\ (forall n, strconv.ParseInt limitStr = Ok n -> n <= 0 -> limit = 10)
  /\ (forall n, strconv.ParseInt limitStr = Ok n -> 0 < n -> limit = Z.min n 100)
  /\ 1 <= limit <= 100
  /\ 1 <= page.
Proof.
  intros pageStr limitStr page limit.
  assert (Hpage : page = match strconv.ParseInt pageStr with
                         | Ok n => if n >? 0 then n else 1
                         | Err _ => 1
                         end).
  { subst page. unfold controllers.effective_page.
    destruct (String.eqb_spec pageStr "") as [->|_]; reflexivity. }
  assert (Hlimit : limit = match strconv.ParseInt limitStr with
                           | Ok n => if n >? 0 then (if n >? 100 then 100 else n) else 10
                           | Err _ => 10
                           end).
  { subst limit. unfold controllers.effective_limit.
    destruct (String.eqb_spec limitStr "") as [->|_]; reflexivity. }
  clearbody page limit. subst page limit.
  repeat split.
  - intros Hnone. subst pageStr. rewrite (Get_absent _ _ Hnone). reflexivity.
  - intros err ->. reflexivity.
  - intros n -> Hn. destruct (Z.gtb_spec n 0); [lia | reflexivity].
  - intros n -> Hn. destruct (Z.gtb_spec n 0); [reflexivity | lia].
  - intros Hnone. subst limitStr. rewrite (Get_absent _ _ Hnone). reflexivity.
  - intros err ->. reflexivity.
  - intros n -> Hn. destruct (Z.gtb_spec n 0); [lia | reflexivity].
  - intros n -> Hn. destruct (Z.gtb_spec n 0); [|lia].
    destruct (Z.gtb_spec n 100); lia.
  - destruct (strconv.ParseInt limitStr) as [n|]; [|lia].
    destruct (Z.gtb_spec n 0); [|lia]. destruct (Z.gtb_spec n 100); lia.
  - destruct (strconv.ParseInt limitStr) as [n|]; [|lia].
    destruct (Z.gtb_spec n 0); [|lia]. destruct (Z.gtb_spec n 100); lia.
  - destruct (strconv.ParseInt pageStr) as [n|]; [|lia].
    destruct (Z.gtb_spec n 0); lia.
Qed.

Lemma list_parameters_witness :
  controllers.effective_page "7" = 7
  /\ controllers.effective_page "0" = 1
  /\ controllers.effective_page "seven" = 1
  /\ controllers.effective_limit "250" = 100
  /\ controllers.effective_limit "0" = 10
  /\ controllers.effective_limit "-3" = 10.
Proof.
  pose (q1 := ({[ "page" := ["7"]; "limit" := ["250"] ]} : http.Values)).
  pose (q2 := ({[ "page" := ["0"]; "limit" := ["0"] ]} : http.Values)).
  pose (q3 := ({[ "page" := ["seven"]; "limit" := ["-3"] ]} : http.Values)).
  destruct (list_parameters q1) as (_ & _ & _ & Hp1 & _ & _ & _ & Hl1 & _).
  destruct (list_parameters q2) as (_ & _ & Hp2 & _ & _ & _ & Hl2 & _).
  destruct (list_parameters q3) as (_ & Hp3 & _ & _ & _ & _ & Hl3 & _).
  split; [exact (Hp1 7 eq_refl ltac:(lia)) |].
  split; [exact (Hp2 0 eq_refl ltac:(lia)) |].
  split; [exact (Hp3 _ eq_refl) |].
  split; [exact (Hl1 250 eq_refl ltac:(lia)) |].
  split; [exact (Hl2 0 eq_refl ltac:(lia)) |].
  exact (Hl3 (-3) eq_refl ltac:(lia)).
Defined.

(** Claim C6, where the code departs from it: a limit of 0 or of -3
    parses, and clamped to at least 1 it would be 1; the code gives the
    default 10 instead. *)
Lemma effective_limit_not_clamped_below :
  strconv.ParseInt "0" = Ok 0
  /\ spec.clamped_limit 0 = 1
  /\ controllers.effective_limit "0" = 10
  /\ strconv.ParseInt "-3" = Ok (-3)
  /\ spec.clamped_limit (-3) = 1
  /\ controllers.effective_limit "-3" = 10
  /\ controllers.effective_limit "0" <> spec.clamped_limit 0.
Proof. repeat split. discriminate. Qed.

(** Claim C5, where the code departs from it: on the last page number
    an int64 holds, which the controller accepts as a page parameter,
    with limit 1, the next page wraps around to the least int64 and is
    not page + 1. *)
Lemma GetAllEnquiries_next_page_wraps :
  controllers.effective_page "9223372036854775807" = int64.max_int
  /\ controllers.effective_limit "1" = 1
  /\ exists resp,
       fst (@services.GetAllEnquiries _ sample.driver int64.max_int 1 "" ""
              sample.world)
       = Returned (Ok resp)
       /\ 1 <= int64.max_int
       /\ 0 <= models.TotalCount (models.Pagination resp)
       /\ models.NextPage (models.Pagination resp) = int64.min_int
       /\ models.NextPage (models.Pagination resp) <> int64.max_int + 1.
Proof.
  split; [vm_compute; reflexivity |].
  split; [vm_compute; reflexivity |].
  eexists. split; [vm_compute; reflexivity |].
  split; [vm_compute; discriminate |].
  split; [vm_compute; discriminate |].
  split; [vm_compute; reflexivity |].
  vm_compute. discriminate.
Qed.

Lemma GetAllEnquiries_pagination_witness :
  exists items,
    @services.GetAllEnquiries _ sample.driver 3 10 "" "" sample.world
    = (Returned (Ok
         {| models.Enquiries := items;
            models.Pagination :=
              {| models.CurrentPage := 3; models.TotalPages := 3;
                 models.TotalCount := 25; models.Limit := 10;
                 models.HasNext := false; models.HasPrevious := true;
                 models.NextPage := 4; models.PreviousPage := 2 |};
            models.Filters := {| models.F_EnquiryType := ""; models.F_Date := "" |} |}),
       sample.world).
Proof.
  eexists.
  refine (@GetAllEnquiries_pagination _ sample.driver 3 10 25 "" "" sample.world
            _ _ _ _ _ _ _ _ _ _ _).
  - lia.
  - vm_compute. split; discriminate.
  - lia.
  - vm_compute. discriminate.
  - vm_compute. discriminate.
  - vm_compute. discriminate.
  - vm_compute. reflexivity.
  - reflexivity.
  - vm_compute. reflexivity.
Defined.

Lemma date_filter_witness :
  time.Parse "2024-01-15" = Ok 1705276800000000000
  /\ @services.build_filter "sales" "2024-01-15" !! "created_at"
     = Some (bson.Doc (spec.day_range 19737))
  /\ (spec.in_range (spec.day_range 19737) 1705363199999
      <-> 1705363199999 / spec.ms_per_day = 19737)
  /\ services.build_filter "sales" "2024-13-40" = services.build_filter "sales" ""
  /\ @services.GetAllEnquiries _ sample.driver 1 10 "sales" "2024-13-40" sample.world
     = (spec.map_listing (spec.with_date "2024-13-40")
          (fst (@services.GetAllEnquiries _ sample.driver 1 10 "sales" "" sample.world)),
        sample.world).
Proof.
  destruct (@date_filter _ sample.driver "sales" "2024-01-15") as [Hok _].
  destruct (Hok 1705276800000000000 eq_refl) as (y & m & d & Hymd & _ & Hrange).
  injection Hymd as <- <- <-.
  destruct Hrange as (Hfilter & _ & _ & Hin).
  destruct (@date_filter _ sample.driver "sales" "2024-13-40") as (_ & Hbad & _).
  destruct (Hbad _ eq_refl) as (_ & Hsame & Hlisting).
  split; [reflexivity |].
  split; [exact Hfilter |].
  split; [exact (Hin 1705363199999) |].
  split; [exact Hsame |].
  exact (Hlisting 1 10 sample.world).
Defined.

(** ** Passwords *)

(** Claim C9, where the code departs from it: hashing an empty
    plaintext succeeds. [HashPassword] makes no check of its own, and
    bcrypt hashes the empty password like any other. *)
Lemma HashPassword_empty_succeeds :
  models.Password sample.no_password = ""
  /\ snd (@models.HashPassword sample.bcrypt_pkg sample.no_password "salt") = None.
Proof. split; reflexivity. Qed.

Section PasswordProperties.
Context `{bcrypt.Package}.

(** Claim C9, amended: password hashing returns an error exactly when
    the bcrypt primitive does, whatever the plaintext, the empty one
    included, and otherwise stores the hash in place of the plaintext;
    password verification returns false, and raises nothing, whenever
    the primitive reports that hash and plaintext do not match. *)
Theorem password_hash_and_check (u : models.User) (rnd password : string) :
  (forall err,
     bcrypt.GenerateFromPassword (models.Password u) bcrypt.DefaultCost rnd = Err err ->
     models.HashPassword u rnd = (u, Some err))
  /\ (forall hashed,
     bcrypt.GenerateFromPassword (models.Password u) bcrypt.DefaultCost rnd = Ok hashed ->
     models.HashPassword u rnd = (models.set_Password u hashed, None))
  /\ (forall err,
     bcrypt.CompareHashAndPassword (models.Password u) password = Some err ->
     models.CheckPassword u password = false)
  /\ (bcrypt.CompareHashAndPassword (models.Password u) password = None ->
     models.CheckPassword u password = true).
Proof.
  unfold models.HashPassword, models.CheckPassword.
  repeat split.
  - intros err ->. reflexivity.
  - intros hashed ->. reflexivity.
  - intros err ->. reflexivity.
  - intros ->. reflexivity.
Qed.

End PasswordProperties.

Lemma password_hash_and_check_witness :
  @models.HashPassword sample.bcrypt_pkg sample.no_password "salt"
  = (models.set_Password sample.no_password "$2a$", None)
  /\ @models.CheckPassword sample.bcrypt_pkg sample.ann "wrong" = false
  /\ @models.CheckPassword sample.bcrypt_pkg sample.ann "correct-horse" = true.
Proof.
  destruct (@password_hash_and_check sample.bcrypt_pkg sample.no_password "salt" "")
    as (_ & Hhash & _).
  destruct (@password_hash_and_check sample.bcrypt_pkg sample.ann "" "wrong")
    as (_ & _ & Hbad & _).
  destruct (@password_hash_and_check sample.bcrypt_pkg sample.ann "" "correct-horse")
    as (_ & _ & _ & Hgood).
  split; [exact (Hhash _ eq_refl) |].
  split; [exact (Hbad _ eq_refl) | exact (Hgood eq_refl)].
Defined.

(** ** Sign-in *)

Section SignInProperties.
Context {DB : Type}.
Context `{jwt.Package services.Claims}.
Context `{mongo.Driver DB}.
Context `{bcrypt.Package}.
Context `{json.Package}.

(** Claim C8, amended: a sign-in attempt whose email matches no user is
    answered 401 "Email not found"; one whose email matches an active
    user and whose password does not match is answered 401 "Wrong
    password", a different reply; one whose email matches a deactivated
    user is answered 403 "Account deactivated" whatever the password. *)
Theorem SignIn_failures
  (userService : services.UserService) (r : http.Request) (email password : string)
  (w : World DB) :
  spec.sign_in_attempt r email password ->
  (mongo.UsersCollection_FindOne (spec.by_email email) (db w) = mongo.ErrNoDocuments ->
     controllers.SignIn userService r w
     = spec.rejected w http.StatusUnauthorized "Email not found"
         "No user exists with this email address")
  /\ (forall user,
      mongo.UsersCollection_FindOne (spec.by_email email) (db w) = mongo.Decoded user ->
      models.IsActive user = true ->
      models.CheckPassword user password = false ->
      controllers.SignIn userService r w
      = spec.rejected w http.StatusUnauthorized "Wrong password"
          "The password you entered is incorrect")
  /\ (forall user,
      mongo.UsersCollection_FindOne (spec.by_email email) (db w) = mongo.Decoded user ->
      models.IsActive user = false ->
      controllers.SignIn userService r w
      = spec.rejected w http.StatusForbidden "Account deactivated"
          "Your account has been deactivated. Please contact support")
  /\ (forall w1 w2 : World DB,
      fst (spec.rejected w1 http.StatusUnauthorized "Email not found"
             "No user exists with this email address")
      <> fst (spec.rejected w2 http.StatusUnauthorized "Wrong password"
                "The password you entered is incorrect")).
Proof.
  intros (Hmethod & Hct & Hdecode & Hemail & Hpassword & Hat & Hdot).
  assert (Hrun :
    controllers.SignIn userService r w
    = bindM (services.SignInUser userService email password)
        (fun signedIn =>
           match signedIn with
           | Err (authError authErr) =>
               if String.eqb (Type_ authErr) "user_not_found" then
                 controllers.reject http.StatusUnauthorized "Email not found"
                   (Details authErr)
               else if String.eqb (Type_ authErr) "invalid_password" then
                 controllers.reject http.StatusUnauthorized "Wrong password"
                   (Details authErr)
               else if String.eqb (Type_ authErr) "account_deactivated" then
                 controllers.reject http.StatusForbidden "Account deactivated"
                   (Details authErr)
               else
                 controllers.reject http.StatusInternalServerError "Sign-in failed"
                   "An unexpected error occurred. Please try again later."
           | Err (errorString _) =>
               controllers.reject http.StatusInternalServerError "Sign-in failed"
                 "An unexpected error occurred. Please try again later."
           | Ok signInResponse =>
               controllers.succeed http.StatusOK "Sign-in successful"
                 (models.DataSignIn signInResponse)
           end) w).
  { unfold controllers.SignIn. rewrite Hmethod. cbn [String.eqb Ascii.eqb Bool.eqb negb].
    rewrite Hct. cbn [negb]. rewrite Hdecode. cbn [models.SI_Email models.SI_Password].
    destruct (String.eqb_spec email "") as [E|_]; [contradiction |].
    destruct (String.eqb_spec password "") as [E|_]; [contradiction |].
    rewrite Hat, Hdot. reflexivity. }
  assert (Hauth : forall o,
    services.AuthenticateUser email password w = (Err o, w) ->
    services.SignInUser userService email password w = (Err o, w)).
  { intros o Ho. unfold services.SignInUser, bindM. rewrite Ho. reflexivity. }
  repeat split.
  - intros Hfind. rewrite Hrun. unfold bindM.
    rewrite (Hauth (authError models.ErrUserNotFound)); [reflexivity |].
    unfold services.AuthenticateUser, services.GetUserByEmail, services.find_user,
      bindM, db_read.
    fold (spec.by_email email). rewrite Hfind. reflexivity.
  - intros user Hfind Hactive Hcheck. rewrite Hrun. unfold bindM.
    rewrite (Hauth (authError models.ErrInvalidPassword)); [reflexivity |].
    unfold services.AuthenticateUser, services.GetUserByEmail, services.find_user,
      bindM, db_read.
    fold (spec.by_email email). rewrite Hfind, Hactive, Hcheck. reflexivity.
  - intros user Hfind Hactive. rewrite Hrun. unfold bindM.
    rewrite (Hauth (authError models.ErrAccountDeactivated)); [reflexivity |].
    unfold services.AuthenticateUser, services.GetUserByEmail, services.find_user,
      bindM, db_read.
    fold (spec.by_email email). rewrite Hfind, Hactive. reflexivity.
  - intros w1 w2 E. unfold spec.rejected in E. cbn [fst] in E. discriminate E.
Qed.

End SignInProperties.

Lemma sample_attempt (email password : string) :
  email <> "" -> password <> "" ->
  strings.ContainsByte email "@"%char = true ->
  strings.ContainsByte email "."%char = true ->
  @json.Decode_SignInRequest sample.json_pkg (email ++ " " ++ password)%string
  = Ok {| models.SI_Email := email; models.SI_Password := password |} ->
  @spec.sign_in_attempt sample.json_pkg (sample.sign_in email password) email password.
Proof.
  intros He Hp Hat Hdot Hdec. unfold spec.sign_in_attempt.
  split; [reflexivity |]. split; [reflexivity |]. split; [exact Hdec |]. tauto.
Qed.

(** Claim C8, where the code departs from it: the account is checked
    for deactivation before the password, so an attempt with the email
    of a deactivated user and a password that does not match is
    answered 403 "Account deactivated", not 401 "Wrong password". *)
Lemma SignIn_deactivated_wrong_password :
  @spec.sign_in_attempt sample.json_pkg (sample.sign_in "bob@rgp.io" "wrong")
     "bob@rgp.io" "wrong"
  /\ @mongo.UsersCollection_FindOne _ sample.driver (spec.by_email "bob@rgp.io")
       (db sample.world) = mongo.Decoded sample.bob
  /\ @models.CheckPassword sample.bcrypt_pkg sample.bob "wrong" = false
  /\ @controllers.SignIn _ sample.jwt_pkg sample.driver sample.bcrypt_pkg sample.json_pkg
       sample.userService (sample.sign_in "bob@rgp.io" "wrong") sample.world
     = spec.rejected sample.world http.StatusForbidden "Account deactivated"
         "Your account has been deactivated. Please contact support"
  /\ @controllers.SignIn _ sample.jwt_pkg sample.driver sample.bcrypt_pkg sample.json_pkg
       sample.userService (sample.sign_in "bob@rgp.io" "wrong") sample.world
     <> spec.rejected sample.world http.StatusUnauthorized "Wrong password"
          "The password you entered is incorrect".
Proof.
  split.
  { apply sample_attempt; (discriminate || reflexivity). }
  split; [reflexivity |]. split; [reflexivity |].
  assert (E : @controllers.SignIn _ sample.jwt_pkg sample.driver sample.bcrypt_pkg
                sample.json_pkg sample.userService
                (sample.sign_in "bob@rgp.io" "wrong") sample.world
              = spec.rejected sample.world http.StatusForbidden "Account deactivated"
                  "Your account has been deactivated. Please contact support")
    by reflexivity.
  split; [exact E |].
  rewrite E. unfold spec.rejected. intros Hsame. discriminate Hsame.
Qed.

Lemma SignIn_failures_witness :
  @controllers.SignIn _ sample.jwt_pkg sample.driver sample.bcrypt_pkg sample.json_pkg
    sample.userService (sample.sign_in "zed@rgp.io" "secret-1") sample.world
  = spec.rejected sample.world http.StatusUnauthorized "Email not found"
      "No user exists with this email address"
  /\ @controllers.SignIn _ sample.jwt_pkg sample.driver sample.bcrypt_pkg sample.json_pkg
       sample.userService (sample.sign_in "ann@rgp.io" "wrong") sample.world
     = spec.rejected sample.world http.StatusUnauthorized "Wrong password"
         "The password you entered is incorrect".
Proof.
  split.
  - assert (Hattempt : @spec.sign_in_attempt sample.json_pkg
                         (sample.sign_in "zed@rgp.io" "secret-1") "zed@rgp.io" "secret-1")
      by (apply sample_attempt; (discriminate || reflexivity)).
    destruct (@SignIn_failures _ sample.jwt_pkg sample.driver sample.bcrypt_pkg
                sample.json_pkg sample.userService _ _ _ sample.world Hattempt)
      as (Hmissing & _).
    apply Hmissing. reflexivity.
  - assert (Hattempt : @spec.sign_in_attempt sample.json_pkg
                         (sample.sign_in "ann@rgp.io" "wrong") "ann@rgp.io" "wrong")
      by (apply sample_attempt; (discriminate || reflexivity)).
    destruct (@SignIn_failures _ sample.jwt_pkg sample.driver sample.bcrypt_pkg
                sample.json_pkg sample.userService _ _ _ sample.world Hattempt)
      as (_ & Hwrong & _).
    apply (Hwrong sample.ann); reflexivity.
Defined.

(* ===================================================================== *)
(** * Further properties *)
(* ===================================================================== *)

(** ** Usernames *)

Ltac by_bytes_with c :=
  destruct c as [[] [] [] [] [] [] [] []]; vm_compute; intros;
  try reflexivity; try discriminate.

Lemma username_char_not_at (c : ascii) :
  spec.username_char c = true -> Ascii.eqb c "@"%char = false.
Proof. by_bytes_with c. Qed.

Lemma username_char_kept (c : ascii) :
  spec.username_char c = true ->
  spec.is_letter c || spec.is_digit c || spec.is_underscore c = true.
Proof. by_bytes_with c. Qed.

Lemma username_char_lower (c : ascii) :
  spec.username_char c = true -> strings.lower_byte c = c.
Proof. by_bytes_with c. Qed.

Lemma before_at_username (n rest : string) :
  spec.all_chars spec.username_char n = true ->
  spec.before_at (n ++ String "@"%char rest) = n.
Proof.
  induction n as [|c n IH]; intros Hall.
  - reflexivity.
  - simpl in Hall. apply andb_true_iff in Hall as [Hc Hn].
    rewrite append_cons. simpl. rewrite (username_char_not_at c Hc).
    now rewrite IH.
Qed.

Lemma strip_username (n : string) :
  spec.all_chars spec.username_char n = true -> spec.strip n = n.
Proof.
  induction n as [|c n IH]; intros Hall; [reflexivity |].
  simpl in Hall. apply andb_true_iff in Hall as [Hc Hn].
  simpl. rewrite (username_char_kept c Hc). now rewrite IH.
Qed.

Lemma ToLower_username (n : string) :
  spec.all_chars spec.username_char n = true -> strings.ToLower n = n.
Proof.
  induction n as [|c n IH]; intros Hall; [reflexivity |].
  simpl in Hall. apply andb_true_iff in Hall as [Hc Hn].
  simpl. rewrite (username_char_lower c Hc). now rewrite IH.
Qed.

Lemma derived_shape (u : models.User) :
  models.Email u <> "" ->
  (3 <= String.length (models.GenerateUsernameFromEmail u) <= 30)%nat
  /\ spec.all_chars spec.username_char (models.GenerateUsernameFromEmail u) = true.
Proof.
  intros Hne. rewrite (GenerateUsernameFromEmail_nonempty u Hne).
  unfold spec.derive, spec.cleaned.
  set (c := strings.ToLower (spec.strip (spec.before_at (models.Email u)))).
  assert (Hc : spec.all_chars spec.username_char c = true) by apply strip_lower_chars.
  set (r := if (String.length c <? 3)%nat then (c ++ "user")%string else c).
  assert (Hlen : (3 <= String.length r)%nat).
  { subst r. destruct (Nat.ltb_spec (String.length c) 3); [|assumption].
    rewrite length_append. simpl. lia. }
  assert (Hr : spec.all_chars spec.username_char r = true).
  { subst r. destruct (String.length c <? 3)%nat; [|assumption].
    rewrite all_chars_append, Hc. reflexivity. }
  destruct (Nat.ltb_spec 30 (String.length r)).
  - rewrite length_substring_0. split; [lia | now apply all_chars_substring_0].
  - split; [lia | assumption].
Qed.

(** A derived username derives itself: taken as the part before the
    [@] of an email, whatever the domain, it comes back unchanged. *)
Theorem GenerateUsernameFromEmail_fixed_point (u : models.User) (domain : string) :
  models.Email u <> "" ->
  let username := models.GenerateUsernameFromEmail u in
  models.GenerateUsernameFromEmail
    (spec.user_of_email (username ++ String "@"%char domain))
  = username.
Proof.
  intros Hne username.
  destruct (derived_shape u Hne) as [Hlen Hchars]. fold username in Hlen, Hchars.
  rewrite GenerateUsernameFromEmail_nonempty.
  - cbn [models.Email spec.user_of_email].
    unfold spec.derive, spec.cleaned.
    rewrite (before_at_username _ _ Hchars), (strip_username _ Hchars),
      (ToLower_username _ Hchars).
    destruct (Nat.ltb_spec (String.length username) 3); [lia |].
    destruct (Nat.ltb_spec 30 (String.length username)); [lia | reflexivity].
  - cbn [models.Email spec.user_of_email].
    destruct username; [simpl in Hlen; lia | rewrite append_cons; discriminate].
Qed.

Lemma GenerateUsernameFromEmail_fixed_point_witness :
  models.GenerateUsernameFromEmail (spec.user_of_email "John.Doe@rgp.io") = "johndoe"
  /\ models.GenerateUsernameFromEmail (spec.user_of_email "johndoe@elsewhere.org")
     = "johndoe".
Proof.
  split; [reflexivity |].
  exact (GenerateUsernameFromEmail_fixed_point
           (spec.user_of_email "John.Doe@rgp.io") "elsewhere.org" ltac:(discriminate)).
Defined.

(** ** The token service *)

Section TokenService.
Context {DB : Type}.
Context `{jwt.Package services.Claims}.

Lemma result_eta {T : Type} (x : result T) (w : World DB) :
  match x with
  | Ok v => fun w0 : World DB => (Ok v, w0)
  | Err err => fun w0 : World DB => (Err err, w0)
  end w = (x, w).
Proof. destruct x; reflexivity. Qed.

Lemma GetTokenExpiration_of_valid (role : models.UserRole) :
  String.eqb role models.RoleAdmin || String.eqb role models.RoleSuperAdmin = true ->
  services.expiration_for role
  = (fun w : World DB =>
       (Some (time.Add (clock w (ticks w)) (services.GetTokenExpiration role)),
        spec.tick w)).
Proof.
  intros Hrole. unfold services.expiration_for, services.GetTokenExpiration.
  destruct (String.eqb role models.RoleAdmin); [reflexivity |].
  destruct (String.eqb role models.RoleSuperAdmin); [reflexivity | discriminate].
Qed.

Lemma expiration_for_invalid (role : models.UserRole) :
  String.eqb role models.RoleAdmin || String.eqb role models.RoleSuperAdmin = false ->
  services.expiration_for (DB := DB) role = ret None
  /\ services.GetTokenExpiration role = 24 * time.Hour.
Proof.
  intros Hrole. unfold services.expiration_for, services.GetTokenExpiration.
  destruct (String.eqb role models.RoleAdmin); [discriminate |].
  destruct (String.eqb role models.RoleSuperAdmin); [discriminate |].
  split; reflexivity.
Qed.

Lemma GenerateToken_of_valid
  (s : services.JWTService) (user : models.User) (w : World DB) :
  user_model.ValidateRole user = true ->
  services.GenerateToken s user w
  = (jwt.SignedString
       (jwt.NewWithClaims jwt.SigningMethodHS256
          (facts.issued_claims user
             (time.Add (facts.reading w 0)
                (services.GetTokenExpiration (models.Role user)))
             (facts.reading w 1) (facts.reading w 2)))
       (services.secretKey s),
     facts.advanced w 3 (db w)).
Proof.
  intros Hvalid. unfold services.GenerateToken, bindM.
  rewrite (GetTokenExpiration_of_valid _ Hvalid).
  unfold time_Now, ret, facts.issued_claims, facts.reading, facts.advanced.
  cbn -[Z.mul jwt.NewNumericDate time.Add services.GetTokenExpiration].
  rewrite result_eta. reflexivity.
Qed.

Lemma GenerateToken_of_invalid
  (s : services.JWTService) (user : models.User) (w : World DB) :
  user_model.ValidateRole user = false ->
  services.GenerateToken s user w = (Err (errorString "invalid user role"), w).
Proof.
  intros Hinvalid. destruct (expiration_for_invalid _ Hinvalid) as [Hnone _].
  unfold services.GenerateToken, bindM. rewrite Hnone. reflexivity.
Qed.

(** Token issuance and the role helpers agree: a token is signed exactly
    for the users whose role [ValidateRole] (and [IsAdmin]) accepts, and
    its expiry is then the first clock reading plus the duration that
    [GetTokenExpiration] reports for the role; for every other role
    issuance fails, although [GetTokenExpiration] reports 24 hours. *)
Theorem issuance_follows_role_helpers
  (s : services.JWTService) (user : models.User) (w : World DB) :
  user_model.IsAdmin user = user_model.ValidateRole user
  /\ (user_model.ValidateRole user = true ->
      services.GenerateToken s user w
      = (jwt.SignedString
           (jwt.NewWithClaims jwt.SigningMethodHS256
              (facts.issued_claims user
                 (time.Add (facts.reading w 0)
                    (services.GetTokenExpiration (models.Role user)))
                 (facts.reading w 1) (facts.reading w 2)))
           (services.secretKey s),
         facts.advanced w 3 (db w)))
  /\ (user_model.ValidateRole user = false ->
      services.GenerateToken s user w = (Err (errorString "invalid user role"), w)
      /\ services.GetTokenExpiration (models.Role user) = 24 * time.Hour).
Proof.
  split; [reflexivity |]. split.
  - apply GenerateToken_of_valid.
  - intros Hinvalid. split; [now apply GenerateToken_of_invalid |].
    exact (proj2 (expiration_for_invalid _ Hinvalid)).
Qed.

(** Refreshing a token: a token that does not validate yields the error
    of the validation; one that validates with the role admin or
    super-admin yields a newly signed token with the same user id,
    email, username, role, issuer and subject, whose expiry is counted
    from the clock reading of the refresh, by the role in the token; any
    other role in the token yields "invalid user role". *)
Theorem RefreshToken_reissues
  (s : services.JWTService) (tokenString : string) (w : World DB) :
  (forall err,
     fst (services.ValidateToken s tokenString w) = Err err ->
     services.RefreshToken s tokenString w = (Err err, spec.tick w))
  /\ (forall claims,
     fst (services.ValidateToken s tokenString w) = Ok claims ->
     (String.eqb (services.Role claims) models.RoleAdmin
      || String.eqb (services.Role claims) models.RoleSuperAdmin = true ->
      exists renewed,
        services.RefreshToken s tokenString w
        = (jwt.SignedString (jwt.NewWithClaims jwt.SigningMethodHS256 renewed)
             (services.secretKey s),
           facts.advanced w 4 (db w))
        /\ services.UserID renewed = services.UserID claims
        /\ services.Email renewed = services.Email claims
        /\ services.Username renewed = services.Username claims
        /\ services.Role renewed = services.Role claims
        /\ jwt.Issuer (services.Registered renewed)
           = jwt.Issuer (services.Registered claims)
        /\ jwt.Subject (services.Registered renewed)
           = jwt.Subject (services.Registered claims)
        /\ jwt.ExpiresAt (services.Registered renewed)
           = Some (jwt.NewNumericDate
                     (time.Add (facts.reading w 1)
                        (services.GetTokenExpiration (services.Role claims))))
        /\ jwt.IssuedAt (services.Registered renewed)
           = Some (jwt.NewNumericDate (facts.reading w 2)))
     /\ (String.eqb (services.Role claims) models.RoleAdmin
         || String.eqb (services.Role claims) models.RoleSuperAdmin = false ->
         services.RefreshToken s tokenString w
         = (Err (errorString "invalid user role"), spec.tick w))).
Proof.
  pose proof (ValidateToken_ticks s tokenString w) as Hticks.
  unfold services.RefreshToken, bindM.
  destruct (services.ValidateToken s tokenString w) as [validated w'].
  cbn [fst snd] in *. subst w'.
  split.
  - intros err ->. reflexivity.
  - intros claims ->. split.
    + intros Hrole. rewrite (GetTokenExpiration_of_valid _ Hrole).
      eexists. unfold time_Now, ret, facts.reading, facts.advanced.
      cbn -[Z.mul jwt.NewNumericDate time.Add services.GetTokenExpiration].
      rewrite result_eta. split; [reflexivity |].
      repeat split.
    + intros Hrole. destruct (expiration_for_invalid _ Hrole) as [Hnone _].
      rewrite Hnone. reflexivity.
Qed.

End TokenService.

Lemma issuance_follows_role_helpers_witness :
  user_model.ValidateRole sample.ann = true
  /\ user_model.ValidateRole sample.guy = false
  /\ @services.GenerateToken _ sample.jwt_pkg sample.jwtService sample.ann sample.world
     = (Ok "tok-new", facts.advanced sample.world 3 (db sample.world))
  /\ @services.GenerateToken _ sample.jwt_pkg sample.jwtService sample.guy sample.world
     = (Err (errorString "invalid user role"), sample.world).
Proof.
  destruct (@issuance_follows_role_helpers _ sample.jwt_pkg sample.jwtService
              sample.ann sample.world) as (_ & Hann & _).
  destruct (@issuance_follows_role_helpers _ sample.jwt_pkg sample.jwtService
              sample.guy sample.world) as (_ & _ & Hguy).
  split; [reflexivity |]. split; [reflexivity |].
  split; [exact (Hann eq_refl) | exact (proj1 (Hguy eq_refl))].
Defined.

Lemma RefreshToken_reissues_witness :
  (exists renewed,
     @services.RefreshToken _ sample.jwt_pkg sample.jwtService "tok-admin" sample.world
     = (Ok "tok-new", facts.advanced sample.world 4 (db sample.world))
     /\ services.Email renewed = "ann@rgp.io"
     /\ jwt.ExpiresAt (services.Registered renewed) = Some (1700172800 * time.Second))
  /\ @services.RefreshToken _ sample.jwt_pkg sample.jwtService "tok-old" sample.world
     = (Err (errorString "token is expired"), spec.tick sample.world)
  /\ @services.RefreshToken _ sample.jwt_pkg sample.jwtService "tok-guest" sample.world
     = (Err (errorString "invalid user role"), spec.tick sample.world).
Proof.
  destruct (@RefreshToken_reissues _ sample.jwt_pkg sample.jwtService "tok-admin"
              sample.world) as [_ Hadmin].
  destruct (@RefreshToken_reissues _ sample.jwt_pkg sample.jwtService "tok-old"
              sample.world) as [Hold _].
  destruct (@RefreshToken_reissues _ sample.jwt_pkg sample.jwtService "tok-guest"
              sample.world) as [_ Hguest].
  split; [|split].
  - destruct (Hadmin _ eq_refl) as [Hok _].
    destruct (Hok eq_refl) as (renewed & Hrun & _ & Hemail & _ & _ & _ & _ & Hexp & _).
    exists renewed. split; [exact Hrun |]. split; [exact Hemail |].
    rewrite Hexp. reflexivity.
  - exact (Hold _ eq_refl).
  - destruct (Hguest _ eq_refl) as [_ Hbad]. exact (Hbad eq_refl).
Defined.

(** ** Sign-in, beyond its failures *)

Section SignInOutcomes.
Context {DB : Type}.
Context `{jwt.Package services.Claims}.
Context `{mongo.Driver DB}.
Context `{bcrypt.Package}.
Context `{json.Package}.

Lemma AuthenticateUser_accepts (email password : string) (user : models.User)
  (w : World DB) :
  mongo.UsersCollection_FindOne (spec.by_email email) (db w) = mongo.Decoded user ->
  models.IsActive user = true ->
  models.CheckPassword user password = true ->
  services.AuthenticateUser email password w
  = (Ok user, facts.advanced w 2 (facts.after_login user w)).
Proof.
  intros Hfind Hactive Hcheck.
  unfold services.AuthenticateUser, services.GetUserByEmail, services.find_user,
    bindM, db_read.
  fold (spec.by_email email). rewrite Hfind, Hactive, Hcheck. cbn [negb].
  unfold services.UpdateUser, bindM, time_Now, db_update. cbn [clock ticks zone_format db].
  unfold facts.after_login, facts.by_id, facts.last_login_update, facts.reading, facts.advanced.
  cbn [Nat.add].
  destruct (mongo.UsersCollection_UpdateOne _ _ (db w)) as [err stored].
  destruct err; [reflexivity |].
  unfold services.GetUserByID, services.find_user, db_read. reflexivity.
Qed.

(** What authentication does to the world: nothing when it refuses,
    two clock readings and the update of the last login otherwise. *)
Lemma AuthenticateUser_outcome (email password : string) (w : World DB) :
  (exists err, services.AuthenticateUser email password w = (Err err, w))
  \/ (exists user,
        mongo.UsersCollection_FindOne (spec.by_email email) (db w) = mongo.Decoded user
        /\ models.IsActive user = true
        /\ models.CheckPassword user password = true
        /\ services.AuthenticateUser email password w
           = (Ok user, facts.advanced w 2 (facts.after_login user w))).
Proof.
  destruct (mongo.UsersCollection_FindOne (spec.by_email email) (db w))
    as [user| |err] eqn:Hfind.
  - destruct (models.IsActive user) eqn:Hactive.
    + destruct (models.CheckPassword user password) eqn:Hcheck.
      * right. exists user. repeat split; try assumption.
        now apply AuthenticateUser_accepts.
      * left. eexists.
        unfold services.AuthenticateUser, services.GetUserByEmail, services.find_user,
          bindM, db_read.
        fold (spec.by_email email). rewrite Hfind, Hactive, Hcheck. reflexivity.
    + left. eexists.
      unfold services.AuthenticateUser, services.GetUserByEmail, services.find_user,
        bindM, db_read.
      fold (spec.by_email email). rewrite Hfind, Hactive. reflexivity.
  - left. eexists.
    unfold services.AuthenticateUser, services.GetUserByEmail, services.find_user,
      bindM, db_read.
    fold (spec.by_email email). rewrite Hfind. reflexivity.
  - left. eexists.
    unfold services.AuthenticateUser, services.GetUserByEmail, services.find_user,
      bindM, db_read.
    fold (spec.by_email email). rewrite Hfind. reflexivity.
Qed.

Lemma GenerateToken_db (s : services.JWTService) (user : models.User) (w : World DB) :
  db (snd (services.GenerateToken s user w)) = db w.
Proof.
  destruct (user_model.ValidateRole user) eqn:Hrole.
  - rewrite (GenerateToken_of_valid s user w Hrole). reflexivity.
  - rewrite (GenerateToken_of_invalid s user w Hrole). reflexivity.
Qed.

Lemma SignInUser_db (s : services.UserService) (email password : string) (w : World DB) :
  db (snd (services.SignInUser s email password w))
  = db (snd (services.AuthenticateUser email password w)).
Proof.
  unfold services.SignInUser, bindM.
  destruct (services.AuthenticateUser email password w) as [[user|err] w1];
    [|reflexivity].
  pose proof (GenerateToken_db (services.jwtService s) user w1) as Hdb.
  destruct (services.GenerateToken (services.jwtService s) user w1) as [[token|err] w2];
    cbn [fst snd] in *; [|exact Hdb].
  unfold time_Now, ret. cbn [snd db]. exact Hdb.
Qed.

(** The reply of the sign-in controller to the result of the service
    leaves the database as it is. *)
Ltac enter_sign_in Hattempt :=
  destruct Hattempt as (Hmethod & Hct & Hdecode & Hemail & Hpassword & Hat & Hdot);
  unfold controllers.SignIn; rewrite Hmethod;
  cbn [String.eqb Ascii.eqb Bool.eqb negb];
  rewrite Hct; cbn [negb]; rewrite Hdecode;
  cbn [models.SI_Email models.SI_Password];
  match goal with
  | |- context [String.eqb ?e ""] =>
      destruct (String.eqb_spec e "") as [?|_]; [contradiction |]
  end;
  match goal with
  | |- context [String.eqb ?e ""] =>
      destruct (String.eqb_spec e "") as [?|_]; [contradiction |]
  end;
  rewrite Hat, Hdot; cbn [negb orb].

(** A sign-in with the right password of an active user whose role is
    admin or super-admin is answered 200 with the signed token, the
    role, the login time and the expiry read off the clock, and the
    user as it was found, before this login was recorded; the last
    login is written to the store, and an error of that write does not
    fail the sign-in. *)
Theorem SignIn_success
  (userService : services.UserService) (r : http.Request) (email password : string)
  (user : models.User) (token : string) (w : World DB) :
  spec.sign_in_attempt r email password ->
  mongo.UsersCollection_FindOne (spec.by_email email) (db w) = mongo.Decoded user ->
  models.IsActive user = true ->
  models.CheckPassword user password = true ->
  user_model.ValidateRole user = true ->
  jwt.SignedString
    (jwt.NewWithClaims jwt.SigningMethodHS256
       (facts.issued_claims user
          (time.Add (facts.reading w 2) (services.GetTokenExpiration (models.Role user)))
          (facts.reading w 3) (facts.reading w 4)))
    (services.secretKey (services.jwtService userService)) = Ok token ->
  controllers.SignIn userService r w
  = (Returned
       {| models.ContentType := "application/json";
          models.StatusCode := 200;
          models.Body :=
            models.JSONSuccess
              {| models.R_StatusCode := 200;
                 models.R_Status := "success";
                 models.R_Message := "Sign-in successful";
                 models.R_Data :=
                   models.DataSignIn
                     {| models.SR_User := models.ToResponse user;
                        models.SR_Message := "Sign-in successful";
                        models.SR_LoginTime := facts.reading w 5;
                        models.SR_Token := token;
                        models.SR_ExpiresAt :=
                          time.Add (facts.reading w 6)
                            (services.GetTokenExpiration (models.Role user));
                        models.SR_Role := models.Role user |};
                 models.R_Timestamp := zone_format w (facts.reading w 7) |} |},
     facts.advanced w 8 (facts.after_login user w)).
Proof.
  intros Hattempt Hfind Hactive Hcheck Hrole Hsigned.
  enter_sign_in Hattempt.
  unfold bindM, services.SignInUser, bindM.
  rewrite (AuthenticateUser_accepts email password user w Hfind Hactive Hcheck).
  rewrite (GenerateToken_of_valid _ user _ Hrole).
  unfold facts.reading, facts.advanced in *. cbn [clock ticks db Nat.add] in *.
  rewrite Hsigned. reflexivity.
Qed.

(** A sign-in with the right password of an active user whose role is
    neither admin nor super-admin is answered 500 "Sign-in failed": no
    token can be issued. The last login has been recorded by then. *)
Theorem SignIn_unrecognised_role
  (userService : services.UserService) (r : http.Request) (email password : string)
  (user : models.User) (w : World DB) :
  spec.sign_in_attempt r email password ->
  mongo.UsersCollection_FindOne (spec.by_email email) (db w) = mongo.Decoded user ->
  models.IsActive user = true ->
  models.CheckPassword user password = true ->
  user_model.ValidateRole user = false ->
  controllers.SignIn userService r w
  = spec.rejected (facts.advanced w 2 (facts.after_login user w))
      http.StatusInternalServerError "Sign-in failed"
      "An unexpected error occurred. Please try again later.".
Proof.
  intros Hattempt Hfind Hactive Hcheck Hrole.
  enter_sign_in Hattempt.
  unfold bindM, services.SignInUser, bindM.
  rewrite (AuthenticateUser_accepts email password user w Hfind Hactive Hcheck).
  rewrite (GenerateToken_of_invalid _ user _ Hrole).
  reflexivity.
Qed.

Lemma reject_db (statusCode : Z) (message detail : string) (w : World DB) :
  db (snd (controllers.reject statusCode message detail w)) = db w.
Proof. reflexivity. Qed.

(** The sign-in endpoint writes to the store only for a well-formed
    attempt with the right password of an active user, and then only
    the last login of that user: every other request leaves the
    database as it was. *)
Theorem SignIn_writes_only_after_authentication
  (userService : services.UserService) (r : http.Request) (w : World DB) :
  db (snd (controllers.SignIn userService r w)) = db w
  \/ exists email password user,
       spec.sign_in_attempt r email password
       /\ mongo.UsersCollection_FindOne (spec.by_email email) (db w) = mongo.Decoded user
       /\ models.IsActive user = true
       /\ models.CheckPassword user password = true
       /\ db (snd (controllers.SignIn userService r w)) = facts.after_login user w.
Proof.
  unfold controllers.SignIn.
  destruct (String.eqb_spec (http.Method r) "POST") as [Hmethod|_]; [|left; reflexivity].
  cbn [negb].
  destruct (strings.HasPrefix (http.Get (http.Header r) "Content-Type") "application/json")
    eqn:Hct; [|left; reflexivity].
  cbn [negb].
  destruct (json.Decode_SignInRequest (http.Body r)) as [[email password]|err] eqn:Hdecode;
    [|left; reflexivity].
  cbn [models.SI_Email models.SI_Password].
  destruct (String.eqb_spec email "") as [?|Hemail]; [left; reflexivity |].
  destruct (String.eqb_spec password "") as [?|Hpassword]; [left; reflexivity |].
  cbn [orb].
  destruct (strings.ContainsByte email "@"%char) eqn:Hat; [|left; reflexivity].
  destruct (strings.ContainsByte email "."%char) eqn:Hdot; [|left; reflexivity].
  cbn [negb orb].
  assert (Hsame : db (snd (bindM (services.SignInUser userService email password)
                   (fun signedIn =>
                      match signedIn with
                      | Ok signInResponse =>
                          controllers.succeed http.StatusOK "Sign-in successful"
                            (models.DataSignIn signInResponse)
                      | Err (errorString _) =>
                          controllers.reject http.StatusInternalServerError
                            "Sign-in failed"
                            "An unexpected error occurred. Please try again later."
                      | Err (authError authErr) =>
                          if String.eqb (Type_ authErr) "user_not_found" then
                            controllers.reject http.StatusUnauthorized "Email not found"
                              (Details authErr)
                          else if String.eqb (Type_ authErr) "invalid_password" then
                            controllers.reject http.StatusUnauthorized "Wrong password"
                              (Details authErr)
                          else if String.eqb (Type_ authErr) "account_deactivated" then
                            controllers.reject http.StatusForbidden "Account deactivated"
                              (Details authErr)
                          else
                            controllers.reject http.StatusInternalServerError
                              "Sign-in failed"
                              "An unexpected error occurred. Please try again later."
                      end) w))
                 = db (snd (services.AuthenticateUser email password w))).
  { rewrite <- (SignInUser_db userService). unfold bindM.
    destruct (services.SignInUser userService email password w) as [[resp|[text|authErr]] w1];
      cbn [snd]; try reflexivity.
    destruct (String.eqb (Type_ authErr) "user_not_found"); [reflexivity |].
    destruct (String.eqb (Type_ authErr) "invalid_password"); [reflexivity |].
    destruct (String.eqb (Type_ authErr) "account_deactivated"); reflexivity. }
  rewrite Hsame.
  destruct (AuthenticateUser_outcome email password w)
    as [[err Hrefused] | (user & Hfind & Hactive & Hcheck & Haccepted)].
  - left. rewrite Hrefused. reflexivity.
  - right. exists email, password, user.
    split; [unfold spec.sign_in_attempt; rewrite Hmethod, Hct, Hdecode; tauto |].
    split; [exact Hfind |]. split; [exact Hactive |]. split; [exact Hcheck |].
    rewrite Haccepted. reflexivity.
Qed.

End SignInOutcomes.

Lemma SignIn_success_witness :
  exists reply,
    @controllers.SignIn _ sample.jwt_pkg fixture.driver sample.bcrypt_pkg sample.json_pkg
      sample.userService (sample.sign_in "john.doe@rgp.io" "correct-horse") fixture.world
    = (Returned reply,
       facts.advanced fixture.world 8
         (@facts.after_login _ fixture.driver fixture.john fixture.world))
    /\ models.StatusCode reply = 200.
Proof.
  eexists. split.
  - apply (@SignIn_success _ sample.jwt_pkg fixture.driver sample.bcrypt_pkg
             sample.json_pkg sample.userService
             (sample.sign_in "john.doe@rgp.io" "correct-horse")
             "john.doe@rgp.io" "correct-horse" fixture.john "tok-new" fixture.world).
    + apply sample_attempt; (discriminate || reflexivity).
    + reflexivity.
    + reflexivity.
    + reflexivity.
    + reflexivity.
    + reflexivity.
  - reflexivity.
Defined.

Lemma SignIn_unrecognised_role_witness :
  @controllers.SignIn _ sample.jwt_pkg fixture.driver sample.bcrypt_pkg sample.json_pkg
    sample.userService (sample.sign_in "visitor@rgp.io" "guest-pass") fixture.world
  = spec.rejected
      (facts.advanced fixture.world 2
         (@facts.after_login _ fixture.driver fixture.visitor fixture.world))
      http.StatusInternalServerError "Sign-in failed"
      "An unexpected error occurred. Please try again later."
  /\ models.LastLogin fixture.visitor = None
  /\ List.map models.LastLogin
       (sample.users (@facts.after_login _ fixture.driver fixture.visitor fixture.world))
     = [None; None; Some 1700000000000000000].
Proof.
  split; [|split; reflexivity].
  apply (@SignIn_unrecognised_role _ sample.jwt_pkg fixture.driver sample.bcrypt_pkg
           sample.json_pkg sample.userService
           (sample.sign_in "visitor@rgp.io" "guest-pass")
           "visitor@rgp.io" "guest-pass" fixture.visitor fixture.world).
  - apply sample_attempt; (discriminate || reflexivity).
  - reflexivity.
  - reflexivity.
  - reflexivity.
  - reflexivity.
Defined.

(** ** The routes *)

Lemma prefix_split (p s : string) :
  String.prefix p s = true ->
  s = (p ++ String.substring (String.length p) (String.length s - String.length p) s)%string.
Proof.
  revert s; induction p as [|a p IH]; intros s Hpre.
  - rewrite append_nil. cbn [String.length]. rewrite Nat.sub_0_r.
    now rewrite substring_0_length.
  - destruct s as [|b s]; [discriminate |].
    simpl in Hpre. destruct (ascii_dec a b) as [->|]; [|discriminate].
    rewrite append_cons. cbn [String.length String.substring Nat.sub].
    f_equal. now apply IH.
Qed.

Lemma HasPrefix_split (s p : string) :
  strings.HasPrefix s p = true -> s = (p ++ strings.TrimPrefix s p)%string.
Proof.
  intros Hpre. unfold strings.TrimPrefix. rewrite Hpre. now apply prefix_split.
Qed.

Section Routes.
Context {DB : Type}.
Context `{jwt.Package services.Claims}.

(** The authentication installed on the router: an OPTIONS request and
    a request for one of the six public paths go to the handler, which
    sees them unchanged; for any other request the handler is reached
    only with a bearer token that validates and carries the role admin
    or super-admin, and then with the claims attached; otherwise the
    answer is one of the four rejections, 401 or 403. *)
Theorem authenticate_decision
  (jwtService : services.JWTService) (path : string) (next : http.Handler DB)
  (r : http.Request) (w : World DB) :
  (http.Method r = "OPTIONS" \/ routes.public_path path = true ->
   routes.authenticate jwtService path next r w = next r w)
  /\ (http.Method r <> "OPTIONS" -> routes.public_path path = false ->
      routes.authenticate jwtService path next r w
      = spec.rejected w http.StatusUnauthorized "Authorization header missing"
          "Bearer token is required"
      \/ routes.authenticate jwtService path next r w
         = spec.rejected w http.StatusUnauthorized "Invalid authorization format"
             "Authorization header must be 'Bearer <token>'"
      \/ routes.authenticate jwtService path next r w
         = spec.rejected (spec.tick w) http.StatusUnauthorized "Invalid token"
             "Token is expired or invalid"
      \/ routes.authenticate jwtService path next r w
         = spec.rejected (spec.tick w) http.StatusForbidden "Insufficient permissions"
             "Access denied: admin or super-admin role required"
      \/ exists token claims,
           http.Get (http.Header r) "Authorization" = ("Bearer " ++ token)%string
           /\ fst (services.ValidateToken jwtService token w) = Ok claims
           /\ (services.Role claims = models.RoleAdmin
               \/ services.Role claims = models.RoleSuperAdmin)
           /\ routes.authenticate jwtService path next r w
              = next (http.WithContext r (spec.attached claims (http.Ctx r)))
                  (spec.tick w)).
Proof.
  split.
  - intros [Hoptions | Hpublic]; unfold routes.authenticate.
    + now rewrite Hoptions.
    + rewrite Hpublic. now destruct (String.eqb (http.Method r) "OPTIONS").
  - intros Hmethod Hprotected. unfold routes.authenticate.
    destruct (String.eqb_spec (http.Method r) "OPTIONS") as [E|_]; [contradiction |].
    rewrite Hprotected. cbv zeta.
    unfold middleware.AuthMiddleware.
    set (authHeader := http.Get (http.Header r) "Authorization").
    destruct (String.eqb_spec authHeader "") as [Hempty|Hvalue]; [left; reflexivity |].
    destruct (strings.HasPrefix authHeader "Bearer ") eqn:Hbearer;
      [|right; left; reflexivity].
    cbn [negb].
    set (token := strings.TrimPrefix authHeader "Bearer ").
    pose proof (ValidateToken_ticks jwtService token w) as Hticks.
    unfold bindM.
    destruct (services.ValidateToken jwtService token w) as [[claims|err] w1] eqn:Hvalidate;
      cbn [snd] in Hticks; subst w1.
    + unfold middleware.AdminOrSuperAdminMiddleware, middleware.user_role_of.
      cbn [http.Ctx http.WithContext http.WithValue http.Value String.eqb Ascii.eqb
           Bool.eqb].
      destruct (String.eqb_spec (services.Role claims) models.RoleAdmin) as [Hadmin|_].
      * right; right; right; right. exists token, claims.
        split; [now apply HasPrefix_split |]. split; [now rewrite Hvalidate |].
        split; [left; exact Hadmin | reflexivity].
      * destruct (String.eqb_spec (services.Role claims) models.RoleSuperAdmin)
          as [Hsuper|_].
        -- right; right; right; right. exists token, claims.
           split; [now apply HasPrefix_split |]. split; [now rewrite Hvalidate |].
           split; [right; exact Hsuper | reflexivity].
        -- right; right; right; left. reflexivity.
    + right; right; left. reflexivity.
Qed.

End Routes.

Lemma authenticate_decision_witness :
  routes.public_path "/email/send" = false
  /\ ((exists reply w',
         @routes.authenticate _ sample.jwt_pkg sample.jwtService "/email/send"
           sample.final (sample.bearer "tok-guest") sample.world
         = (Returned reply, w')
         /\ (models.StatusCode reply = 401 \/ models.StatusCode reply = 403))
      \/ exists token claims,
           http.Get (http.Header (sample.bearer "tok-guest")) "Authorization"
           = ("Bearer " ++ token)%string
           /\ fst (@services.ValidateToken _ sample.jwt_pkg sample.jwtService token
                     sample.world) = Ok claims
           /\ (services.Role claims = models.RoleAdmin
               \/ services.Role claims = models.RoleSuperAdmin))
  /\ @routes.authenticate _ sample.jwt_pkg sample.jwtService "/auth/signin" sample.final
       (sample.request "POST" ∅ ∅ "") sample.world
     = sample.final (sample.request "POST" ∅ ∅ "") sample.world.
Proof.
  split; [reflexivity |]. split.
  - destruct (@authenticate_decision _ sample.jwt_pkg sample.jwtService "/email/send"
                sample.final (sample.bearer "tok-guest") sample.world)
      as [_ Hprotected].
    destruct (Hprotected ltac:(discriminate) eq_refl)
      as [Hrun | [Hrun | [Hrun | [Hrun | (token & claims & Hget & Hvalid & Hrole & _)]]]].
    + left. do 2 eexists. split; [exact Hrun |]. left. reflexivity.
    + left. do 2 eexists. split; [exact Hrun |]. left. reflexivity.
    + left. do 2 eexists. split; [exact Hrun |]. left. reflexivity.
    + left. do 2 eexists. split; [exact Hrun |]. right. reflexivity.
    + right. exists token, claims. auto.
  - destruct (@authenticate_decision _ sample.jwt_pkg sample.jwtService "/auth/signin"
                sample.final (sample.request "POST" ∅ ∅ "") sample.world)
      as [Hopen _].
    apply Hopen. right. reflexivity.
Defined.

(** ** Creating users *)

Lemma int64_add_1 (c : Z) : 0 <= c <= 1000 -> int64.add c 1 = c + 1.
Proof.
  intros Hc. unfold int64.add. apply wrap64_small.
  unfold int64.in_range, int64.min_int, int64.max_int. lia.
Qed.

Section UserCreation.
Context {DB : Type}.
Context `{mongo.Driver DB}.
Context `{store.Writer DB}.
Context `{bcrypt.Package}.

Lemma GetUserByUsername_run (username : string) (w : World DB) :
  user_service.GetUserByUsername username w
  = (match mongo.UsersCollection_FindOne (facts.by_username username) (db w) with
     | mongo.Decoded user => Ok (Some user)
     | mongo.ErrNoDocuments => Ok None
     | mongo.FindOneError err => Err err
     end, w).
Proof. reflexivity. Qed.

Lemma loop_step (fuel : nat) (originalUsername username : string) (counter : Z)
  (w : World DB) :
  user_service.username_loop (S fuel) originalUsername username counter w
  = match mongo.UsersCollection_FindOne (facts.by_username username) (db w) with
    | mongo.Decoded _ =>
        if int64.add counter 1 >? 999
        then (Some (Err (errorString
                "unable to generate unique username after multiple attempts")), w)
        else user_service.username_loop fuel originalUsername
               (fmt.Sprintf_sd originalUsername counter) (int64.add counter 1) w
    | mongo.ErrNoDocuments => (Some (Ok username), w)
    | mongo.FindOneError err => (Some (Err err), w)
    end.
Proof.
  cbn [user_service.username_loop]. unfold bindM. rewrite GetUserByUsername_run.
  destruct (mongo.UsersCollection_FindOne _ _); try reflexivity.
  destruct (int64.add counter 1 >? 999); reflexivity.
Qed.

Lemma candidate_next (originalUsername : string) (c : Z) :
  1 <= c -> fmt.Sprintf_sd originalUsername c = facts.candidate originalUsername c.
Proof.
  intros Hc. unfold facts.candidate.
  destruct (Z.eqb_spec c 0); [lia | reflexivity].
Qed.

(** The loop stops at the first candidate that is free. *)
Lemma loop_first_free (originalUsername : string) (w : World DB) (n : nat) :
  forall (fuel : nat) (c : Z),
    1 <= c -> c + Z.of_nat n <= 999 -> (n < fuel)%nat ->
    (forall i, c - 1 <= i < c - 1 + Z.of_nat n ->
       exists other,
         mongo.UsersCollection_FindOne
           (facts.by_username (facts.candidate originalUsername i)) (db w)
         = mongo.Decoded other) ->
    mongo.UsersCollection_FindOne
      (facts.by_username (facts.candidate originalUsername (c - 1 + Z.of_nat n))) (db w)
    = mongo.ErrNoDocuments ->
    user_service.username_loop fuel originalUsername
      (facts.candidate originalUsername (c - 1)) c w
    = (Some (Ok (facts.candidate originalUsername (c - 1 + Z.of_nat n))), w).
Proof.
  induction n as [|n IH]; intros fuel c Hc Hbound Hfuel Htaken Hfree.
  - destruct fuel as [|fuel]; [lia |].
    rewrite loop_step. replace (c - 1 + Z.of_nat 0) with (c - 1) in * by lia.
    now rewrite Hfree.
  - destruct fuel as [|fuel]; [lia |].
    rewrite loop_step.
    destruct (Htaken (c - 1) ltac:(lia)) as [other Hother]. rewrite Hother.
    rewrite int64_add_1 by lia.
    destruct (Z.gtb_spec (c + 1) 999) as [Hgt|_]; [lia |].
    rewrite candidate_next by lia.
    replace (facts.candidate originalUsername c)
      with (facts.candidate originalUsername (c + 1 - 1)) by (f_equal; lia).
    rewrite (IH fuel (c + 1)); try lia.
    + replace (c + 1 - 1 + Z.of_nat n) with (c - 1 + Z.of_nat (S n)) by lia.
      reflexivity.
    + intros i Hi. apply Htaken. lia.
    + replace (c + 1 - 1 + Z.of_nat n) with (c - 1 + Z.of_nat (S n)) by lia.
      exact Hfree.
Qed.

(** The loop gives up once the candidates up to the 998th are taken. *)
Lemma loop_gives_up (originalUsername : string) (w : World DB) (m : nat) :
  forall (fuel : nat) (c : Z),
    1 <= c -> c = 999 - Z.of_nat m -> (m < fuel)%nat ->
    (forall i, c - 1 <= i <= 998 ->
       exists other,
         mongo.UsersCollection_FindOne
           (facts.by_username (facts.candidate originalUsername i)) (db w)
         = mongo.Decoded other) ->
    user_service.username_loop fuel originalUsername
      (facts.candidate originalUsername (c - 1)) c w
    = (Some (Err (errorString
         "unable to generate unique username after multiple attempts")), w).
Proof.
  induction m as [|m IH]; intros fuel c Hc Hm Hfuel Htaken.
  - destruct fuel as [|fuel]; [lia |].
    rewrite loop_step.
    destruct (Htaken (c - 1) ltac:(lia)) as [other Hother]. rewrite Hother.
    rewrite int64_add_1 by lia.
    destruct (Z.gtb_spec (c + 1) 999) as [_|Hle]; [reflexivity | lia].
  - destruct fuel as [|fuel]; [lia |].
    rewrite loop_step.
    destruct (Htaken (c - 1) ltac:(lia)) as [other Hother]. rewrite Hother.
    rewrite int64_add_1 by lia.
    destruct (Z.gtb_spec (c + 1) 999) as [Hgt|_]; [lia |].
    rewrite candidate_next by lia.
    replace (facts.candidate originalUsername c)
      with (facts.candidate originalUsername (c + 1 - 1)) by (f_equal; lia).
    apply IH; try lia.
    intros i Hi. apply Htaken. lia.
Qed.

(** With the fuel [CreateUser] gives it, the loop always ends, and it
    only reads. *)
Lemma loop_ends (originalUsername : string) (w : World DB) (fuel : nat) :
  forall (username : string) (c : Z),
    1 <= c <= 999 -> 1000 - c <= Z.of_nat fuel ->
    exists res,
      user_service.username_loop fuel originalUsername username c w = (Some res, w).
Proof.
  induction fuel as [|fuel IH]; intros username c Hc Hfuel; [lia |].
  rewrite loop_step.
  destruct (mongo.UsersCollection_FindOne _ _); try (eexists; reflexivity).
  rewrite int64_add_1 by lia.
  destruct (Z.gtb_spec (c + 1) 999) as [Hgt|Hle]; [eexists; reflexivity |].
  apply IH; lia.
Qed.

(** The document that [CreateUser] inserts for a user, a username and
    a hash. *)
Lemma CreateUser_prepares (user : models.User) (rnd : string) (username : string)
  (now : time.Time) :
  models.HashPassword
    (user_model.activate
       (user_model.set_Username
          (user_model.set_Username user (models.GenerateUsernameFromEmail user))
          username) now) rnd
  = match bcrypt.GenerateFromPassword (models.Password user) bcrypt.DefaultCost rnd with
    | Ok hashed =>
        (models.set_Password
           (user_model.activate (user_model.set_Username user username) now) hashed,
         None)
    | Err err =>
        (user_model.activate
           (user_model.set_Username
              (user_model.set_Username user (models.GenerateUsernameFromEmail user))
              username) now,
         Some err)
    end.
Proof.
  unfold models.HashPassword. cbn [models.Password user_model.activate user_model.set_Username].
  destruct (bcrypt.GenerateFromPassword _ _ _); reflexivity.
Qed.

(** A new user gets the first free username among the one derived from
    the email and the derived one followed by 1, 2, ..., 998: when the
    email is free, the first [k] candidates are taken and the [k]-th is
    free, the document inserted carries that username, the hash of the
    password, the active flag and the clock reading as creation and
    update time, and the user returned carries the inserted id. *)
Theorem CreateUser_picks_first_free
  (user : models.User) (rnd hashed : string) (k : Z) (w : World DB) :
  mongo.UsersCollection_FindOne (spec.by_email (models.Email user)) (db w)
  = mongo.ErrNoDocuments ->
  models.Email user <> "" ->
  0 <= k <= 998 ->
  let base := models.GenerateUsernameFromEmail user in
  (forall i, 0 <= i < k ->
     exists other,
       mongo.UsersCollection_FindOne (facts.by_username (facts.candidate base i)) (db w)
       = mongo.Decoded other) ->
  mongo.UsersCollection_FindOne (facts.by_username (facts.candidate base k)) (db w)
  = mongo.ErrNoDocuments ->
  bcrypt.GenerateFromPassword (models.Password user) bcrypt.DefaultCost rnd = Ok hashed ->
  let document :=
    models.set_Password
      (user_model.activate (user_model.set_Username user (facts.candidate base k))
         (facts.reading w 0)) hashed in
  user_service.CreateUser user rnd w
  = (Some match fst (store.UsersCollection_InsertOne document (db w)) with
          | Ok (Some oid) => Ok (user_model.set_ID document oid)
          | Ok None => Ok document
          | Err err => Err err
          end,
     facts.advanced w 1 (snd (store.UsersCollection_InsertOne document (db w)))).
Proof.
  intros Hemail Hnonempty Hk base Htaken Hfree Hhash document.
  unfold user_service.CreateUser, user_service.CreateUser_fuel, bindM,
    services.GetUserByEmail, services.find_user, db_read.
  fold (spec.by_email (models.Email user)). rewrite Hemail.
  cbn [models.Username user_model.set_Username]. fold base.
  assert (Hbase : base <> "").
  { destruct (derived_shape user Hnonempty) as [Hlen _]. fold base in Hlen.
    intros E. rewrite E in Hlen. simpl in Hlen. lia. }
  destruct (String.eqb_spec base "") as [E|_]; [contradiction |].
  replace base with (facts.candidate base (1 - 1)) at 2 by reflexivity.
  rewrite (loop_first_free base w (Z.to_nat k) 1000 1); try lia.
  - replace (1 - 1 + Z.of_nat (Z.to_nat k)) with k by lia.
    unfold time_Now. cbn [clock ticks zone_format db].
    rewrite CreateUser_prepares, Hhash.
    subst document.
    unfold db_update, facts.advanced, facts.reading. cbn [clock ticks zone_format db Nat.add].
    destruct (store.UsersCollection_InsertOne _ (db w)) as [[[oid|]|err] stored];
      reflexivity.
  - intros i Hi. apply Htaken. lia.
  - replace (1 - 1 + Z.of_nat (Z.to_nat k)) with k by lia. exact Hfree.
Qed.

(** When the email is free and the derived username and the ones
    followed by 1 to 998 are all taken, [CreateUser] fails with "unable
    to generate unique username after multiple attempts" without
    writing anything; the username followed by 999 is never looked
    up. *)
Theorem CreateUser_gives_up (user : models.User) (rnd : string) (w : World DB) :
  mongo.UsersCollection_FindOne (spec.by_email (models.Email user)) (db w)
  = mongo.ErrNoDocuments ->
  models.Email user <> "" ->
  (forall i, 0 <= i <= 998 ->
     exists other,
       mongo.UsersCollection_FindOne
         (facts.by_username
            (facts.candidate (models.GenerateUsernameFromEmail user) i)) (db w)
       = mongo.Decoded other) ->
  user_service.CreateUser user rnd w
  = (Some (Err (errorString
       "unable to generate unique username after multiple attempts")), w).
Proof.
  intros Hemail Hnonempty Htaken.
  set (base := models.GenerateUsernameFromEmail user) in *.
  unfold user_service.CreateUser, user_service.CreateUser_fuel, bindM,
    services.GetUserByEmail, services.find_user, db_read.
  fold (spec.by_email (models.Email user)). rewrite Hemail.
  cbn [models.Username user_model.set_Username]. fold base.
  assert (Hbase : base <> "").
  { destruct (derived_shape user Hnonempty) as [Hlen _]. fold base in Hlen.
    intros E. rewrite E in Hlen. simpl in Hlen. lia. }
  destruct (String.eqb_spec base "") as [E|_]; [contradiction |].
  replace base with (facts.candidate base (1 - 1)) at 2 by reflexivity.
  rewrite (loop_gives_up base w 998 1000 1); try lia; [reflexivity |].
  intros i Hi. apply Htaken. lia.
Qed.

Lemma CreateUser_effect (user : models.User) (rnd : string) (w : World DB) :
  (exists res, fst (user_service.CreateUser user rnd w) = Some res)
  /\ (db (snd (user_service.CreateUser user rnd w)) = db w
      \/ exists document hashed,
           bcrypt.GenerateFromPassword (models.Password user) bcrypt.DefaultCost rnd
           = Ok hashed
           /\ models.Password document = hashed
           /\ models.IsActive document = true
           /\ models.Email document = models.Email user
           /\ models.Role document = models.Role user
           /\ db (snd (user_service.CreateUser user rnd w))
              = snd (store.UsersCollection_InsertOne document (db w))).
Proof.
  unfold user_service.CreateUser, user_service.CreateUser_fuel, bindM,
    services.GetUserByEmail, services.find_user, db_read.
  destruct (mongo.UsersCollection_FindOne _ (db w)) as [existing| |err];
    [split; [eexists; reflexivity | left; reflexivity] | |
     split; [eexists; reflexivity | left; reflexivity]].
  cbn [models.Username user_model.set_Username].
  set (base := models.GenerateUsernameFromEmail user).
  destruct (String.eqb base ""); [split; [eexists; reflexivity | left; reflexivity] |].
  destruct (loop_ends base w 1000 base 1 ltac:(lia) ltac:(lia)) as [res Hloop].
  rewrite Hloop.
  destruct res as [username|err]; [|split; [eexists; reflexivity | left; reflexivity]].
  unfold time_Now. cbn [clock ticks zone_format db].
  rewrite CreateUser_prepares.
  destruct (bcrypt.GenerateFromPassword (models.Password user) bcrypt.DefaultCost rnd)
    as [hashed|err] eqn:Hhash; [|split; [eexists; reflexivity | left; reflexivity]].
  unfold db_update. cbn [clock ticks zone_format db].
  set (document := models.set_Password _ hashed).
  split.
  - destruct (store.UsersCollection_InsertOne document (db w)) as [[[oid|]|err] stored];
      eexists; reflexivity.
  - right. exists document, hashed.
    split; [reflexivity |]. repeat split.
    destruct (store.UsersCollection_InsertOne document (db w)) as [[[oid|]|err] stored];
      reflexivity.
Qed.

(** [CreateUser] always ends, and it writes at most one document: one
    whose password is the bcrypt hash of the given one, never the
    plaintext as given, whose active flag is set and whose email and
    role are the given ones. In every other case the database is left
    as it was. *)
Theorem CreateUser_writes_hashed_only (user : models.User) (rnd : string) (w : World DB) :
  (exists res, fst (user_service.CreateUser user rnd w) = Some res)
  /\ (db (snd (user_service.CreateUser user rnd w)) = db w
      \/ exists document hashed,
           bcrypt.GenerateFromPassword (models.Password user) bcrypt.DefaultCost rnd
           = Ok hashed
           /\ models.Password document = hashed
           /\ models.IsActive document = true
           /\ models.Email document = models.Email user
           /\ models.Role document = models.Role user
           /\ db (snd (user_service.CreateUser user rnd w))
              = snd (store.UsersCollection_InsertOne document (db w))).
Proof. exact (CreateUser_effect user rnd w). Qed.

End UserCreation.

Lemma CreateUser_picks_first_free_witness :
  models.GenerateUsernameFromEmail fixture.newcomer = "johndoe"
  /\ exists created,
       fst (@user_service.CreateUser _ fixture.driver fixture.writer sample.bcrypt_pkg
              fixture.newcomer "salt" fixture.world)
       = Some (Ok created)
       /\ models.Username created = "johndoe2"
       /\ models.Password created = "$2a$password1"
       /\ models.IsActive created = true.
Proof.
  split; [reflexivity |].
  pose proof (@CreateUser_picks_first_free _ fixture.driver fixture.writer
                sample.bcrypt_pkg fixture.newcomer "salt" "$2a$password1" 2
                fixture.world) as Hcreate.
  cbv zeta in Hcreate.
  eexists. split.
  - rewrite Hcreate.
    + reflexivity.
    + reflexivity.
    + discriminate.
    + lia.
    + intros i Hi. assert (Hcases : i = 0 \/ i = 1) by lia.
      destruct Hcases as [-> | ->]; eexists; reflexivity.
    + reflexivity.
    + reflexivity.
  - split; [reflexivity |]. split; reflexivity.
Defined.

Lemma CreateUser_gives_up_witness :
  @user_service.CreateUser _ fixture.crowded fixture.writer sample.bcrypt_pkg
    fixture.newcomer "salt" fixture.world
  = (Some (Err (errorString
       "unable to generate unique username after multiple attempts")), fixture.world).
Proof.
  apply (@CreateUser_gives_up _ fixture.crowded fixture.writer sample.bcrypt_pkg
           fixture.newcomer "salt" fixture.world).
  - reflexivity.
  - discriminate.
  - intros i Hi. exists fixture.john.
    cbn [mongo.UsersCollection_FindOne fixture.crowded]. unfold facts.by_username.
    now rewrite lookup_singleton_eq.
Defined.

(** ** Enquiries: submission and retrieval *)

Lemma NewDateTimeFromTime_floor (t : time.Time) :
  int64.in_range t -> models.NewDateTimeFromTime t = t / 1000000.
Proof.
  unfold int64.in_range, int64.min_int, int64.max_int. intros Ht.
  unfold models.NewDateTimeFromTime, time.Unix, time.Nanosecond_of, time.Second,
    int64.add, int64.mul.
  pose proof (Z.div_mod t 1000000000 ltac:(lia)) as Hdm.
  pose proof (Z.mod_pos_bound t 1000000000 ltac:(lia)) as Hr.
  set (q := t / 1000000000) in *. set (ns := t mod 1000000000) in *.
  assert (Hq : - 2 ^ 34 <= q <= 2 ^ 34) by lia.
  rewrite Z.quot_div_nonneg by lia.
  assert (Hms : 0 <= ns / 1000000 < 1000) by (Z.div_mod_to_equations; lia).
  assert (Hw : forall z, - 2 ^ 62 <= z <= 2 ^ 62 -> int64.wrap64 z = z).
  { intros z Hz. apply wrap64_small.
    unfold int64.in_range, int64.min_int, int64.max_int. lia. }
  rewrite (Hw (q * 1000)) by lia. rewrite (Hw (ns / 1000000)) by lia.
  rewrite Hw by lia.
  rewrite Hdm. replace (1000000000 * q + ns) with (ns + (q * 1000) * 1000000) by lia.
  rewrite Z.div_add by lia. lia.
Qed.

Lemma hex_byte (b : ascii) :
  primitive.hex_value (models.hex_digit (N_of_ascii b / 16)) = Some (N_of_ascii b / 16)%N
  /\ primitive.hex_value (models.hex_digit (N_of_ascii b mod 16))
     = Some (N_of_ascii b mod 16)%N
  /\ ascii_of_N (N_of_ascii b / 16 * 16 + N_of_ascii b mod 16) = b.
Proof. destruct b as [[] [] [] [] [] [] [] []]; vm_compute; repeat split. Qed.

Lemma hex_decode_Hex (id : models.ObjectID) : primitive.hex_decode (models.Hex id) = Some id.
Proof.
  induction id as [|b id IH]; [reflexivity |].
  cbn [models.Hex primitive.hex_decode].
  destruct (hex_byte b) as (Hhi & Hlo & Hbyte).
  now rewrite Hhi, Hlo, IH, Hbyte.
Qed.

Lemma length_Hex (id : models.ObjectID) :
  String.length (models.Hex id) = (2 * List.length id)%nat.
Proof. induction id as [|b id IH]; simpl; [reflexivity | rewrite IH; lia]. Qed.

Lemma ObjectIDFromHex_Hex (id : models.ObjectID) :
  List.length id = 12%nat -> primitive.ObjectIDFromHex (models.Hex id) = Ok id.
Proof.
  intros Hlen. unfold primitive.ObjectIDFromHex, strings.len.
  rewrite length_Hex, Hlen. cbn [negb Z.eqb Z.of_nat Nat.mul Nat.add].
  now rewrite hex_decode_Hex.
Qed.

Lemma hex_value_digit (c : ascii) :
  facts.is_hex_digit c = true ->
  exists h, primitive.hex_value c = Some h /\ (h < 16)%N
            /\ models.hex_digit h = strings.lower_byte c.
Proof.
  destruct c as [[] [] [] [] [] [] [] []]; intros Hdigit;
    try (vm_compute in Hdigit; discriminate Hdigit);
    eexists; (split; [vm_compute; reflexivity |]); split; vm_compute; reflexivity.
Qed.

Lemma hex_value_none (c : ascii) :
  facts.is_hex_digit c = false -> primitive.hex_value c = None.
Proof. by_bytes_with c. Qed.

Lemma byte_of_digits (h l : N) :
  (h < 16)%N -> (l < 16)%N ->
  (N_of_ascii (ascii_of_N (h * 16 + l)) / 16 = h
   /\ N_of_ascii (ascii_of_N (h * 16 + l)) mod 16 = l)%N.
Proof.
  intros Hh Hl. rewrite N_ascii_embedding by lia. split.
  - symmetry. apply N.div_unique with l; lia.
  - symmetry. apply N.mod_unique with h; lia.
Qed.

Lemma hex_decode_digits (n : nat) :
  forall s,
    String.length s = (2 * n)%nat ->
    spec.all_chars facts.is_hex_digit s = true ->
    exists bytes,
      primitive.hex_decode s = Some bytes
      /\ List.length bytes = n
      /\ models.Hex bytes = strings.ToLower s.
Proof.
  induction n as [|n IH]; intros s Hlen Hall.
  - destruct s; [|discriminate]. exists []. repeat split.
  - destruct s as [|hi [|lo rest]]; try (simpl in Hlen; lia).
    cbn [spec.all_chars] in Hall.
    apply andb_true_iff in Hall as [Hhi Hall].
    apply andb_true_iff in Hall as [Hlo Hall].
    destruct (hex_value_digit hi Hhi) as (h & Hh & Hh16 & Hhd).
    destruct (hex_value_digit lo Hlo) as (l & Hl & Hl16 & Hld).
    destruct (IH rest ltac:(simpl in Hlen; lia) Hall) as (bytes & Hrest & Hcount & Hhex).
    exists (ascii_of_N (h * 16 + l) :: bytes).
    cbn [primitive.hex_decode]. rewrite Hh, Hl, Hrest.
    split; [reflexivity |]. split; [simpl; now rewrite Hcount |].
    cbn [models.Hex strings.ToLower].
    destruct (byte_of_digits h l Hh16 Hl16) as [-> ->].
    now rewrite Hhd, Hld, Hhex.
Qed.

Lemma hex_decode_other (n : nat) :
  forall s,
    (String.length s <= 2 * n)%nat ->
    spec.all_chars facts.is_hex_digit s = false ->
    primitive.hex_decode s = None.
Proof.
  induction n as [|n IH]; intros s Hlen Hall.
  - destruct s; [discriminate | simpl in Hlen; lia].
  - destruct s as [|hi [|lo rest]]; [discriminate | reflexivity |].
    cbn [spec.all_chars] in Hall. cbn [primitive.hex_decode].
    destruct (facts.is_hex_digit hi) eqn:Hhi;
      [|now rewrite (hex_value_none hi Hhi)].
    destruct (facts.is_hex_digit lo) eqn:Hlo;
      [|rewrite (hex_value_none lo Hlo); now destruct (primitive.hex_value hi)].
    cbn [andb] in Hall.
    rewrite (IH rest ltac:(simpl in Hlen; lia) Hall).
    destruct (primitive.hex_value hi); [|reflexivity].
    destruct (primitive.hex_value lo); reflexivity.
Qed.

Lemma ObjectIDFromHex_malformed (s : string) :
  facts.hex_id s = false -> exists err, primitive.ObjectIDFromHex s = Err err.
Proof.
  unfold facts.hex_id, primitive.ObjectIDFromHex, strings.len. intros Hid.
  destruct (Nat.eqb_spec (String.length s) 24) as [Hlen|Hlen].
  - cbn [andb] in Hid. rewrite Hlen. cbn [Z.of_nat Z.eqb Pos.eqb Pos.of_succ_nat negb].
    replace (Z.of_nat 24 =? 24) with true by reflexivity. cbn [negb].
    rewrite (hex_decode_other 12 s ltac:(lia) Hid). eexists. reflexivity.
  - destruct (Z.eqb_spec (Z.of_nat (String.length s)) 24) as [E|_]; [lia |].
    eexists. reflexivity.
Qed.

Lemma ObjectIDFromHex_well_formed (s : string) :
  facts.hex_id s = true ->
  exists id, primitive.ObjectIDFromHex s = Ok id
             /\ List.length id = 12%nat
             /\ models.Hex id = strings.ToLower s.
Proof.
  unfold facts.hex_id, primitive.ObjectIDFromHex, strings.len. intros Hid.
  apply andb_true_iff in Hid as [Hlen Hall]. apply Nat.eqb_eq in Hlen.
  destruct (hex_decode_digits 12 s Hlen Hall) as (id & Hdecode & Hcount & Hhex).
  exists id. rewrite Hlen, Hdecode.
  replace (Z.of_nat 24 =? 24) with true by reflexivity.
  repeat split; assumption.
Qed.

Lemma list_loop_map (users : list models.User) :
  forall acc,
    user_service.list_loop users acc
    = List.app acc (List.map user_model.ToListResponse users).
Proof.
  induction users as [|user users IH]; intros acc; simpl.
  - now rewrite List.app_nil_r.
  - rewrite IH, <- List.app_assoc. reflexivity.
Qed.

Section Enquiries.
Context {DB : Type}.
Context `{store.Writer DB}.
Context `{response.Decoders}.

(** An enquiry is stored with the time of the server, cut to
    milliseconds, as its creation and update time, whatever times it
    came with; the enquiry returned carries the inserted id. *)
Theorem CreateEnquiry_stamps (query : models.Query) (w : World DB) :
  int64.in_range (facts.reading w 0) ->
  let now := facts.reading w 0 / 1000000 in
  let document := query_model.stamp query now in
  models.Q_CreatedAt document = now
  /\ models.Q_UpdatedAt document = now
  /\ enquiry_service.CreateEnquiry query w
     = (match fst (store.Collection_InsertOne document (db w)) with
        | Ok (Some oid) => Ok (query_model.set_QueryID document oid)
        | Ok None => Ok document
        | Err err => Err err
        end,
        facts.advanced w 1 (snd (store.Collection_InsertOne document (db w)))).
Proof.
  intros Hclock now document. split; [reflexivity |]. split; [reflexivity |].
  unfold enquiry_service.CreateEnquiry, bindM, time_Now, db_update.
  cbn [clock ticks zone_format db].
  unfold facts.reading in Hclock. cbn [Nat.add] in Hclock.
  rewrite (NewDateTimeFromTime_floor _ Hclock).
  subst document now. unfold facts.reading, facts.advanced. cbn [Nat.add].
  destruct (store.Collection_InsertOne _ (db w)) as [[[oid|]|err] stored]; reflexivity.
Qed.

(** The enquiry endpoint stores nothing but acceptable enquiries: if
    the database changes, the request was a POST whose body decoded to
    an enquiry with first name, last name, message and an email that is
    shorter than 255 bytes and contains [@] and a dot, and the change
    is the insertion of that enquiry with the server's time. *)
Theorem CreateEnquiry_stores_acceptable_only (r : http.Request) (w : World DB) :
  db (snd (enquiry_controller.CreateEnquiry r w)) = db w
  \/ exists query,
       http.Method r = "POST"
       /\ response.Decode_Query (http.Body r) = Ok query
       /\ facts.acceptable query
       /\ db (snd (enquiry_controller.CreateEnquiry r w))
          = snd (store.Collection_InsertOne
                   (query_model.stamp query
                      (models.NewDateTimeFromTime (facts.reading w 0))) (db w)).
Proof.
  unfold enquiry_controller.CreateEnquiry.
  destruct (String.eqb_spec (http.Method r) "POST") as [Hmethod|_]; [|left; reflexivity].
  cbn [negb].
  destruct (strings.HasPrefix _ "application/json"); [|left; reflexivity].
  cbn [negb].
  destruct (response.Decode_Query (http.Body r)) as [query|err] eqn:Hdecode;
    [|left; reflexivity].
  destruct (query_model.Validate query) eqn:Hvalid; [|left; reflexivity].
  destruct (query_model.ValidateEmail query) eqn:Hsize; [|left; reflexivity].
  destruct (strings.ContainsByte (models.Q_Email query) "@"%char) eqn:Hat;
    [|left; reflexivity].
  destruct (strings.ContainsByte (models.Q_Email query) "."%char) eqn:Hdot;
    [|left; reflexivity].
  cbn [negb orb].
  right. exists query. split; [exact Hmethod |]. split; [reflexivity |]. split.
  - unfold query_model.Validate in Hvalid. unfold query_model.ValidateEmail in Hsize.
    repeat (apply andb_true_iff in Hvalid as [Hvalid ?]).
    apply andb_true_iff in Hsize as [_ Hsize]. apply Z.ltb_lt in Hsize.
    unfold facts.acceptable.
    repeat match goal with
           | Hx : negb (String.eqb ?a "") = true |- _ =>
               apply negb_true_iff, String.eqb_neq in Hx
           end.
    tauto.
  - unfold bindM, enquiry_service.CreateEnquiry, bindM, time_Now, db_update.
    cbn [clock ticks zone_format db]. unfold facts.reading. cbn [Nat.add].
    destruct (store.Collection_InsertOne _ (db w)) as [[[oid|]|err] stored];
      reflexivity.
Qed.

(** A submission that is acceptable and that the store inserts is
    answered 201 with the id the store gave and the server's time. *)
Theorem CreateEnquiry_accepts
  (r : http.Request) (query : models.Query) (oid : models.ObjectID) (w : World DB) :
  http.Method r = "POST" ->
  strings.HasPrefix (http.Get (http.Header r) "Content-Type") "application/json" = true ->
  response.Decode_Query (http.Body r) = Ok query ->
  facts.acceptable query ->
  let document :=
    query_model.stamp query (models.NewDateTimeFromTime (facts.reading w 0)) in
  fst (store.Collection_InsertOne document (db w)) = Ok (Some oid) ->
  enquiry_controller.CreateEnquiry r w
  = facts.succeeded
      (facts.advanced w 1 (snd (store.Collection_InsertOne document (db w))))
      201 "Enquiry submitted successfully. We will get back to you soon."
      (response.EnquiryCreated oid (models.NewDateTimeFromTime (facts.reading w 0))).
Proof.
  intros Hmethod Hct Hdecode (Hfirst & Hlast & Hemail & Hmessage & Hsize & Hat & Hdot)
    document Hinsert.
  unfold enquiry_controller.CreateEnquiry. rewrite Hmethod.
  cbn [String.eqb Ascii.eqb Bool.eqb negb]. rewrite Hct. cbn [negb]. rewrite Hdecode.
  assert (Hvalid : query_model.Validate query = true).
  { unfold query_model.Validate.
    apply String.eqb_neq in Hfirst, Hlast, Hemail, Hmessage.
    now rewrite Hfirst, Hlast, Hemail, Hmessage. }
  assert (Hlen : query_model.ValidateEmail query = true).
  { unfold query_model.ValidateEmail. apply andb_true_iff. split.
    - apply Z.gtb_gt. unfold strings.len.
      destruct (models.Q_Email query); [contradiction | simpl; lia].
    - now apply Z.ltb_lt. }
  rewrite Hvalid, Hlen, Hat, Hdot. cbn [negb orb].
  unfold bindM, enquiry_service.CreateEnquiry, bindM, time_Now, db_update.
  cbn [clock ticks zone_format db].
  subst document. unfold facts.reading in *. cbn [Nat.add] in *.
  destruct (store.Collection_InsertOne _ (db w)) as [inserted stored].
  cbn [fst snd] in *. subst inserted. reflexivity.
Qed.

(** Retrieval by id. An id that is not twenty-four hexadecimal digits,
    of either case, whether it has another length or holds another
    byte, is answered 400 without a look at the store. A well-formed
    id names twelve bytes, those whose hexadecimal form is the id in
    lower case, and these are looked up: the answer is 200 with the enquiry,
    404 when there is none, and 500 with the text of the error when
    the store fails. In particular the hexadecimal form of a twelve
    byte id looks that very id up. *)
Theorem GetEnquiryByID_by_hex (idStr : string) (r : http.Request) (w : World DB) :
  http.Method r = "GET" ->
  let lookup (id : models.ObjectID) :=
    match store.Collection_FindOne (facts.by_id id) (db w) with
    | mongo.Decoded enquiry =>
        facts.succeeded w http.StatusOK "Enquiry retrieved successfully"
          (response.Enquiry enquiry)
    | mongo.ErrNoDocuments =>
        facts.rejected w 404 "Enquiry not found"
          "No enquiry found with the provided ID"
    | mongo.FindOneError err =>
        facts.rejected w http.StatusInternalServerError
          "Failed to retrieve enquiry" (Error err)
    end in
  (facts.hex_id idStr = false ->
   enquiry_controller.GetEnquiryByID idStr r w
   = facts.rejected w http.StatusBadRequest "Invalid enquiry ID"
       "Please provide a valid enquiry ID")
  /\ (facts.hex_id idStr = true ->
      exists id,
        List.length id = 12%nat
        /\ models.Hex id = strings.ToLower idStr
        /\ enquiry_controller.GetEnquiryByID idStr r w = lookup id)
  /\ (forall id, List.length id = 12%nat ->
      facts.hex_id (models.Hex id) = true
      /\ enquiry_controller.GetEnquiryByID (models.Hex id) r w = lookup id).
Proof.
  intros Hmethod lookup.
  assert (Hfound : forall s id,
            primitive.ObjectIDFromHex s = Ok id ->
            enquiry_controller.GetEnquiryByID s r w = lookup id).
  { intros s id Hparse. unfold enquiry_controller.GetEnquiryByID.
    rewrite Hmethod, Hparse. cbn [String.eqb Ascii.eqb Bool.eqb negb].
    unfold bindM, enquiry_service.GetEnquiryByID, db_read.
    fold (facts.by_id id). subst lookup. cbv beta.
    destruct (store.Collection_FindOne (facts.by_id id) (db w)); reflexivity. }
  split; [|split].
  - intros Hid. destruct (ObjectIDFromHex_malformed idStr Hid) as [err Herr].
    unfold enquiry_controller.GetEnquiryByID. rewrite Hmethod, Herr. reflexivity.
  - intros Hid.
    destruct (ObjectIDFromHex_well_formed idStr Hid) as (id & Hparse & Hcount & Hhex).
    exists id. split; [exact Hcount |]. split; [exact Hhex |]. now apply Hfound.
  - intros id Hcount. split; [|apply Hfound; now apply ObjectIDFromHex_Hex].
    destruct (facts.hex_id (models.Hex id)) eqn:Hid; [reflexivity |].
    destruct (ObjectIDFromHex_malformed _ Hid) as [err Herr].
    rewrite (ObjectIDFromHex_Hex id Hcount) in Herr. discriminate.
Qed.

End Enquiries.

Lemma CreateEnquiry_stamps_witness :
  int64.in_range (facts.reading fixture.world 0)
  /\ exists stored,
       fst (@enquiry_service.CreateEnquiry _ fixture.writer (sample.enquiry 0) fixture.world)
       = Ok stored
       /\ models.Q_CreatedAt (sample.enquiry 0) = 1705276800000
       /\ models.Q_CreatedAt stored = 1700000000000
       /\ models.Q_UpdatedAt stored = 1700000000000
       /\ models.QueryID stored = fixture.fresh_id 3.
Proof.
  assert (Hclock : int64.in_range (facts.reading fixture.world 0))
    by (vm_compute; split; discriminate).
  split; [exact Hclock |].
  destruct (@CreateEnquiry_stamps _ fixture.writer (sample.enquiry 0) fixture.world Hclock)
    as (_ & _ & Hrun).
  rewrite Hrun. eexists. split; [reflexivity |]. repeat split.
Defined.

Lemma CreateEnquiry_accepts_witness :
  exists w',
    @enquiry_controller.CreateEnquiry _ fixture.writer fixture.decoders
      (fixture.submit fixture.enquiry_body) fixture.world
    = facts.succeeded w' 201
        "Enquiry submitted successfully. We will get back to you soon."
        (response.EnquiryCreated (fixture.fresh_id 3) 1700000000000).
Proof.
  eexists.
  rewrite (@CreateEnquiry_accepts _ fixture.writer fixture.decoders
             (fixture.submit fixture.enquiry_body) fixture.ada (fixture.fresh_id 3)
             fixture.world).
  - reflexivity.
  - reflexivity.
  - reflexivity.
  - reflexivity.
  - unfold facts.acceptable. cbn. repeat split; discriminate.
  - reflexivity.
Defined.

Lemma GetEnquiryByID_by_hex_witness :
  let w1 := snd (@enquiry_controller.CreateEnquiry _ fixture.writer fixture.decoders
                   (fixture.submit fixture.enquiry_body) fixture.world) in
  @enquiry_controller.GetEnquiryByID _ fixture.writer "not-an-id" fixture.get w1
  = facts.rejected w1 http.StatusBadRequest "Invalid enquiry ID"
      "Please provide a valid enquiry ID"
  /\ @enquiry_controller.GetEnquiryByID _ fixture.writer "00000000000000000000000g"
       fixture.get w1
     = facts.rejected w1 http.StatusBadRequest "Invalid enquiry ID"
         "Please provide a valid enquiry ID"
  /\ models.Hex (fixture.fresh_id 3) = "000000000000000000000003"
  /\ exists stored,
       @enquiry_controller.GetEnquiryByID _ fixture.writer
         "000000000000000000000003" fixture.get w1
       = facts.succeeded w1 http.StatusOK "Enquiry retrieved successfully"
           (response.Enquiry stored)
       /\ models.Q_Email stored = "ada@maths.org"
       /\ models.Q_CreatedAt stored = 1700000000000.
Proof.
  intros w1.
  destruct (@GetEnquiryByID_by_hex _ fixture.writer "not-an-id" fixture.get w1 eq_refl)
    as (Hshort & _ & _).
  destruct (@GetEnquiryByID_by_hex _ fixture.writer "00000000000000000000000g"
              fixture.get w1 eq_refl) as (Hbyte & _ & _).
  destruct (@GetEnquiryByID_by_hex _ fixture.writer "" fixture.get w1 eq_refl)
    as (_ & _ & Hfound).
  split; [apply Hshort; reflexivity |].
  split; [apply Hbyte; reflexivity |].
  split; [reflexivity |].
  destruct (Hfound (fixture.fresh_id 3) eq_refl) as [_ Hrun].
  eexists. split.
  - change "000000000000000000000003" with (models.Hex (fixture.fresh_id 3)).
    rewrite Hrun. reflexivity.
  - split; reflexivity.
Defined.

(** ** The create-user and list-users endpoints *)

Section UserEndpoints.
Context {DB : Type}.
Context `{mongo.Driver DB}.
Context `{store.Writer DB}.
Context `{bcrypt.Package}.
Context `{response.Decoders}.

Lemma bindM_run {A B : Type} (m : M DB A) (k : A -> M DB B) (w : World DB) :
  bindM m k w = k (fst (m w)) (snd (m w)).
Proof. unfold bindM. destruct (m w); reflexivity. Qed.

Lemma answer_reject (statusCode : Z) (message detail : string) (w : World DB) :
  (do reply <- response.reject statusCode message detail; ret (Some reply)) w
  = facts.answered (facts.rejected w statusCode message detail).
Proof. reflexivity. Qed.

Lemma answer_succeed (statusCode : Z) (message : string) (data : response.Data)
  (w : World DB) :
  (do reply <- response.succeed statusCode message data; ret (Some reply)) w
  = facts.answered (facts.succeeded w statusCode message data).
Proof. reflexivity. Qed.

Lemma well_formed_checks (createReq : user_model.CreateUserRequest) :
  facts.well_formed createReq ->
  (String.eqb (user_model.C_FirstName createReq) ""
   || String.eqb (user_model.C_LastName createReq) ""
   || String.eqb (user_model.C_Email createReq) ""
   || String.eqb (user_model.C_Password createReq) "") = false
  /\ (negb (strings.ContainsByte (user_model.C_Email createReq) "@"%char)
      || negb (strings.ContainsByte (user_model.C_Email createReq) "."%char)) = false
  /\ (strings.len (user_model.C_Password createReq) <? 8) = false
  /\ (negb (String.eqb (user_model.C_Role createReq) models.RoleAdmin)
      && negb (String.eqb (user_model.C_Role createReq) models.RoleSuperAdmin)) = false.
Proof.
  intros (Hfirst & Hlast & Hemail & Hpassword & Hat & Hdot & Hlen & Hrole).
  apply String.eqb_neq in Hfirst, Hlast, Hemail, Hpassword.
  rewrite Hfirst, Hlast, Hemail, Hpassword, Hat, Hdot.
  repeat split.
  - now apply Z.ltb_ge.
  - destruct Hrole as [-> | ->]; reflexivity.
Qed.

Lemma checks_well_formed (createReq : user_model.CreateUserRequest) :
  (String.eqb (user_model.C_FirstName createReq) ""
   || String.eqb (user_model.C_LastName createReq) ""
   || String.eqb (user_model.C_Email createReq) ""
   || String.eqb (user_model.C_Password createReq) "") = false ->
  (negb (strings.ContainsByte (user_model.C_Email createReq) "@"%char)
   || negb (strings.ContainsByte (user_model.C_Email createReq) "."%char)) = false ->
  (strings.len (user_model.C_Password createReq) <? 8) = false ->
  (negb (String.eqb (user_model.C_Role createReq) models.RoleAdmin)
   && negb (String.eqb (user_model.C_Role createReq) models.RoleSuperAdmin)) = false ->
  facts.well_formed createReq.
Proof.
  intros Hfields Hemail Hlen Hrole.
  repeat (apply orb_false_iff in Hfields as [Hfields ?]).
  apply orb_false_iff in Hemail as [Hat Hdot].
  apply negb_false_iff in Hat, Hdot. apply Z.ltb_ge in Hlen.
  unfold facts.well_formed.
  repeat match goal with
         | Hx : String.eqb _ "" = false |- _ => apply String.eqb_neq in Hx
         end.
  repeat (split; [assumption |]).
  apply andb_false_iff in Hrole as [Hrole | Hrole];
    apply negb_false_iff, String.eqb_eq in Hrole; [left | right]; exact Hrole.
Qed.

(** The create-user endpoint always answers, and it stores nothing but
    well-formed users: if the database changes, the request was a POST
    whose body decoded to a request with all four required fields, an
    email with [@] and a dot, a password of at least eight bytes and
    the role admin or super-admin, and the change is the insertion of
    one active user with that email and role whose password is the
    bcrypt hash of the requested one. *)
Theorem CreateUser_endpoint_stores_well_formed_only
  (rnd : string) (r : http.Request) (w : World DB) :
  (exists reply, fst (user_controller.CreateUser rnd r w) = Some reply)
  /\ (db (snd (user_controller.CreateUser rnd r w)) = db w
      \/ exists createReq document hashed,
           http.Method r = "POST"
           /\ response.Decode_CreateUserRequest (http.Body r) = Ok createReq
           /\ facts.well_formed createReq
           /\ bcrypt.GenerateFromPassword (user_model.C_Password createReq)
                bcrypt.DefaultCost rnd = Ok hashed
           /\ models.Password document = hashed
           /\ models.IsActive document = true
           /\ models.Email document = user_model.C_Email createReq
           /\ models.Role document = user_model.C_Role createReq
           /\ db (snd (user_controller.CreateUser rnd r w))
              = snd (store.UsersCollection_InsertOne document (db w))).
Proof.
  unfold user_controller.CreateUser. cbv zeta.
  destruct (String.eqb_spec (http.Method r) "POST") as [Hmethod|_];
    [|split; [eexists; reflexivity | left; reflexivity]].
  cbn [negb].
  destruct (strings.HasPrefix _ "application/json");
    [|split; [eexists; reflexivity | left; reflexivity]].
  cbn [negb].
  destruct (response.Decode_CreateUserRequest (http.Body r)) as [createReq|err] eqn:Hdecode;
    [|split; [eexists; reflexivity | left; reflexivity]].
  destruct (_ || _ || _ || _) eqn:Hfields;
    [split; [eexists; reflexivity | left; reflexivity] |].
  destruct (negb _ || negb _) eqn:Hemail;
    [split; [eexists; reflexivity | left; reflexivity] |].
  destruct (_ <? 8) eqn:Hlen; [split; [eexists; reflexivity | left; reflexivity] |].
  destruct (negb _ && negb _) eqn:Hrole;
    [split; [eexists; reflexivity | left; reflexivity] |].
  pose proof (checks_well_formed createReq Hfields Hemail Hlen Hrole) as Hwell.
  destruct (CreateUser_effect (user_controller.user_of_request createReq) rnd w)
    as [[res Hres] Hdb].
  rewrite !bindM_run.
  destruct (user_service.CreateUser (user_controller.user_of_request createReq) rnd w)
    as [created w1] eqn:Hrun.
  cbn [fst snd] in Hres, Hdb |- *. subst created.
  destruct res as [createdUser|err];
    [|destruct (strings_Contains (Error err) "email already exists")];
    (split; [eexists; reflexivity |]);
    (destruct Hdb as [Hdb | (document & hashed & Hhash & Hpassword & Hactive & Hmail
                              & Hrole' & Hdb)];
     [left; exact Hdb |
      right; exists createReq, document, hashed;
      repeat (split; [assumption || reflexivity |]); exact Hdb]).
Qed.

(** A well-formed request for an email that is registered is answered
    409 and leaves the database as it was. *)
Theorem CreateUser_endpoint_conflict
  (rnd : string) (r : http.Request) (createReq : user_model.CreateUserRequest)
  (existing : models.User) (w : World DB) :
  http.Method r = "POST" ->
  strings.HasPrefix (http.Get (http.Header r) "Content-Type") "application/json" = true ->
  response.Decode_CreateUserRequest (http.Body r) = Ok createReq ->
  facts.well_formed createReq ->
  mongo.UsersCollection_FindOne (spec.by_email (user_model.C_Email createReq)) (db w)
  = mongo.Decoded existing ->
  user_controller.CreateUser rnd r w
  = facts.answered
      (facts.rejected w 409 "User already exists" "Email address is already registered").
Proof.
  intros Hmethod Hct Hdecode Hwell Hfound.
  destruct (well_formed_checks createReq Hwell) as (Hfields & Hemail & Hlen & Hrole).
  unfold user_controller.CreateUser. cbv zeta.
  rewrite Hmethod. cbn [String.eqb Ascii.eqb Bool.eqb negb].
  rewrite Hct. cbn [negb]. rewrite Hdecode, Hfields, Hemail, Hlen, Hrole.
  unfold bindM at 1.
  unfold user_service.CreateUser, user_service.CreateUser_fuel, bindM at 1,
    services.GetUserByEmail, services.find_user, db_read.
  cbn [models.Email user_controller.user_of_request].
  fold (spec.by_email (user_model.C_Email createReq)).
  rewrite Hfound. reflexivity.
Qed.

(** The list of users is returned whole, without a limit, in the order
    of the store (newest first is what the store is asked for), each
    user cut to its list form, whatever the method of the request; any
    failure of the store is answered 500 with a fixed text that does
    not show the error. *)
Theorem GetAllUsers_endpoint (r : http.Request) (w : World DB) :
  let listing :=
    match store.UsersCollection_Find ∅
            {| mongo.Limit := None; mongo.Skip := None;
               mongo.Sort := Some {[ "created_at" := bson.Scalar (bson.Int_ (-1)) ]} |}
            (db w) with
    | Ok cursor => store.UsersCursor_All cursor
    | Err err => Err err
    end in
  user_controller.GetAllUsers r w
  = match listing with
    | Ok users =>
        facts.succeeded w http.StatusOK "Users retrieved successfully"
          (response.Users (List.map user_model.ToListResponse users))
    | Err _ =>
        facts.rejected w http.StatusInternalServerError "Failed to fetch users"
          "An error occurred while retrieving users from the database"
    end.
Proof.
  intros listing. subst listing.
  unfold user_controller.GetAllUsers, user_service.GetAllUsersList,
    user_service.GetAllUsers, bindM, db_read.
  cbn [Z.gtb Z.compare].
  unfold mongo.SetSort, mongo.Find_. cbn [mongo.Limit mongo.Skip mongo.Sort].
  destruct (store.UsersCollection_Find _ _ (db w)) as [cursor|err]; [|reflexivity].
  destruct (store.UsersCursor_All cursor) as [users|err]; [|reflexivity].
  unfold ret. cbv beta iota. rewrite list_loop_map. reflexivity.
Qed.

End UserEndpoints.

(** ** The listing endpoint *)

Section ListingEndpoint.
Context {DB : Type}.
Context `{mongo.Driver DB}.

Lemma effective_limit_bounds (limitStr : string) :
  1 <= controllers.effective_limit limitStr <= 100.
Proof.
  unfold controllers.effective_limit.
  destruct (negb (String.eqb limitStr "")); [|lia].
  destruct (strconv.ParseInt limitStr) as [n|err]; [|lia].
  destruct (Z.gtb_spec n 0); [|lia].
  destruct (Z.gtb_spec n 100); lia.
Qed.

Lemma GetAllEnquiries_returns (page limit : Z) (enquiryType date : string) (w : World DB) :
  limit <> 0 ->
  exists res, services.GetAllEnquiries page limit enquiryType date w = (Returned res, w).
Proof.
  intros Hlimit. unfold services.GetAllEnquiries, bindM, db_read.
  destruct (mongo.Collection_Find _ _ (db w)) as [cursor|err]; [|eexists; reflexivity].
  destruct (mongo.Cursor_All cursor) as [items|err]; [|eexists; reflexivity].
  destruct (mongo.Collection_CountDocuments _ (db w)) as [total|err];
    [|eexists; reflexivity].
  unfold int64.div. destruct (Z.eqb_spec limit 0) as [E|_]; [contradiction |].
  eexists. reflexivity.
Qed.

(** The listing endpoint never panics and never writes: whatever the
    request and the store, it answers, with 405 when the method is not
    GET and with 200 or 500 when it is, and the only trace it leaves is
    the clock reading of the reply's timestamp. The division by the
    limit is safe because the effective limit is never zero. *)
Theorem GetAllEnquiries_endpoint_never_panics (r : http.Request) (w : World DB) :
  exists reply,
    controllers.GetAllEnquiries r w = (Returned reply, spec.tick w)
    /\ (http.Method r <> "GET" -> models.StatusCode reply = http.StatusMethodNotAllowed)
    /\ (http.Method r = "GET" ->
        models.StatusCode reply = http.StatusOK
        \/ models.StatusCode reply = http.StatusInternalServerError).
Proof.
  unfold controllers.GetAllEnquiries.
  destruct (String.eqb_spec (http.Method r) "GET") as [Hmethod|Hmethod]; cbn [negb].
  - cbv zeta. unfold bindM at 1.
    pose proof (effective_limit_bounds (http.Get (http.URL_Query r) "limit")) as Hlimit.
    destruct (GetAllEnquiries_returns
                (controllers.effective_page (http.Get (http.URL_Query r) "page"))
                (controllers.effective_limit (http.Get (http.URL_Query r) "limit"))
                (http.Get (http.URL_Query r) "enquiry_type")
                (http.Get (http.URL_Query r) "date") w ltac:(lia)) as [res Hres].
    rewrite Hres.
    destruct res as [listing|err]; eexists;
      (split; [reflexivity |]); (split; [intros Hno; contradiction |]); intros _;
      [left | right]; reflexivity.
  - eexists. split; [reflexivity |]. split; [reflexivity |]. intros Hyes. contradiction.
Qed.

(** The service itself divides by the limit it is given: with a limit
    of zero it panics with a division by zero as soon as the store has
    answered the query and the count. *)
Theorem GetAllEnquiries_zero_limit_panics
  (page totalCount : Z) (enquiryType date : string) (w : World DB)
  (cursor : mongo.Cursor) (items : list models.Query) :
  mongo.Collection_Find (services.build_filter enquiryType date)
    {| mongo.Limit := Some 0; mongo.Skip := Some 0;
       mongo.Sort := Some {[ "created_at" := bson.Scalar (bson.Int_ (-1)) ]} |}
    (db w) = Ok cursor ->
  mongo.Cursor_All cursor = Ok items ->
  mongo.Collection_CountDocuments (services.build_filter enquiryType date) (db w)
  = Ok totalCount ->
  services.GetAllEnquiries page 0 enquiryType date w
  = (Panicked "runtime error: integer divide by zero", w).
Proof.
  intros Hfind Hall Hcount.
  unfold services.GetAllEnquiries, bindM, db_read.
  unfold mongo.Find_, mongo.SetLimit, mongo.SetSkip, mongo.SetSort.
  cbn [mongo.Limit mongo.Skip mongo.Sort].
  replace (int64.mul (int64.sub page 1) 0) with 0
    by (unfold int64.mul; now rewrite Z.mul_0_r).
  rewrite Hfind, Hall, Hcount. reflexivity.
Qed.

End ListingEndpoint.

(** The filter of the listing holds at most the keys [enquiry_type] and
    [created_at], whatever the two parameters are, and the type given
    is matched as a string, as it is. *)
Theorem build_filter_keys (enquiryType date : string) :
  dom (services.build_filter enquiryType date)
    ⊆ ({[ "enquiry_type"; "created_at" ]} : gset string)
  /\ services.build_filter enquiryType date !! "enquiry_type"
     = if String.eqb enquiryType "" then None
       else Some (bson.Scalar (bson.String_ enquiryType)).
Proof.
  unfold services.build_filter. cbv zeta.
  destruct (String.eqb enquiryType ""); cbn [negb];
    (destruct (negb (String.eqb date "")); [destruct (time.Parse date) |]);
    (split; [rewrite ?dom_insert_L, ?dom_empty_L; intros k; set_unfold; tauto |]);
    rewrite ?lookup_insert_ne by discriminate;
    rewrite ?lookup_insert_eq, ?lookup_empty; reflexivity.
Qed.

Lemma GetAllEnquiries_zero_limit_panics_witness :
  exists msg,
    fst (@services.GetAllEnquiries _ sample.driver 1 0 "" "" sample.world) = Panicked msg.
Proof.
  eexists.
  rewrite (@GetAllEnquiries_zero_limit_panics _ sample.driver 1 25 "" "" sample.world
             [] []).
  - reflexivity.
  - reflexivity.
  - reflexivity.
  - reflexivity.
Defined.

Lemma CreateUser_endpoint_conflict_witness :
  exists reply,
    @user_controller.CreateUser _ fixture.driver fixture.writer sample.bcrypt_pkg
      fixture.decoders "salt" (fixture.create_user fixture.duplicate_body) fixture.world
    = (Some (Returned reply), spec.tick fixture.world)
    /\ response.Code reply = 409.
Proof.
  eexists.
  rewrite (@CreateUser_endpoint_conflict _ fixture.driver fixture.writer sample.bcrypt_pkg
             fixture.decoders "salt" (fixture.create_user fixture.duplicate_body)
             fixture.duplicate fixture.john fixture.world).
  - split; reflexivity.
  - reflexivity.
  - reflexivity.
  - reflexivity.
  - unfold facts.well_formed. cbn. repeat split; try discriminate. now left.
  - reflexivity.
Defined.
